(** * The SEROX consensus core: prediction pipeline, evolution and defensive mode

    A shallow embedding of the JavaScript modules [utils.js], [state.js],
    [primary_model.js], [advisory_models.js], [market_sentiment.js] and
    [main.js], and of the [/predict] handler of [index.js], followed by the
    properties established about them.

    Conventions of the embedding.
    - A JavaScript number is an exact rational ([Q]) kept in lowest terms:
      the arithmetic operators below normalise their result, so evaluation
      stays cheap.  Rounding of IEEE doubles is not modelled; [NaN] only
      occurs as the content of a history field ([JNaN]).  The source guards
      its divisions (a positive period, at least two samples, a non-zero
      range, total score or standard-deviation band); the two it leaves
      open, [calculateRSI] with a period of 0 and the z-score over a zero
      standard deviation, would give [NaN] or an infinity and play no part
      in the properties below.
    - [null] returned by a function is [None].
    - The functions are typed over the arguments the pipeline passes them;
      [Raw] adds the calls with a missing or malformed argument and the
      TypeError they can end in.
    - The module-level variables [systemState], [mlFeatureWeights] and
      [marketEvents] are the fields of an explicit [World] that every
      stateful function takes and returns.
    - [Math.random], [Math.sqrt] and [Date.now] are supplied by the
      environment, an explicit [Env] argument. *)

From Stdlib Require Import QArith ZArith List String Ascii Bool Lia Lqa Qabs.
From Stdlib Require Import Sorted Qround DecimalString.
Import ListNotations.
Open Scope Z_scope.
Open Scope string_scope.
Open Scope list_scope.
Open Scope Q_scope.

(** ** JavaScript numbers *)

Declare Scope js_scope.
Delimit Scope js_scope with js.

Definition jadd (a b : Q) : Q := Qred (Qplus a b).
Definition jsub (a b : Q) : Q := Qred (Qminus a b).
Definition jmul (a b : Q) : Q := Qred (Qmult a b).
Definition jdiv (a b : Q) : Q := Qred (Qdiv a b).

(** [a > b], [a < b] and [a === b] on numbers. *)
Definition jgt (a b : Q) : bool := negb (Qle_bool a b).
Definition jlt (a b : Q) : bool := negb (Qle_bool b a).
Definition jeq (a b : Q) : bool := Qeq_bool a b.

Arguments jadd (a b)%_js.
Arguments jsub (a b)%_js.
Arguments jmul (a b)%_js.
Arguments jdiv (a b)%_js.
Arguments jgt (a b)%_js.
Arguments jlt (a b)%_js.
Arguments jeq (a b)%_js.

Infix "+" := jadd : js_scope.
Infix "-" := jsub : js_scope.
Infix "*" := jmul : js_scope.
Infix "/" := jdiv : js_scope.
Infix ">?" := jgt (at level 70, no associativity) : js_scope.
Infix "<?" := jlt (at level 70, no associativity) : js_scope.
Infix "===" := jeq (at level 70, no associativity) : js_scope.

Definition Math_abs (a : Q) : Q := Qabs a.
Definition Math_max (a b : Q) : Q := if Qle_bool a b then b else a.
Definition Math_min (a b : Q) : Q := if Qle_bool a b then a else b.

(** [Math.min(...l)] and [Math.max(...l)]; the callers only spread arrays of
    fourteen elements, the value on the empty array is not used. *)
Definition Math_min_of (l : list Q) : Q :=
  match l with [] => 0 | x :: r => fold_left Math_min r x end.
Definition Math_max_of (l : list Q) : Q :=
  match l with [] => 0 | x :: r => fold_left Math_max r x end.

(** Truthiness of a number ([0] is falsy) and of a possibly-null number. *)
Definition truthy (a : Q) : bool := negb (Qeq_bool a 0).
Definition truthyO (o : option Q) : bool :=
  match o with Some a => truthy a | None => false end.

(** Numeric coercion of a possibly-null number: [null] counts as [0] in
    arithmetic. *)
Definition toNumber (o : option Q) : Q :=
  match o with Some a => a | None => 0 end.

(** [a.slice(0, n)], [a.slice(n)] and [a[i]] on arrays of numbers. *)
Definition slice0 {A} (n : Z) (l : list A) : list A := firstn (Z.to_nat n) l.
Definition sliceFrom {A} (n : nat) (l : list A) : list A := skipn n l.
Definition at_ (l : list Q) (i : nat) : Q := nth i l 0.

Definition len {A} (l : list A) : Z := Z.of_nat (List.length l).

(** ** Data model *)

Inductive Class := BIG | SMALL.

Definition Class_eqb (a b : Class) : bool :=
  match a, b with BIG, BIG | SMALL, SMALL => true | _, _ => false end.

Definition Class_toString (c : Class) : string :=
  match c with BIG => "BIG" | SMALL => "SMALL" end.

Inductive Status := Pending | Win | Loss | Cooldown.

Definition Status_eqb (a b : Status) : bool :=
  match a, b with
  | Pending, Pending | Win, Win | Loss, Loss | Cooldown, Cooldown => true
  | _, _ => false
  end.

(** The content of a numeric field of a history record. *)
Inductive JsNum := JUndefined | JNull | JNaN | JNumber (z : Z).

(** [isNaN(v)]: [undefined] and [NaN] are, [null] converts to [0]. *)
Definition isNaN (v : JsNum) : bool :=
  match v with JUndefined | JNaN => true | JNull | JNumber _ => false end.

Definition JsNum_value (v : JsNum) : Q :=
  match v with JNumber z => inject_Z z | _ => 0 end.

(** A JavaScript object with numeric values, in property order. *)
Definition Obj := list (string * Q).

Fixpoint get (o : Obj) (key : string) : option Q :=
  match o with
  | [] => None
  | (k, v) :: r => if String.eqb k key then Some v else get r key
  end.

(** [o[key] += d] on a property that exists; [o[key] -= d] adds [- d]. *)
Definition bump (o : Obj) (key : string) (d : Q) : Obj :=
  map (fun kv => if String.eqb (fst kv) key then (fst kv, (snd kv + d)%js) else kv) o.

Definition Features := Obj.
Definition Weights := Obj.

Record Outcome := {
  actual : JsNum;
  actualNumber : JsNum;
  status : option Status;
  mlFeatures : option Features;
  lastPredictedOutcome : option Class
}.

(** ** utils.js *)

Definition getBigSmallFromNumber (number : JsNum) : option Class :=
  match number with
  | JUndefined | JNull => None
  | JNaN => None
  | JNumber num =>
      if ((0 <=? num) && (num <=? 4))%Z then Some SMALL
      else if ((5 <=? num) && (num <=? 9))%Z then Some BIG
      else None
  end.

(** The numbers of a history: [history.map(p => p.actualNumber).filter(n => !isNaN(n))]
    as they enter arithmetic. *)
Definition numbersOf (history : list Outcome) : list Q :=
  map JsNum_value (filter (fun n => negb (isNaN n)) (map actualNumber history)).

Definition sum (l : list Q) : Q := fold_left jadd l 0.

Definition calculateSMA (data : list Q) (period : Z) : option Q :=
  if ((len data <? period) || (period <=? 0))%Z then None
  else
    let relevantData := slice0 period data in
    Some (sum relevantData / inject_Z period)%js.

Definition calculateEMA (data : list Q) (period : Z) : option Q :=
  if ((len data <? period) || (period <=? 0))%Z then None
  else
    let k := (2 / (inject_Z period + 1))%js in
    let chronologicalData := rev data in
    match calculateSMA (rev (slice0 period chronologicalData)) period with
    | None => None
    | Some ema0 =>
        Some (fold_left (fun ema x => (x * k) + (ema * (1 - k)))%js
                        (sliceFrom (Z.to_nat period) chronologicalData) ema0)
    end.

(** What the run-time environment supplies: [Math.sqrt], the successive
    results of [Math.random()] and the clock read by [Date.now()]. *)
Record Env := {
  Math_sqrt : Q -> Q;
  Math_random : nat -> Q;
  Date_now : Z
}.

Definition calculateStdDev (env : Env) (data : list Q) (period : Z) : option Q :=
  if ((len data <? period) || (period <=? 0))%Z then None
  else
    let relevantData := slice0 period data in
    if (len relevantData <? 2)%Z then None
    else
      match calculateSMA relevantData (len relevantData) with
      | None => None
      | Some mean =>
          let variance :=
            (fold_left (fun acc val => acc + ((val - mean) * (val - mean)))%js
                       relevantData 0
             / inject_Z (len relevantData - 1))%js in
          Some (Math_sqrt env variance)
      end.

(** The two loops of [calculateRSI] run over the indices [1..period] and
    [period+1..length-1] of the chronological data. *)
Definition calculateRSI (data : list Q) (period : Z) : option Q :=
  if (len data <? period + 1)%Z then None
  else
    let chronologicalData := rev data in
    let p := Z.to_nat period in
    let '(gains, losses) :=
      fold_left
        (fun (gl : Q * Q) i =>
           let change := (at_ chronologicalData i - at_ chronologicalData (i - 1))%js in
           if (change >? 0)%js then ((fst gl + change)%js, snd gl)
           else (fst gl, (snd gl + Math_abs change)%js))
        (seq 1 p) (0, 0) in
    let avgGain0 := (gains / inject_Z period)%js in
    let avgLoss0 := (losses / inject_Z period)%js in
    let '(avgGain, avgLoss) :=
      fold_left
        (fun (ag : Q * Q) i =>
           let change := (at_ chronologicalData i - at_ chronologicalData (i - 1))%js in
           let currentGain := if (change >? 0)%js then change else 0 in
           let currentLoss := if (change <? 0)%js then Math_abs change else 0 in
           (((fst ag * (inject_Z period - 1)) + currentGain) / inject_Z period,
            ((snd ag * (inject_Z period - 1)) + currentLoss) / inject_Z period)%js)
        (seq (p + 1) (List.length chronologicalData - (p + 1))) (avgGain0, avgLoss0) in
    if (avgLoss === 0)%js then Some 100
    else
      let rs := (avgGain / avgLoss)%js in
      Some (100 - (100 / (1 + rs)))%js.


(** ** state.js *)

Record SystemState := {
  MIN_HISTORY : Z;
  BAD_TREND_THRESHOLD : Q;
  TARGET_ACCURACY : Q;
  EVOLUTION_RATE : Q;
  DEFENSIVE_MODE_ACTIVE : bool
}.

Definition systemState0 : SystemState := {|
  MIN_HISTORY := 100;
  BAD_TREND_THRESHOLD := 0.45;
  TARGET_ACCURACY := 0.54;
  EVOLUTION_RATE := 0.005;
  DEFENSIVE_MODE_ACTIVE := false
|}.

Definition mlFeatureWeights0 : Weights :=
  [ ("rsi_strength", 1.5);
    ("rsi_is_overbought", -2.0);
    ("rsi_is_oversold", 2.0);
    ("macd_hist", 2.5);
    ("trend_strength_score", 3.0);
    ("bollinger_pct_reversal", -2.5);
    ("last_move", 0.5);
    ("volatility_expansion", 1.2);
    ("market_sentiment", 1.0);
    ("stochastic_k", -1.8);
    ("rsi_trend_strength", 1.0) ].

Definition set_BAD_TREND_THRESHOLD (s : SystemState) (v : Q) : SystemState :=
  {| MIN_HISTORY := MIN_HISTORY s;
     BAD_TREND_THRESHOLD := v;
     TARGET_ACCURACY := TARGET_ACCURACY s;
     EVOLUTION_RATE := EVOLUTION_RATE s;
     DEFENSIVE_MODE_ACTIVE := DEFENSIVE_MODE_ACTIVE s |}.

Definition set_DEFENSIVE_MODE_ACTIVE (s : SystemState) (b : bool) : SystemState :=
  {| MIN_HISTORY := MIN_HISTORY s;
     BAD_TREND_THRESHOLD := BAD_TREND_THRESHOLD s;
     TARGET_ACCURACY := TARGET_ACCURACY s;
     EVOLUTION_RATE := EVOLUTION_RATE s;
     DEFENSIVE_MODE_ACTIVE := b |}.

Definition evolveSystemParameters (s : SystemState) (globalAccuracy : Q) : SystemState :=
  if (globalAccuracy <? TARGET_ACCURACY s - 0.02)%js then
    set_BAD_TREND_THRESHOLD s
      (Math_min 0.48 (BAD_TREND_THRESHOLD s + EVOLUTION_RATE s)%js)
  else if (globalAccuracy >? TARGET_ACCURACY s + 0.02)%js then
    set_BAD_TREND_THRESHOLD s
      (Math_max 0.42 (BAD_TREND_THRESHOLD s - EVOLUTION_RATE s)%js)
  else s.

(** [p.mlFeatures && p.status]. *)
Definition hasFeaturesAndStatus (p : Outcome) : bool :=
  match mlFeatures p, status p with
  | Some _, Some _ => true
  | _, _ => false
  end.

Definition statusIs (p : Outcome) (s : Status) : bool :=
  match status p with Some s' => Status_eqb s' s | None => false end.

Definition recentTradesOf (history : list Outcome) : list Outcome :=
  slice0 50 (filter hasFeaturesAndStatus history).

(** The body of the inner loop of [evolveMLWeights] for one property
    [key]/[featureValue] of [trade.mlFeatures]. *)
Definition adjustForFeature (w : Weights) (learningRate : Q)
    (wasCorrect wasBigPrediction : bool) (adjustments : Obj) (kv : string * Q) : Obj :=
  let key := fst kv in
  match get w key with
  | None => adjustments
  | Some weight =>
      let featureValue := snd kv in
      let featureImpactIsBig := (featureValue * weight >? 0)%js in
      let wasFeatureAlignedWithPrediction :=
        if wasBigPrediction then featureImpactIsBig else negb featureImpactIsBig in
      if wasCorrect && wasFeatureAlignedWithPrediction then
        bump adjustments key learningRate
      else if negb wasCorrect && wasFeatureAlignedWithPrediction then
        bump adjustments key (- learningRate)
      else adjustments
  end.

Definition adjustForTrade (w : Weights) (learningRate : Q)
    (adjustments : Obj) (trade : Outcome) : Obj :=
  let wasCorrect := statusIs trade Win in
  let wasBigPrediction :=
    match lastPredictedOutcome trade with Some BIG => true | _ => false end in
  match mlFeatures trade with
  | Some features =>
      fold_left (adjustForFeature w learningRate wasCorrect wasBigPrediction)
                features adjustments
  | None => adjustments
  end.

Definition clampWeight (x : Q) : Q := Math_max 0.1 (Math_min 5.0 x).

Definition evolveMLWeights (w : Weights) (history : list Outcome) : Weights :=
  let learningRate := 0.01 in
  let recentTrades := recentTradesOf history in
  if (len recentTrades <? 20)%Z then w
  else
    let adjustments0 : Obj := map (fun kv => (fst kv, 0)) w in
    let adjustments := fold_left (adjustForTrade w learningRate) recentTrades adjustments0 in
    map (fun kv =>
           (fst kv, clampWeight (snd kv + toNumber (get adjustments (fst kv)))%js))
        w.

Definition countStatus (s : Status) (l : list Outcome) : Z :=
  len (filter (fun p => statusIs p s) l).

Definition detectBadTrend (st : SystemState) (history : list Outcome) : bool :=
  let BAD_TREND_WINDOW := 30%Z in
  if (len history <? BAD_TREND_WINDOW)%Z then false
  else
    let recentHistory := slice0 BAD_TREND_WINDOW history in
    let wins := countStatus Win recentHistory in
    let losses := countStatus Loss recentHistory in
    if (wins + losses <? 15)%Z then false
    else
      let accuracy := (inject_Z wins / inject_Z (wins + losses))%js in
      (accuracy <? BAD_TREND_THRESHOLD st)%js.

Definition manageDefensiveMode (st : SystemState) (history : list Outcome) : SystemState :=
  let st1 := if detectBadTrend st history
             then set_DEFENSIVE_MODE_ACTIVE st true else st in
  let last3 := map status (slice0 3 history) in
  if DEFENSIVE_MODE_ACTIVE st1 && (len last3 =? 3)%Z
     && forallb (fun s => match s with Some Win => true | _ => false end) last3
  then set_DEFENSIVE_MODE_ACTIVE st1 false
  else st1.

(** ** primary_model.js *)

Inductive Strength := UNKNOWN | WEAK | STRONG | RANGING.

(** [direction] is ["NONE"] ([None]), ["BIG"] or ["SMALL"]. *)
Record TrendContext := {
  strength : Strength;
  direction : option Class
}.

Definition getTrendContext (history : list Outcome) : TrendContext :=
  let longMALookback := 20%Z in
  let numbers := numbersOf history in
  if (len numbers <? longMALookback)%Z then {| strength := UNKNOWN; direction := None |}
  else
    match calculateEMA numbers 5, calculateEMA numbers 10,
          calculateEMA numbers longMALookback with
    | Some shortMA, Some mediumMA, Some longMA =>
        if (shortMA >? mediumMA)%js && (mediumMA >? longMA)%js then
          {| strength := STRONG; direction := Some BIG |}
        else if (shortMA <? mediumMA)%js && (mediumMA <? longMA)%js then
          {| strength := STRONG; direction := Some SMALL |}
        else {| strength := RANGING; direction := None |}
    | _, _, _ => {| strength := UNKNOWN; direction := None |}
    end.

(** The MACD series handed to the signal-line EMA: entry [i] is
    [calculateEMA(numbers.slice(i), 12) - calculateEMA(numbers.slice(i), 26)],
    where a [null] operand counts as [0]; the difference is always a number,
    so the [filter(n => n !== null)] that follows keeps every entry. *)
Definition macdSeries (numbers : list Q) : list Q :=
  map (fun i => (toNumber (calculateEMA (sliceFrom i numbers) 12)
                 - toNumber (calculateEMA (sliceFrom i numbers) 26))%js)
      (seq 0 (List.length numbers)).

Definition createFeatureSetForML (env : Env) (st : SystemState)
    (history : list Outcome) : option Features :=
  let numbers := numbersOf history in
  if (len numbers <? MIN_HISTORY st)%Z then None
  else
    let trendContext := getTrendContext history in
    let rsiValue := calculateRSI numbers 14 in
    let macdLine :=
      (toNumber (calculateEMA numbers 12) - toNumber (calculateEMA numbers 26))%js in
    let signalLine := calculateEMA (macdSeries numbers) 9 in
    let sma20 := calculateSMA numbers 20 in
    let stdDev20 := calculateStdDev env numbers 20 in
    let bollingerPct :=
      if truthyO sma20 && truthyO stdDev20 then
        let upperBand := (toNumber sma20 + (toNumber stdDev20 * 2.0))%js in
        let lowerBand := (toNumber sma20 - (toNumber stdDev20 * 2.0))%js in
        if (upperBand - lowerBand >? 0)%js then
          ((at_ numbers 0 - lowerBand) / (upperBand - lowerBand))%js
        else 0
      else 0 in
    Some
      [ ("rsi_strength",
         if truthyO rsiValue then ((toNumber rsiValue - 50) / 50)%js else 0);
        ("rsi_is_overbought",
         if truthyO rsiValue && (toNumber rsiValue >? 70)%js then 1 else 0);
        ("rsi_is_oversold",
         if truthyO rsiValue && (toNumber rsiValue <? 30)%js then -1 else 0);
        ("macd_hist",
         if truthy macdLine && truthyO signalLine
         then (macdLine - toNumber signalLine)%js else 0);
        ("trend_strength_score",
         match strength trendContext with
         | STRONG => match direction trendContext with Some BIG => 1 | _ => -1 end
         | _ => 0
         end);
        ("bollinger_pct_reversal",
         if (bollingerPct >? 1)%js then (bollingerPct - 1)%js
         else if (bollingerPct <? 0)%js then bollingerPct else 0);
        ("last_move", if (at_ numbers 0 >? at_ numbers 1)%js then 1 else -1) ].

Record PrimaryModel := {
  prediction : Class;
  confidence : Q
}.

(** One iteration of the loop of [analyzeUnifiedMLModel] over the scores
    [(bigScore, smallScore)]. *)
Definition scoreFeature (w : Weights) (scores : Q * Q) (kv : string * Q) : Q * Q :=
  let (bigScore, smallScore) := scores in
  match get w (fst kv) with
  | None => scores
  | Some weight =>
      let featureValue := snd kv in
      if (weight >? 0)%js then
        if (featureValue >? 0)%js then ((bigScore + (featureValue * weight))%js, smallScore)
        else (bigScore, (smallScore + Math_abs (featureValue * weight))%js)
      else
        if (featureValue >? 0)%js
        then (bigScore, (smallScore + (featureValue * Math_abs weight))%js)
        else ((bigScore + Math_abs (featureValue * Math_abs weight))%js, smallScore)
  end.

Definition analyzeUnifiedMLModel (w : Weights) (features : option Features)
    : option PrimaryModel :=
  match features with
  | None => None
  | Some fs =>
      let (bigScore, smallScore) := fold_left (scoreFeature w) fs (0, 0) in
      let totalScore := (bigScore + smallScore)%js in
      if (totalScore === 0)%js then None
      else
        let confidence := (Math_abs (bigScore - smallScore) / totalScore)%js in
        let prediction := if (bigScore >? smallScore)%js then BIG else SMALL in
        Some {| prediction := prediction; confidence := confidence |}
  end.

(** ** advisory_models.js *)

Record AdvisorySignal := {
  vote : Class;
  source : string
}.

Definition analyzeRSITrend (history : list Outcome) : option AdvisorySignal :=
  let rsiPeriod := 14%Z in
  let rsiMAPeriod := 9%Z in
  let numbers := numbersOf history in
  if (len numbers <? rsiPeriod + rsiMAPeriod)%Z then None
  else
    (* i = rsiMAPeriod - 1 downto 0; a null RSI leaves the function *)
    let step (acc : option (list Q)) (i : nat) : option (list Q) :=
      match acc with
      | None => None
      | Some rsiValues =>
          match calculateRSI (sliceFrom i numbers) rsiPeriod with
          | Some rsi => Some (rsiValues ++ [rsi])%list
          | None => None
          end
      end in
    match fold_left step (rev (seq 0 (Z.to_nat rsiMAPeriod))) (Some []) with
    | None => None
    | Some rsiValues =>
        let currentRSI := at_ rsiValues (List.length rsiValues - 1) in
        let rsiMA := toNumber (calculateSMA rsiValues rsiMAPeriod) in
        if (currentRSI >? rsiMA + 2)%js then Some {| vote := BIG; source := "RSITrend" |}
        else if (currentRSI <? rsiMA - 2)%js then Some {| vote := SMALL; source := "RSITrend" |}
        else None
    end.

Definition analyzeStochastic (history : list Outcome) : option AdvisorySignal :=
  let period := 14%Z in
  let numbers := slice0 period (numbersOf history) in
  if (len numbers <? period)%Z then None
  else
    let currentPrice := at_ numbers 0 in
    let lowestLow := Math_min_of numbers in
    let highestHigh := Math_max_of numbers in
    if (highestHigh === lowestLow)%js then None
    else
      let K := (100 * ((currentPrice - lowestLow) / (highestHigh - lowestLow)))%js in
      if (K >? 85)%js then Some {| vote := SMALL; source := "Stochastic" |}
      else if (K <? 15)%js then Some {| vote := BIG; source := "Stochastic" |}
      else None.

(** [s.endsWith(suffix)]: the characters of [suffix], read backwards, open
    the characters of [s] read backwards. *)
Fixpoint startsWith (l prefix : list ascii) : bool :=
  match prefix, l with
  | [], _ => true
  | _ :: _, [] => false
  | p :: prefix', c :: l' => Ascii.eqb c p && startsWith l' prefix'
  end.

Definition endsWith (s suffix : string) : bool :=
  startsWith (rev (list_ascii_of_string s)) (rev (list_ascii_of_string suffix)).

(** [outcomes.join('')]: a [null] element contributes the empty string. *)
Definition join (outcomes : list (option Class)) : string :=
  fold_right (fun o acc =>
                (match o with Some c => Class_toString c | None => "" end) ++ acc)%string
             "" outcomes.

Definition analyzeColorPatterns (history : list Outcome) : option AdvisorySignal :=
  let outcomes := rev (slice0 10 (map (fun p => getBigSmallFromNumber (actual p)) history)) in
  if (len outcomes <? 5)%Z then None
  else
    let sequence := join outcomes in
    if endsWith sequence "BBBB" then Some {| vote := BIG; source := "Pattern:StreakCont" |}
    else if endsWith sequence "SSSS" then Some {| vote := SMALL; source := "Pattern:StreakCont" |}
    else if endsWith sequence "BBBBB" then Some {| vote := SMALL; source := "Pattern:StreakBreak" |}
    else if endsWith sequence "SSSSS" then Some {| vote := BIG; source := "Pattern:StreakBreak" |}
    else if endsWith sequence "BSBS" then Some {| vote := BIG; source := "Pattern:AltBreak" |}
    else if endsWith sequence "SBSB" then Some {| vote := SMALL; source := "Pattern:AltBreak" |}
    else if endsWith sequence "BBSBB" then Some {| vote := BIG; source := "Pattern:Interrupt" |}
    else if endsWith sequence "SSBSS" then Some {| vote := SMALL; source := "Pattern:Interrupt" |}
    else if endsWith sequence "BSB" then Some {| vote := SMALL; source := "Pattern:DoubleTop" |}
    else if endsWith sequence "SBS" then Some {| vote := BIG; source := "Pattern:DoubleBottom" |}
    else None.

Definition analyzeVolatilityBreakout (env : Env) (history : list Outcome)
    : option AdvisorySignal :=
  let period := 20%Z in
  let numbers := numbersOf history in
  if (len numbers <? period * 2)%Z then None
  else
    let recentSlice := slice0 period numbers in
    let priorSlice := slice0 period (sliceFrom (Z.to_nat period) numbers) in
    match calculateStdDev env recentSlice period, calculateStdDev env priorSlice period with
    | Some recentVol, Some priorVol =>
        if (priorVol === 0)%js then None
        else if (recentVol >? priorVol * 1.8)%js then
          let lastMove := if (at_ numbers 0 >? at_ numbers 1)%js then BIG else SMALL in
          Some {| vote := lastMove; source := "Volatility" |}
        else None
    | _, _ => None
    end.

Definition analyzePriceAction (history : list Outcome) : option AdvisorySignal :=
  let numbers := slice0 5 (numbersOf history) in
  if (len numbers <? 5)%Z then None
  else
    let p0 := at_ numbers 0 in
    let p1 := at_ numbers 1 in
    let p2 := at_ numbers 2 in
    let p3 := at_ numbers 3 in
    if (p0 >? p2)%js && (p1 >? p3)%js then Some {| vote := BIG; source := "PriceAction" |}
    else if (p0 <? p2)%js && (p1 <? p3)%js then Some {| vote := SMALL; source := "PriceAction" |}
    else None.

Definition analyzeMeanReversion (env : Env) (history : list Outcome)
    : option AdvisorySignal :=
  let period := 20%Z in
  let numbers := slice0 period (numbersOf history) in
  if (len numbers <? period)%Z then None
  else
    match calculateSMA numbers period, calculateStdDev env numbers period with
    | Some sma, Some stdDev =>
        let currentPrice := at_ numbers 0 in
        let zScore := ((currentPrice - sma) / stdDev)%js in
        if (zScore >? 1.5)%js then Some {| vote := SMALL; source := "MeanReversion" |}
        else if (zScore <? -1.5)%js then Some {| vote := BIG; source := "MeanReversion" |}
        else None
    | _, _ => None
    end.

Record AdvisoryResult := {
  advisorySignals : list AdvisorySignal;
  consensusScore : Q;
  agreeingModels : Z;
  totalAdvisors : Z
}.

(** [models.filter(m => m !== null)]. *)
Fixpoint nonNull {A} (models : list (option A)) : list A :=
  match models with
  | [] => []
  | Some m :: r => m :: nonNull r
  | None :: r => nonNull r
  end.

Definition runAdvisoryModels (env : Env) (history : list Outcome)
    (primaryPrediction : Class) : AdvisoryResult :=
  let models :=
    [ analyzeRSITrend history;
      analyzeStochastic history;
      analyzeColorPatterns history;
      analyzeVolatilityBreakout env history;
      analyzePriceAction history;
      analyzeMeanReversion env history ] in
  let signals := nonNull models in
  let agreeing :=
    fold_left (fun n model => if Class_eqb (vote model) primaryPrediction
                              then (n + 1)%Z else n) signals 0%Z in
  let total := len signals in
  let score := if (0 <? total)%Z then (inject_Z agreeing / inject_Z total)%js else 0.5 in
  {| advisorySignals := signals; consensusScore := score;
     agreeingModels := agreeing; totalAdvisors := total |}.

(** ** Calls with missing or malformed arguments

    The functions of [utils.js] and the detectors of [advisory_models.js]
    are embedded above over the arguments the pipeline passes them: an array
    of numbers, an array of records.  A caller may pass anything.  Here an
    argument is either missing ([undefined] or [null]) or an array, an entry
    of a history array is a record or [null] ([None], as in
    [confirmedHistoryOf]), and a call ends by returning a value or by
    throwing. *)
Module Raw.

Inductive Error := TypeError.

Inductive Completion (A : Type) : Type :=
  | Returns (value : A)
  | Throws (error : Error).
Arguments Returns {A} value.
Arguments Throws {A} error.

Definition bind {A B} (c : Completion A) (k : A -> Completion B) : Completion B :=
  match c with
  | Returns value => k value
  | Throws error => Throws error
  end.

Notation "x <- c ;; k" := (bind c (fun x => k))
  (at level 61, c at next level, right associativity).

Inductive Arg (A : Type) : Type :=
  | Missing
  | ArrayOf (items : list A).
Arguments Missing {A}.
Arguments ArrayOf {A} items.

(** [Array.isArray(a)]. *)
Definition Array_isArray {A} (a : Arg A) : bool :=
  match a with Missing => false | ArrayOf _ => true end.

(** Reading a property or a method of the argument itself ([a.length],
    [a.slice], [a.map]): a TypeError when it is [undefined] or [null]. *)
Definition itemsOf {A} (a : Arg A) : Completion (list A) :=
  match a with
  | Missing => Throws TypeError
  | ArrayOf items => Returns items
  end.

(** [p.field] for an entry [p] of a history array. *)
Definition read {B} (field : Outcome -> B) (p : option Outcome) : Completion B :=
  match p with
  | Some record => Returns (field record)
  | None => Throws TypeError
  end.

(** The callback of [map] applied to one entry after the other. *)
Fixpoint mapItems {A B} (callback : A -> Completion B) (items : list A)
    : Completion (list B) :=
  match items with
  | [] => Returns []
  | x :: rest =>
      y <- callback x ;;
      ys <- mapItems callback rest ;;
      Returns (y :: ys)
  end.

(** [a.map(callback)]. *)
Definition Array_map {A B} (callback : A -> Completion B) (a : Arg A)
    : Completion (list B) :=
  items <- itemsOf a ;; mapItems callback items.

(** The number of data points an argument holds. *)
Definition sizeOf {A} (a : Arg A) : Z :=
  match a with Missing => 0%Z | ArrayOf items => len items end.

(** The four indicators open with
    [if (!Array.isArray(data) || ...) return null;]: [||] leaves the function
    before [data.length] is read when [data] is not an array.  Past the test
    the body works on an array, as embedded above. *)
Definition guarded (data : Arg Q) (body : list Q -> option Q) : Completion (option Q) :=
  if negb (Array_isArray data) then Returns None
  else
    numbers <- itemsOf data ;;
    Returns (body numbers).

Definition calculateSMA (data : Arg Q) (period : Z) : Completion (option Q) :=
  guarded data (fun numbers => calculateSMA numbers period).

Definition calculateEMA (data : Arg Q) (period : Z) : Completion (option Q) :=
  guarded data (fun numbers => calculateEMA numbers period).

Definition calculateStdDev (env : Env) (data : Arg Q) (period : Z) : Completion (option Q) :=
  guarded data (fun numbers => calculateStdDev env numbers period).

Definition calculateRSI (data : Arg Q) (period : Z) : Completion (option Q) :=
  guarded data (fun numbers => calculateRSI numbers period).

(** The six detectors open with [history.map(p => p.actualNumber)], the
    pattern detector with [history.map(p => getBigSmallFromNumber(p.actual))],
    and test nothing before it: [map] is looked up on [history] and the
    callback reads a field of every entry.  Past the call the detector works
    on the values read from the records, as embedded above, and touches
    neither [history] nor its entries again. *)
Definition detector {A} (field : Outcome -> JsNum) (body : list Outcome -> A)
    (history : Arg (option Outcome)) : Completion A :=
  _ <- Array_map (read field) history ;;
  entries <- itemsOf history ;;
  Returns (body (nonNull entries)).

Definition analyzeRSITrend : Arg (option Outcome) -> Completion (option AdvisorySignal) :=
  detector actualNumber analyzeRSITrend.

Definition analyzeStochastic : Arg (option Outcome) -> Completion (option AdvisorySignal) :=
  detector actualNumber analyzeStochastic.

Definition analyzeColorPatterns : Arg (option Outcome) -> Completion (option AdvisorySignal) :=
  detector actual analyzeColorPatterns.

Definition analyzeVolatilityBreakout (env : Env)
    : Arg (option Outcome) -> Completion (option AdvisorySignal) :=
  detector actualNumber (analyzeVolatilityBreakout env).

Definition analyzePriceAction : Arg (option Outcome) -> Completion (option AdvisorySignal) :=
  detector actualNumber analyzePriceAction.

Definition analyzeMeanReversion (env : Env)
    : Arg (option Outcome) -> Completion (option AdvisorySignal) :=
  detector actualNumber (analyzeMeanReversion env).

End Raw.

(** ** market_sentiment.js *)

Record MarketEvent := {
  isPositiveNews : bool;
  impact : Q;
  timestamp : Z
}.

Definition NEWS_EVENT_PROBABILITY : Q := 0.05.
Definition EVENT_IMPACT_DECAY_RATE : Q := 0.90.

(** ** The process-lifetime state

    [randomCalls] counts the calls of [Math.random()] made so far; the next
    call returns [Math_random env (randomCalls w)]. *)
Record World := {
  systemState : SystemState;
  mlFeatureWeights : Weights;
  marketEvents : list MarketEvent;
  randomCalls : nat
}.

Definition world0 : World := {|
  systemState := systemState0;
  mlFeatureWeights := mlFeatureWeights0;
  marketEvents := [];
  randomCalls := 0
|}.

Definition random (env : Env) (w : World) : Q * World :=
  (Math_random env (randomCalls w),
   {| systemState := systemState w; mlFeatureWeights := mlFeatureWeights w;
      marketEvents := marketEvents w; randomCalls := S (randomCalls w) |}).

Definition set_systemState (w : World) (s : SystemState) : World :=
  {| systemState := s; mlFeatureWeights := mlFeatureWeights w;
     marketEvents := marketEvents w; randomCalls := randomCalls w |}.

Definition set_mlFeatureWeights (w : World) (ws : Weights) : World :=
  {| systemState := systemState w; mlFeatureWeights := ws;
     marketEvents := marketEvents w; randomCalls := randomCalls w |}.

Definition set_marketEvents (w : World) (es : list MarketEvent) : World :=
  {| systemState := systemState w; mlFeatureWeights := mlFeatureWeights w;
     marketEvents := es; randomCalls := randomCalls w |}.

Definition updateMarketSentiment (env : Env) (w : World) : World :=
  let decayed :=
    filter (fun event => (Math_abs (impact event) >? 0.05)%js)
           (map (fun event =>
                   {| isPositiveNews := isPositiveNews event;
                      impact := (impact event * EVENT_IMPACT_DECAY_RATE)%js;
                      timestamp := timestamp event |})
                (marketEvents w)) in
  let w1 := set_marketEvents w decayed in
  let (r1, w2) := random env w1 in
  if (r1 <? NEWS_EVENT_PROBABILITY)%js then
    let (r2, w3) := random env w2 in
    let isPositive := (r2 >? 0.5)%js in
    let newEvent :=
      {| isPositiveNews := isPositive;
         impact := if isPositive then 1.0 else -1.0;
         timestamp := Date_now env |} in
    set_marketEvents w3 (marketEvents w3 ++ [newEvent])%list
  else w2.

Definition getMarketSentimentFactor (w : World) : Q :=
  if (len (marketEvents w) =? 0)%Z then 0.0
  else
    let totalImpact := fold_left (fun acc event => (acc + impact event)%js) (marketEvents w) 0 in
    Math_max (-1) (Math_min 1 totalImpact).

(** ** main.js *)

Inductive Health := OK | DEFENSIVE_MODE | INSUFFICIENT_HISTORY | MODEL_UNCERTAIN.

(** The [source] label: ["ConsensusCore-v60.1"] or
    ["ML+<agreeing>/<total>_Advisors"]. *)
Inductive SourceLabel :=
  | ConsensusCore
  | MLAdvisors (agreeing total : Z).

(** The object returned by [ultraAIPredict]; a field the object literal does
    not set is [None]. *)
Record Decision := {
  finalDecision : Class;
  finalConfidence : option Q;
  confidenceLevel : Z;
  overallLogic : option string;
  sourceLabel : SourceLabel;
  systemHealth : Health;
  signals : option (list AdvisorySignal)
}.

(** [sharedStatsPayload]: the fields the caller sets, and the ones
    [Object.assign] copies into it at the end of a full cycle. *)
Record SharedStats := {
  lastActualOutcome : JsNum;
  lastPredicted : option Class;
  longTermGlobalAccuracy : option Q;
  assignedOutput : option Decision;
  assignedFeatures : option Features;
  assignedStatus : option Status
}.

(** [currentSharedHistory.filter(p => p && p.actual !== null && p.actualNumber !== undefined)];
    a [null] entry of the array is [None]. *)
Fixpoint confirmedHistoryOf (currentSharedHistory : list (option Outcome)) : list Outcome :=
  match currentSharedHistory with
  | [] => []
  | Some p :: r =>
      match actual p, actualNumber p with
      | JNull, _ => confirmedHistoryOf r
      | _, JUndefined => confirmedHistoryOf r
      | _, _ => p :: confirmedHistoryOf r
      end
  | None :: r => confirmedHistoryOf r
  end.

(** Truthiness of [sharedStatsPayload.lastActualOutcome]. *)
Definition truthyJ (v : JsNum) : bool :=
  match v with JNumber z => negb (z =? 0)%Z | _ => false end.

(** [a === b] for a class [a] computed by [getBigSmallFromNumber] ([None] is
    [null]) and a stored prediction [b], where [None] is a field that was
    never set ([undefined], as in the payload the handler starts from):
    [null === undefined] is false. *)
Definition sameClass (a b : option Class) : bool :=
  match a, b with Some x, Some y => Class_eqb x y | _, _ => false end.

Definition randomDecision (env : Env) (w : World) (level : Z) (h : Health)
    : Decision * World :=
  let (r, w') := random env w in
  ({| finalDecision := if (r >? 0.5)%js then BIG else SMALL;
      finalConfidence := None;
      confidenceLevel := level;
      overallLogic := None;
      sourceLabel := ConsensusCore;
      systemHealth := h;
      signals := None |}, w').

Definition ultraAIPredict (env : Env) (w : World)
    (currentSharedHistory : list (option Outcome)) (sharedStatsPayload : SharedStats)
    : Decision * World * SharedStats :=
  let confirmedHistory := confirmedHistoryOf currentSharedHistory in
  if (len confirmedHistory <? MIN_HISTORY (systemState w))%Z then
    let (d, w') := randomDecision env w 1 INSUFFICIENT_HISTORY in
    (d, w', sharedStatsPayload)
  else
    (* State management and evolution *)
    let w1 :=
      if (len confirmedHistory mod 5 =? 0)%Z then
        let wa :=
          match longTermGlobalAccuracy sharedStatsPayload with
          | Some acc =>
              if truthy acc
              then set_systemState w (evolveSystemParameters (systemState w) acc)
              else w
          | None => w
          end in
        let wb := set_mlFeatureWeights wa (evolveMLWeights (mlFeatureWeights wa) confirmedHistory) in
        updateMarketSentiment env wb
      else w in
    let lastResult : option Status :=
      if truthyJ (lastActualOutcome sharedStatsPayload) then
        Some (if sameClass (getBigSmallFromNumber (lastActualOutcome sharedStatsPayload))
                           (lastPredicted sharedStatsPayload)
              then Win else Loss)
      else None in
    let w2 :=
      match lastResult with
      | Some _ => set_systemState w1 (manageDefensiveMode (systemState w1) confirmedHistory)
      | None => w1
      end in
    (* Stage 1: features and primary prediction *)
    let mlFeatures := createFeatureSetForML env (systemState w2) confirmedHistory in
    match analyzeUnifiedMLModel (mlFeatureWeights w2) mlFeatures with
    | None =>
        let (d, w') := randomDecision env w2 0 MODEL_UNCERTAIN in
        (d, w', sharedStatsPayload)
    | Some primaryModel =>
        (* Stage 2: advisory models *)
        let adv := runAdvisoryModels env confirmedHistory (prediction primaryModel) in
        (* Stage 3: final confidence *)
        let finalConfidence0 :=
          (confidence primaryModel * (0.6 + (consensusScore adv * 0.4)))%js in
        let finalConfidence1 :=
          if DEFENSIVE_MODE_ACTIVE (systemState w2)
          then (finalConfidence0 * 0.7)%js else finalConfidence0 in
        let confidenceLevel0 := if (finalConfidence1 >? 0.55)%js then 1%Z else 0%Z in
        let confidenceLevel1 :=
          if DEFENSIVE_MODE_ACTIVE (systemState w2) then 0%Z else confidenceLevel0 in
        let output :=
          {| finalDecision := prediction primaryModel;
             finalConfidence := Some finalConfidence1;
             confidenceLevel := confidenceLevel1;
             overallLogic := Some "ConsensusCore-v60.1";
             sourceLabel := MLAdvisors (agreeingModels adv) (totalAdvisors adv);
             systemHealth :=
               if DEFENSIVE_MODE_ACTIVE (systemState w2) then DEFENSIVE_MODE else OK;
             signals := Some (advisorySignals adv) |} in
        (output, w2,
         {| lastActualOutcome := lastActualOutcome sharedStatsPayload;
            lastPredicted := Some (finalDecision output);
            longTermGlobalAccuracy := longTermGlobalAccuracy sharedStatsPayload;
            assignedOutput := Some output;
            assignedFeatures := mlFeatures;
            assignedStatus :=
              Some (match lastResult with Some s => s | None => Pending end) |})
    end.

(** The stages of [ultraAIPredict] by name: the state after the block
    "State Management & Evolution", the [lastResult] object, and the state
    after the call of [manageDefensiveMode]. *)
Definition stateEvolution (env : Env) (w : World) (confirmedHistory : list Outcome)
    (sharedStatsPayload : SharedStats) : World :=
  if (len confirmedHistory mod 5 =? 0)%Z then
    let wa :=
      match longTermGlobalAccuracy sharedStatsPayload with
      | Some acc =>
          if truthy acc
          then set_systemState w (evolveSystemParameters (systemState w) acc)
          else w
      | None => w
      end in
    let wb := set_mlFeatureWeights wa (evolveMLWeights (mlFeatureWeights wa) confirmedHistory) in
    updateMarketSentiment env wb
  else w.

Definition lastResultOf (sharedStatsPayload : SharedStats) : option Status :=
  if truthyJ (lastActualOutcome sharedStatsPayload) then
    Some (if sameClass (getBigSmallFromNumber (lastActualOutcome sharedStatsPayload))
                       (lastPredicted sharedStatsPayload)
          then Win else Loss)
  else None.

Definition defensiveStage (w1 : World) (confirmedHistory : list Outcome)
    (sharedStatsPayload : SharedStats) : World :=
  match lastResultOf sharedStatsPayload with
  | Some _ => set_systemState w1 (manageDefensiveMode (systemState w1) confirmedHistory)
  | None => w1
  end.

(** The state in which the prediction pipeline of one cycle runs. *)
Definition pipelineWorld (env : Env) (w : World) (confirmedHistory : list Outcome)
    (sharedStatsPayload : SharedStats) : World :=
  defensiveStage (stateEvolution env w confirmedHistory sharedStatsPayload)
                 confirmedHistory sharedStatsPayload.

(** Projections of the triple returned by [ultraAIPredict]. *)
Definition decisionOf (r : Decision * World * SharedStats) : Decision := fst (fst r).
Definition worldOf (r : Decision * World * SharedStats) : World := snd (fst r).
Definition statsOf (r : Decision * World * SharedStats) : SharedStats := snd r.

(** ** Reachable states

    The operations that change the process-lifetime state are the exported
    functions of [state.js], the sentiment update and a whole prediction
    cycle. *)
Inductive step (env : Env) : World -> World -> Prop :=
  | step_parameters w globalAccuracy :
      step env w (set_systemState w (evolveSystemParameters (systemState w) globalAccuracy))
  | step_weights w history :
      step env w (set_mlFeatureWeights w (evolveMLWeights (mlFeatureWeights w) history))
  | step_defensive w history :
      step env w (set_systemState w (manageDefensiveMode (systemState w) history))
  | step_sentiment w :
      step env w (updateMarketSentiment env w)
  | step_cycle w history payload :
      step env w (worldOf (ultraAIPredict env w history payload)).

Inductive reachable (env : Env) : World -> Prop :=
  | reachable_init : reachable env world0
  | reachable_step w w' : reachable env w -> step env w w' -> reachable env w'.

(** [evolves env w w']: the state [w'] is reached from [w] by any number of
    operations. *)
Inductive evolves (env : Env) : World -> World -> Prop :=
  | evolves_refl w : evolves env w w
  | evolves_step w w' w'' : evolves env w w' -> step env w' w'' -> evolves env w w''.

Definition weightInRange (kv : string * Q) : Prop := 0.1 <= snd kv <= 5.0.

Definition WeightsInRange (w : Weights) : Prop := Forall weightInRange w.

(** What every reachable state satisfies. *)
Record Invariant (w : World) : Prop := {
  inv_min_history : MIN_HISTORY (systemState w) = 100%Z;
  inv_target : TARGET_ACCURACY (systemState w) = 0.54;
  inv_rate : EVOLUTION_RATE (systemState w) = 0.005;
  inv_threshold : 0.42 <= BAD_TREND_THRESHOLD (systemState w) <= 0.48;
  inv_weights : mlFeatureWeights w = mlFeatureWeights0 \/ WeightsInRange (mlFeatureWeights w)
}.

(** ** Sample inputs *)

(** A rational approximation of the square root, twelve decimals. *)
Definition sqrtApprox (q : Q) : Q :=
  Qred (Qmake (Z.sqrt (Qnum q * Zpos (Qden q) * 10 ^ 24)) (Qden q * 10 ^ 12)).

Definition sampleEnv : Env :=
  {| Math_sqrt := sqrtApprox; Math_random := fun _ => 0.75; Date_now := 0 |}.

Definition record (z : Z) (s : Status) : Outcome :=
  {| actual := JNumber z; actualNumber := JNumber z; status := Some s;
     mlFeatures := None; lastPredictedOutcome := None |}.

Definition emptyStats : SharedStats :=
  {| lastActualOutcome := JUndefined; lastPredicted := None;
     longTermGlobalAccuracy := None; assignedOutput := None;
     assignedFeatures := None; assignedStatus := None |}.

(** The payload after a resolved round: outcome 5, predicted BIG, with a
    long-term accuracy figure. *)
Definition resolvedStats : SharedStats :=
  {| lastActualOutcome := JNumber 5; lastPredicted := Some BIG;
     longTermGlobalAccuracy := Some 0.5; assignedOutput := None;
     assignedFeatures := None; assignedStatus := None |}.

(** One hundred rounds that all gave 5. *)
Definition steadyHistory : list Outcome := repeat (record 5 Pending) 100.

(** One hundred rounds, newest first: 0 ninety-nine times after an initial 9. *)
Definition fallingHistory : list Outcome :=
  repeat (record 0 Pending) 99 ++ [record 9 Pending].

(** Thirty records whose outcome number is missing. *)
Definition missingNumbers : list Outcome :=
  repeat {| actual := JNaN; actualNumber := JNaN; status := Some Pending;
            mlFeatures := None; lastPredictedOutcome := None |} 30.

(** Five rounds that all gave 5 (class BIG). *)
Definition fiveBig : list Outcome := repeat (record 5 Pending) 5.

(** Five rounds, newest first: 5 four times after an initial 0. *)
Definition fourBigAfterSmall : list Outcome :=
  repeat (record 5 Pending) 4 ++ [record 0 Pending].

(** Defensive mode is on; the newest record is still pending and the three
    before it are wins. *)
Definition defensiveState : SystemState := set_DEFENSIVE_MODE_ACTIVE systemState0 true.
Definition defensiveWorld : World := set_systemState world0 defensiveState.
Definition pendingThenWins : list Outcome :=
  [record 5 Pending; record 5 Win; record 5 Win; record 5 Win].
Definition threeWins : list Outcome := [record 5 Win; record 5 Win; record 5 Win].

(** Twenty resolved trades that carry a feature snapshot. *)
Definition trade : Outcome :=
  {| actual := JNumber 5; actualNumber := JNumber 5; status := Some Win;
     mlFeatures := Some [("rsi_strength", 1); ("last_move", -1)];
     lastPredictedOutcome := Some BIG |}.
Definition twentyTrades : list Outcome := repeat trade 20.

(** One hundred such trades: enough to pass the history gate, a multiple of
    five, and more than twenty of them qualify for weight evolution. *)
Definition hundredTrades : list Outcome := repeat trade 100.

(** The statuses of the resolved records of a history, newest first: a
    record is resolved when its status is Win, Loss or Cooldown. *)
Definition resolvedStatuses (history : list Outcome) : list Status :=
  filter (fun s => match s with Pending => false | _ => true end)
         (nonNull (map status history)).

(** ** Auxiliary notions for the further properties *)

(** The weight of a name is present and positive. *)
Definition positiveWeight (key : string) (ws : Weights) : Prop :=
  exists v, get ws key = Some v /\ 0 < v.

(** The first step of [updateMarketSentiment]: every impact decays, the
    events that have become insignificant are dropped. *)
Definition decayEvents (events : list MarketEvent) : list MarketEvent :=
  filter (fun event => (Math_abs (impact event) >? 0.05)%js)
         (map (fun event =>
                 {| isPositiveNews := isPositiveNews event;
                    impact := (impact event * EVENT_IMPACT_DECAY_RATE)%js;
                    timestamp := timestamp event |})
              events).

(** An older event is at most nine tenths as strong as a younger one. *)
Definition weakerThan (a b : MarketEvent) : Prop :=
  Qabs (impact a) <= 0.9 * Qabs (impact b).

(** 0.9 to the power n. *)
Fixpoint decayFactor (n : nat) : Q :=
  match n with O => 1 | S n' => 0.9 * decayFactor n' end.

(** Two states that differ at most in their sentiment events. *)
Definition sameButEvents (w1 w2 : World) : Prop :=
  systemState w1 = systemState w2 /\
  mlFeatureWeights w1 = mlFeatureWeights w2 /\
  randomCalls w1 = randomCalls w2.

(** One hundred resolved rounds, all lost, and the payload of a round whose
    outcome was 0. *)
Definition losingHistory : list Outcome := repeat (record 5 Loss) 100.
Definition zeroOutcomeStats : SharedStats :=
  {| lastActualOutcome := JNumber 0; lastPredicted := Some BIG;
     longTermGlobalAccuracy := None; assignedOutput := None;
     assignedFeatures := None; assignedStatus := None |}.

(** A randomness source whose every draw is 0.01: each sentiment update
    creates an event. *)
Definition eventfulEnv : Env :=
  {| Math_sqrt := sqrtApprox; Math_random := fun _ => 0.01; Date_now := 0 |}.

(** Fourteen rounds whose newest number is the highest, respectively the
    lowest, of the window. *)
Definition peakHistory : list Outcome :=
  record 9 Pending :: repeat (record 0 Pending) 13.
Definition troughHistory : list Outcome :=
  record 0 Pending :: repeat (record 9 Pending) 13.

(** Wins and losses among the 30 newest records. *)
Definition recentWins (history : list Outcome) : Z := countStatus Win (slice0 30 history).
Definition recentLosses (history : list Outcome) : Z := countStatus Loss (slice0 30 history).

(** A record as [evolveMLWeights] reads it: any status other than Win
    counts like a loss, a missing or non-BIG prediction like SMALL. *)
Definition asReadByEvolution (p : Outcome) : Outcome :=
  {| actual := actual p;
     actualNumber := actualNumber p;
     status := match status p with
               | Some Win => Some Win
               | Some _ => Some Loss
               | None => None
               end;
     mlFeatures := mlFeatures p;
     lastPredictedOutcome := match lastPredictedOutcome p with
                             | Some BIG => Some BIG
                             | _ => Some SMALL
                             end |}.

(** Thirty resolved rounds: twelve wins, then eighteen losses. *)
Definition mixedHistory : list Outcome :=
  repeat (record 5 Win) 12 ++ repeat (record 5 Loss) 18.

(** ** index.js: the [/predict] handler

    The version of the handler that receives the game result in the request
    body.  Its module-level variables, together with the state of the core,
    make up [Server.State]; one request is one call of [Server.predict].
    [String.prototype.trim] and the [BigInt] round trip
    [(BigInt(s) + 1n).toString()], which throws on a string that is not an
    integer, are supplied by the platform. *)
Module Server.

Record Platform := {
  trim : string -> string;
  nextPeriodOf : string -> option string
}.

(** [req.body.gameResult]; [number] holds what the field converts to. *)
Record GameResult := {
  issueNumber : string;
  number : JsNum
}.

(** [Number(v)]. *)
Definition Number_ (v : JsNum) : JsNum :=
  match v with
  | JUndefined => JNaN
  | JNull => JNumber 0
  | JNaN => JNaN
  | JNumber z => JNumber z
  end.

(** An element of [inMemoryHistory]: the fields the core reads, and the
    ones only the handler uses. *)
Record Entry := {
  period : string;
  outcome : Outcome;
  resultType : option Class;
  timestamp : Z
}.

(** The fields of the decision that [newPredictionData] copies under the
    same names. *)
Definition levelOf (d : Decision) : Z := confidenceLevel d.
Definition logicOf (d : Decision) : option string := overallLogic d.
Definition healthOf (d : Decision) : Health := systemHealth d.

(** [newPredictionData]; [prediction] is the class decided by the core. *)
Record PredictionData := {
  forPeriod : string;
  prediction : Class;
  confidence : Z;
  confidenceLevel : Z;
  overallLogic : option string;
  source : SourceLabel;
  systemHealth : Health;
  createdAt : Z
}.

Record State := {
  lastProcessedPeriod : option string;
  inMemoryHistory : list Entry;
  inMemorySharedStats : SharedStats;
  lastConfidenceLevel : option Z;
  inMemoryCurrentPrediction : option PredictionData;
  core : World
}.

Definition MAX_HISTORY_LENGTH : Z := 150.

Definition initial : State := {|
  lastProcessedPeriod := None;
  inMemoryHistory := [];
  inMemorySharedStats := emptyStats;
  lastConfidenceLevel := None;
  inMemoryCurrentPrediction := None;
  core := world0
|}.

Inductive Response :=
  | BadRequest
  | AlreadyProcessed (currentPrediction : option PredictionData) (history : list Entry)
  | Complete (currentPrediction : PredictionData) (history : list Entry)
  | InternalError.

(** [Math.round(x)]. *)
Definition Math_round (x : Q) : Z := Qfloor (x + 0.5).

Definition setStatus (o : Outcome) (s : Status) : Outcome :=
  {| actual := actual o; actualNumber := actualNumber o; status := Some s;
     mlFeatures := mlFeatures o; lastPredictedOutcome := lastPredictedOutcome o |}.

(** [const e = history.find(entry => entry.period === p); if (e) e.status = s]. *)
Fixpoint updateStatus (p : string) (s : Status) (history : list Entry) : list Entry :=
  match history with
  | [] => []
  | e :: rest =>
      if String.eqb (period e) p
      then {| period := period e; outcome := setStatus (outcome e) s;
              resultType := resultType e; timestamp := timestamp e |} :: rest
      else e :: updateStatus p s rest
  end.

(** The array handed to the core. *)
Definition coreHistory (history : list Entry) : list (option Outcome) :=
  map (fun e => Some (outcome e)) history.

Definition predict (pf : Platform) (env : Env) (s : State) (body : option GameResult)
    : Response * State :=
  match body with
  | None => (BadRequest, s)
  | Some gameResult =>
      if String.eqb (issueNumber gameResult) "" then (BadRequest, s)
      else
        let endedPeriodFull := trim pf (issueNumber gameResult) in
        if match lastProcessedPeriod s with
           | Some p => String.eqb endedPeriodFull p
           | None => false
           end
        then (AlreadyProcessed (inMemoryCurrentPrediction s)
                               (slice0 50 (inMemoryHistory s)), s)
        else
          let actualNumber := Number_ (number gameResult) in
          let actualResultType := getBigSmallFromNumber actualNumber in
          let previousSharedPrediction := inMemoryCurrentPrediction s in
          (* the result of the previous prediction *)
          let resolved :=
            match previousSharedPrediction with
            | Some prev => if String.eqb (forPeriod prev) endedPeriodFull
                           then Some prev else None
            | None => None
            end in
          let history1 :=
            match resolved with
            | Some prev =>
                let statusOfPreviousPrediction :=
                  if sameClass actualResultType (Some (prediction prev))
                  then Win else Loss in
                updateStatus endedPeriodFull statusOfPreviousPrediction (inMemoryHistory s)
            | None => inMemoryHistory s
            end in
          let stats1 :=
            match resolved with
            | Some prev =>
                {| lastActualOutcome := actualNumber;
                   lastPredicted := Some (prediction prev);
                   longTermGlobalAccuracy := longTermGlobalAccuracy (inMemorySharedStats s);
                   assignedOutput := assignedOutput (inMemorySharedStats s);
                   assignedFeatures := assignedFeatures (inMemorySharedStats s);
                   assignedStatus := assignedStatus (inMemorySharedStats s) |}
            | None => inMemorySharedStats s
            end in
          let level1 :=
            match resolved with
            | Some prev => Some (confidenceLevel prev)
            | None => lastConfidenceLevel s
            end in
          (* unshift, then pop beyond the cap *)
          let history2 :=
            {| period := endedPeriodFull;
               outcome := {| actual := actualNumber; actualNumber := actualNumber;
                             status := Some Pending; mlFeatures := None;
                             lastPredictedOutcome := None |};
               resultType := actualResultType;
               timestamp := Date_now env |} :: history1 in
          let history3 :=
            if (MAX_HISTORY_LENGTH <? len history2)%Z then removelast history2
            else history2 in
          let r := ultraAIPredict env (core s) (coreHistory history3) stats1 in
          let aiDecision := decisionOf r in
          match nextPeriodOf pf endedPeriodFull with
          | None =>
              (InternalError,
               {| lastProcessedPeriod := Some endedPeriodFull;
                  inMemoryHistory := history3;
                  inMemorySharedStats := statsOf r;
                  lastConfidenceLevel := level1;
                  inMemoryCurrentPrediction := inMemoryCurrentPrediction s;
                  core := worldOf r |})
          | Some nextPeriodToPredictFull =>
              let newPredictionData :=
                {| forPeriod := nextPeriodToPredictFull;
                   prediction := finalDecision aiDecision;
                   confidence :=
                     match finalConfidence aiDecision with
                     | Some fc => if truthy fc then Math_round (fc * 100)%js else 50%Z
                     | None => 50%Z
                     end;
                   confidenceLevel := levelOf aiDecision;
                   overallLogic := logicOf aiDecision;
                   source := sourceLabel aiDecision;
                   systemHealth := healthOf aiDecision;
                   createdAt := Date_now env |} in
              (Complete newPredictionData (slice0 50 history3),
               {| lastProcessedPeriod := Some endedPeriodFull;
                  inMemoryHistory := history3;
                  inMemorySharedStats := statsOf r;
                  lastConfidenceLevel := level1;
                  inMemoryCurrentPrediction := Some newPredictionData;
                  core := worldOf r |})
          end
  end.

(** The states the server goes through. *)
Inductive reachable (pf : Platform) (env : Env) : State -> Prop :=
  | reachable_initial : reachable pf env initial
  | reachable_request s body :
      reachable pf env s -> reachable pf env (snd (predict pf env s body)).

End Server.

(** What the handler keeps true of every record it stores: the two number
    fields agree and are a number or NaN, the status is set, and there is
    neither a feature snapshot nor a recorded prediction. *)
Definition storedByHandler (e : Server.Entry) : Prop :=
  let o := Server.outcome e in
  actual o = actualNumber o /\
  (actual o = JNaN \/ exists z, actual o = JNumber z) /\
  status o <> None /\
  mlFeatures o = None /\
  lastPredictedOutcome o = None.

Definition samplePlatform : Server.Platform :=
  {| Server.trim := fun s => s;
     Server.nextPeriodOf := fun s => if String.eqb s "oops" then None else Some (s ++ "'")%string |}.

Definition sampleRequest : option Server.GameResult :=
  Some {| Server.issueNumber := "20240001"; Server.number := JNumber 7 |}.

(** The period a request is about, when the request is well formed. *)
Definition requestPeriod (pf : Server.Platform) (body : option Server.GameResult)
    : option string :=
  match body with
  | Some gameResult =>
      if String.eqb (Server.issueNumber gameResult) "" then None
      else Some (Server.trim pf (Server.issueNumber gameResult))
  | None => None
  end.

(** The server after a sequence of requests. *)
Definition serve (pf : Server.Platform) (env : Env) (s : Server.State)
    (bodies : list (option Server.GameResult)) : Server.State :=
  fold_left (fun s body => snd (Server.predict pf env s body)) bodies s.

Definition allPending (history : list Server.Entry) : Prop :=
  Forall (fun e => status (Server.outcome e) = Some Pending) history.

(** [(BigInt(p) + 1n).toString()] for a period written in decimal digits,
    the empty string counting as 0; every other string is refused here
    ([BigInt] also reads signs, blanks and radix prefixes, which no period
    below carries). *)
Definition successorOfDecimal (p : string) : option string :=
  match NilEmpty.uint_of_string p with
  | Some digits => Some (NilZero.string_of_uint (N.to_uint (N.succ (N.of_uint digits))))
  | None => None
  end.

Definition decimalPlatform : Server.Platform :=
  {| Server.trim := fun s => s; Server.nextPeriodOf := successorOfDecimal |}.

(** The request that reports round [k], with the outcome 5. *)
Definition roundOf (k : nat) : option Server.GameResult :=
  Some {| Server.issueNumber := NilZero.string_of_uint (Nat.to_uint k);
          Server.number := JNumber 5 |}.

(** Rounds 1 to 100 reported in order, each one the period the previous
    prediction was made for. *)
Definition hundredRounds : list (option Server.GameResult) := map roundOf (seq 1 100).

(** The three newest records of a history all have the status Win. *)
Definition newestThreeAreWins (history : list Outcome) : bool :=
  match history with
  | a :: b :: c :: _ => statusIs a Win && statusIs b Win && statusIs c Win
  | _ => false
  end.

(** * Properties *)

(** ** Numbers *)

Lemma jadd_correct a b : (a + b)%js == a + b.
Proof. apply Qred_correct. Qed.

Lemma jsub_correct a b : (a - b)%js == a - b.
Proof. apply Qred_correct. Qed.

Lemma jmul_correct a b : (a * b)%js == a * b.
Proof. apply Qred_correct. Qed.

Lemma jdiv_correct a b : (a / b)%js == a / b.
Proof. apply Qred_correct. Qed.

Lemma Qle_bool_false a b : Qle_bool a b = false -> b < a.
Proof.
  intros H. apply Qnot_le_lt. intros Hle.
  apply Qle_bool_iff in Hle. congruence.
Qed.

Lemma jlt_true a b : (a <? b)%js = true <-> a < b.
Proof.
  unfold jlt. split.
  - intros H. apply negb_true_iff in H. now apply Qle_bool_false.
  - intros H. apply negb_true_iff. destruct (Qle_bool b a) eqn:E; [|reflexivity].
    apply Qle_bool_iff in E. lra.
Qed.

Lemma jgt_true a b : (a >? b)%js = true <-> b < a.
Proof.
  unfold jgt. split.
  - intros H. apply negb_true_iff in H. now apply Qle_bool_false.
  - intros H. apply negb_true_iff. destruct (Qle_bool a b) eqn:E; [|reflexivity].
    apply Qle_bool_iff in E. lra.
Qed.

Lemma Math_min_spec a b : Math_min a b <= a /\ Math_min a b <= b /\
  (Math_min a b = a \/ Math_min a b = b).
Proof.
  unfold Math_min. destruct (Qle_bool a b) eqn:E.
  - apply Qle_bool_iff in E. repeat split; auto; lra.
  - apply Qle_bool_false in E. repeat split; auto; lra.
Qed.

Lemma Math_max_spec a b : a <= Math_max a b /\ b <= Math_max a b /\
  (Math_max a b = a \/ Math_max a b = b).
Proof.
  unfold Math_max. destruct (Qle_bool a b) eqn:E.
  - apply Qle_bool_iff in E. repeat split; auto; lra.
  - apply Qle_bool_false in E. repeat split; auto; lra.
Qed.

Lemma clampWeight_range x : 0.1 <= clampWeight x <= 5.0.
Proof.
  unfold clampWeight.
  destruct (Math_min_spec 5.0 x) as (H1 & H2 & H3).
  destruct (Math_max_spec 0.1 (Math_min 5.0 x)) as (G1 & G2 & [G3 | G3]).
  - rewrite G3. lra.
  - rewrite G3. split; [|assumption]. rewrite <- G3. assumption.
Qed.

(** ** Invariant of the reachable states *)

Lemma evolveSystemParameters_fields s acc :
  let s' := evolveSystemParameters s acc in
  MIN_HISTORY s' = MIN_HISTORY s /\ TARGET_ACCURACY s' = TARGET_ACCURACY s /\
  EVOLUTION_RATE s' = EVOLUTION_RATE s /\
  DEFENSIVE_MODE_ACTIVE s' = DEFENSIVE_MODE_ACTIVE s.
Proof.
  unfold evolveSystemParameters.
  destruct (jlt _ _); [|destruct (jgt _ _)]; cbn; auto.
Qed.

Lemma evolveSystemParameters_threshold s acc :
  EVOLUTION_RATE s = 0.005 ->
  0.42 <= BAD_TREND_THRESHOLD s <= 0.48 ->
  0.42 <= BAD_TREND_THRESHOLD (evolveSystemParameters s acc) <= 0.48.
Proof.
  intros Hr Ht. unfold evolveSystemParameters.
  destruct (jlt _ _); [|destruct (jgt _ _)];
    cbn [BAD_TREND_THRESHOLD set_BAD_TREND_THRESHOLD]; auto.
  - destruct (Math_min_spec 0.48 (BAD_TREND_THRESHOLD s + EVOLUTION_RATE s)%js)
      as (H1 & H2 & [H3 | H3]); rewrite H3; [lra|].
    rewrite H3 in H1. split; [|assumption].
    rewrite jadd_correct, Hr. lra.
  - destruct (Math_max_spec 0.42 (BAD_TREND_THRESHOLD s - EVOLUTION_RATE s)%js)
      as (H1 & H2 & [H3 | H3]); rewrite H3; [lra|].
    rewrite H3 in H1. split; [assumption|].
    rewrite jsub_correct, Hr. lra.
Qed.

Lemma manageDefensiveMode_fields s history :
  let s' := manageDefensiveMode s history in
  MIN_HISTORY s' = MIN_HISTORY s /\ TARGET_ACCURACY s' = TARGET_ACCURACY s /\
  EVOLUTION_RATE s' = EVOLUTION_RATE s /\
  BAD_TREND_THRESHOLD s' = BAD_TREND_THRESHOLD s.
Proof.
  unfold manageDefensiveMode.
  destruct (detectBadTrend s history);
    match goal with |- context [if ?c then _ else _] => destruct c end;
    cbn; auto.
Qed.

Lemma evolveMLWeights_skip w history :
  (len (recentTradesOf history) < 20)%Z -> evolveMLWeights w history = w.
Proof.
  intros H. unfold evolveMLWeights.
  apply Z.ltb_lt in H. now rewrite H.
Qed.

Lemma evolveMLWeights_run w history :
  (20 <= len (recentTradesOf history))%Z -> WeightsInRange (evolveMLWeights w history).
Proof.
  intros H. unfold evolveMLWeights.
  apply Z.ltb_ge in H. rewrite H.
  unfold WeightsInRange. apply Forall_map, Forall_forall.
  intros kv _. unfold weightInRange. cbn [snd]. apply clampWeight_range.
Qed.

Lemma evolveMLWeights_cases w history :
  evolveMLWeights w history = w \/ WeightsInRange (evolveMLWeights w history).
Proof.
  destruct (Z_lt_le_dec (len (recentTradesOf history)) 20).
  - left. now apply evolveMLWeights_skip.
  - right. now apply evolveMLWeights_run.
Qed.

Lemma Invariant_parameters w acc :
  Invariant w ->
  Invariant (set_systemState w (evolveSystemParameters (systemState w) acc)).
Proof.
  intros [H1 H2 H3 H4 H5].
  destruct (evolveSystemParameters_fields (systemState w) acc) as (F1 & F2 & F3 & _).
  constructor; cbn [systemState mlFeatureWeights set_systemState];
    try congruence.
  now apply evolveSystemParameters_threshold.
Qed.

Lemma Invariant_weights w history :
  Invariant w ->
  Invariant (set_mlFeatureWeights w (evolveMLWeights (mlFeatureWeights w) history)).
Proof.
  intros [H1 H2 H3 H4 H5].
  constructor; cbn [systemState mlFeatureWeights set_mlFeatureWeights]; auto.
  destruct (evolveMLWeights_cases (mlFeatureWeights w) history) as [E | E].
  - now rewrite E.
  - now right.
Qed.

Lemma Invariant_defensive w history :
  Invariant w ->
  Invariant (set_systemState w (manageDefensiveMode (systemState w) history)).
Proof.
  intros [H1 H2 H3 H4 H5].
  destruct (manageDefensiveMode_fields (systemState w) history) as (F1 & F2 & F3 & F4).
  constructor; cbn [systemState mlFeatureWeights set_systemState];
    congruence.
Qed.

Lemma updateMarketSentiment_fields env w :
  systemState (updateMarketSentiment env w) = systemState w /\
  mlFeatureWeights (updateMarketSentiment env w) = mlFeatureWeights w.
Proof.
  unfold updateMarketSentiment. cbn [random set_marketEvents randomCalls
    systemState mlFeatureWeights marketEvents].
  destruct (jlt _ _); cbn; auto.
Qed.

Lemma Invariant_same_fields w w' :
  systemState w' = systemState w ->
  mlFeatureWeights w' = mlFeatureWeights w ->
  Invariant w -> Invariant w'.
Proof.
  intros Hs Hw [H1 H2 H3 H4 H5].
  constructor; rewrite ?Hs, ?Hw; auto.
Qed.

Lemma Invariant_sentiment env w :
  Invariant w -> Invariant (updateMarketSentiment env w).
Proof.
  destruct (updateMarketSentiment_fields env w).
  now apply Invariant_same_fields.
Qed.

Lemma randomDecision_world env w level h :
  systemState (snd (randomDecision env w level h)) = systemState w /\
  mlFeatureWeights (snd (randomDecision env w level h)) = mlFeatureWeights w /\
  marketEvents (snd (randomDecision env w level h)) = marketEvents w /\
  randomCalls (snd (randomDecision env w level h)) = S (randomCalls w).
Proof. cbn. auto. Qed.

(** ** The three exits of [ultraAIPredict] *)

Lemma ultraAIPredict_gate env w history payload :
  (len (confirmedHistoryOf history) < MIN_HISTORY (systemState w))%Z ->
  ultraAIPredict env w history payload =
  (fst (randomDecision env w 1 INSUFFICIENT_HISTORY),
   snd (randomDecision env w 1 INSUFFICIENT_HISTORY), payload).
Proof.
  intros H. unfold ultraAIPredict.
  apply Z.ltb_lt in H. rewrite H. reflexivity.
Qed.

Lemma ultraAIPredict_uncertain env w history payload :
  let confirmed := confirmedHistoryOf history in
  let w2 := pipelineWorld env w confirmed payload in
  (MIN_HISTORY (systemState w) <= len confirmed)%Z ->
  analyzeUnifiedMLModel (mlFeatureWeights w2)
    (createFeatureSetForML env (systemState w2) confirmed) = None ->
  ultraAIPredict env w history payload =
  (fst (randomDecision env w2 0 MODEL_UNCERTAIN),
   snd (randomDecision env w2 0 MODEL_UNCERTAIN), payload).
Proof.
  intros confirmed w2 H Hm. unfold ultraAIPredict.
  apply Z.ltb_ge in H. fold confirmed. rewrite H.
  fold (stateEvolution env w confirmed payload).
  fold (lastResultOf payload).
  fold (defensiveStage (stateEvolution env w confirmed payload) confirmed payload).
  fold (pipelineWorld env w confirmed payload). fold w2.
  rewrite Hm. reflexivity.
Qed.

Lemma ultraAIPredict_consensus env w history payload pm :
  let confirmed := confirmedHistoryOf history in
  let w2 := pipelineWorld env w confirmed payload in
  (MIN_HISTORY (systemState w) <= len confirmed)%Z ->
  analyzeUnifiedMLModel (mlFeatureWeights w2)
    (createFeatureSetForML env (systemState w2) confirmed) = Some pm ->
  let adv := runAdvisoryModels env confirmed (prediction pm) in
  let defensive := DEFENSIVE_MODE_ACTIVE (systemState w2) in
  let fc0 := (confidence pm * (0.6 + (consensusScore adv * 0.4)))%js in
  let fc := if defensive then (fc0 * 0.7)%js else fc0 in
  worldOf (ultraAIPredict env w history payload) = w2 /\
  decisionOf (ultraAIPredict env w history payload) =
  {| finalDecision := prediction pm;
     finalConfidence := Some fc;
     confidenceLevel := if defensive then 0%Z else if (fc >? 0.55)%js then 1%Z else 0%Z;
     overallLogic := Some "ConsensusCore-v60.1";
     sourceLabel := MLAdvisors (agreeingModels adv) (totalAdvisors adv);
     systemHealth := if defensive then DEFENSIVE_MODE else OK;
     signals := Some (advisorySignals adv) |}.
Proof.
  intros confirmed w2 H Hm adv defensive fc0 fc. unfold ultraAIPredict.
  apply Z.ltb_ge in H. fold confirmed. rewrite H.
  fold (stateEvolution env w confirmed payload).
  fold (lastResultOf payload).
  fold (defensiveStage (stateEvolution env w confirmed payload) confirmed payload).
  fold (pipelineWorld env w confirmed payload). fold w2.
  rewrite Hm. split; reflexivity.
Qed.

Lemma Invariant_stateEvolution env w confirmed payload :
  Invariant w -> Invariant (stateEvolution env w confirmed payload).
Proof.
  intros Hw. unfold stateEvolution.
  destruct (_ =? _)%Z; [|assumption].
  apply Invariant_sentiment, Invariant_weights.
  destruct (longTermGlobalAccuracy payload) as [acc|]; [|assumption].
  destruct (truthy acc); [|assumption].
  now apply Invariant_parameters.
Qed.

Lemma Invariant_pipelineWorld env w confirmed payload :
  Invariant w -> Invariant (pipelineWorld env w confirmed payload).
Proof.
  intros Hw. unfold pipelineWorld, defensiveStage.
  destruct (lastResultOf payload).
  - now apply Invariant_defensive, Invariant_stateEvolution.
  - now apply Invariant_stateEvolution.
Qed.

Lemma Invariant_randomDecision env w level h :
  Invariant w -> Invariant (snd (randomDecision env w level h)).
Proof.
  destruct (randomDecision_world env w level h) as (H1 & H2 & _).
  now apply Invariant_same_fields.
Qed.

Lemma Invariant_cycle env w history payload :
  Invariant w -> Invariant (worldOf (ultraAIPredict env w history payload)).
Proof.
  intros Hw.
  destruct (Z_lt_le_dec (len (confirmedHistoryOf history)) (MIN_HISTORY (systemState w)))
    as [Hlt | Hge].
  - rewrite (ultraAIPredict_gate _ _ _ _ Hlt). unfold worldOf. cbn [fst snd].
    now apply Invariant_randomDecision.
  - pose proof (Invariant_pipelineWorld env w (confirmedHistoryOf history) payload Hw) as Hp.
    destruct (analyzeUnifiedMLModel
                (mlFeatureWeights (pipelineWorld env w (confirmedHistoryOf history) payload))
                (createFeatureSetForML env
                   (systemState (pipelineWorld env w (confirmedHistoryOf history) payload))
                   (confirmedHistoryOf history))) as [pm|] eqn:Hm.
    + destruct (ultraAIPredict_consensus env w history payload pm Hge Hm) as [E _].
      now rewrite E.
    + rewrite (ultraAIPredict_uncertain env w history payload Hge Hm).
      unfold worldOf. cbn [fst snd]. now apply Invariant_randomDecision.
Qed.

Lemma Invariant_world0 : Invariant world0.
Proof.
  constructor; cbn; try reflexivity.
  - lra.
  - now left.
Qed.

Lemma Invariant_step env w w' : step env w w' -> Invariant w -> Invariant w'.
Proof.
  intros Hs Hw. destruct Hs.
  - now apply Invariant_parameters.
  - now apply Invariant_weights.
  - now apply Invariant_defensive.
  - now apply Invariant_sentiment.
  - now apply Invariant_cycle.
Qed.

Lemma reachable_Invariant env w : reachable env w -> Invariant w.
Proof.
  induction 1 as [|w w' _ IH Hs].
  - apply Invariant_world0.
  - exact (Invariant_step env w w' Hs IH).
Qed.

(** ** The minimum-history gate *)

(** C1, as stated, fails: on the empty history (confirmed length 0 < 100)
    the decision carries [confidenceLevel] 1, not 0, and no numeric
    confidence at all. *)
Lemma insufficient_history_counterexample :
  let r := ultraAIPredict sampleEnv world0 [] emptyStats in
  (len (confirmedHistoryOf []) < 100)%Z /\
  confidenceLevel (decisionOf r) = 1%Z /\
  confidenceLevel (decisionOf r) <> 0%Z /\
  finalConfidence (decisionOf r) <> Some 0.
Proof.
  cbv zeta. repeat split; try reflexivity; vm_compute; discriminate.
Qed.

(** C1, amended: from a reachable state, for every history whose confirmed
    length is below the gate of 100, one call returns health
    INSUFFICIENT_HISTORY, the class BIG or SMALL picked by the next draw of
    the randomness source (BIG exactly when the draw exceeds 0.5), no
    numeric confidence, and runs no further step: the state only advances
    past the one random draw and the shared payload is returned untouched. *)
Theorem ultraAIPredict_insufficient_history env w history payload :
  reachable env w ->
  (len (confirmedHistoryOf history) < 100)%Z ->
  let r := ultraAIPredict env w history payload in
  systemHealth (decisionOf r) = INSUFFICIENT_HISTORY /\
  finalDecision (decisionOf r) =
    (if (Math_random env (randomCalls w) >? 0.5)%js then BIG else SMALL) /\
  finalConfidence (decisionOf r) = None /\
  systemState (worldOf r) = systemState w /\
  mlFeatureWeights (worldOf r) = mlFeatureWeights w /\
  marketEvents (worldOf r) = marketEvents w /\
  randomCalls (worldOf r) = S (randomCalls w) /\
  statsOf r = payload.
Proof.
  intros Hr Hlen r.
  pose proof (inv_min_history w (reachable_Invariant env w Hr)) as Hmin.
  rewrite <- Hmin in Hlen.
  subst r. rewrite (ultraAIPredict_gate env w history payload Hlen).
  unfold decisionOf, worldOf, statsOf. cbn. repeat split; reflexivity.
Qed.

Lemma ultraAIPredict_insufficient_history_witness :
  let r := ultraAIPredict sampleEnv world0 [] emptyStats in
  systemHealth (decisionOf r) = INSUFFICIENT_HISTORY /\
  finalDecision (decisionOf r) =
    (if (Math_random sampleEnv (randomCalls world0) >? 0.5)%js then BIG else SMALL) /\
  finalConfidence (decisionOf r) = None /\
  systemState (worldOf r) = systemState world0 /\
  mlFeatureWeights (worldOf r) = mlFeatureWeights world0 /\
  marketEvents (worldOf r) = marketEvents world0 /\
  randomCalls (worldOf r) = S (randomCalls world0) /\
  statsOf r = emptyStats.
Proof.
  apply (ultraAIPredict_insufficient_history sampleEnv world0 [] emptyStats).
  - apply reachable_init.
  - reflexivity.
Defined.

(** ** Defensive mode *)

Lemma newestThreeAreWins_last3 history :
  newestThreeAreWins history =
  (len (map status (slice0 3 history)) =? 3)%Z
  && forallb (fun s => match s with Some Win => true | _ => false end)
             (map status (slice0 3 history)).
Proof.
  assert (Hs : forall p, statusIs p Win = match status p with Some Win => true | _ => false end).
  { intros p. unfold statusIs. destruct (status p) as [[]|]; reflexivity. }
  destruct history as [|a [|b [|c rest]]]; try reflexivity.
  unfold newestThreeAreWins. rewrite !Hs.
  change (slice0 3 (a :: b :: c :: rest)) with [a; b; c].
  cbn [map forallb].
  change (len [status a; status b; status c] =? 3)%Z with true.
  destruct (status a) as [[]|], (status b) as [[]|], (status c) as [[]|];
    reflexivity.
Qed.

(** C2, at the failing input: defensive mode is on and the three most
    recent resolved statuses are all Win, behind a newest record that is
    still pending.  The claim has the evaluation switch defensive mode off;
    the code takes the three newest records whatever their status and leaves
    defensive mode on, as it does for every history whose newest record is
    pending.  The same three wins without the pending record in front of
    them switch it off. *)
Theorem manageDefensiveMode_exit_missed :
  DEFENSIVE_MODE_ACTIVE defensiveState = true /\
  firstn 3 (resolvedStatuses pendingThenWins) = [Win; Win; Win] /\
  DEFENSIVE_MODE_ACTIVE (manageDefensiveMode defensiveState pendingThenWins) = true /\
  DEFENSIVE_MODE_ACTIVE (manageDefensiveMode defensiveState threeWins) = false /\
  (forall st p rest,
     DEFENSIVE_MODE_ACTIVE st = true -> status p = Some Pending ->
     DEFENSIVE_MODE_ACTIVE (manageDefensiveMode st (p :: rest)) = true).
Proof.
  split; [reflexivity|]. split; [reflexivity|].
  split; [reflexivity|]. split; [reflexivity|].
  intros st p rest Hon Hp. unfold manageDefensiveMode.
  rewrite <- andb_assoc, <- newestThreeAreWins_last3.
  assert (Hw : newestThreeAreWins (p :: rest) = false).
  { destruct rest as [|b [|c rest]]; try reflexivity.
    unfold newestThreeAreWins, statusIs. rewrite Hp. reflexivity. }
  rewrite Hw, andb_false_r.
  destruct (detectBadTrend st (p :: rest)); [reflexivity | exact Hon].
Qed.

(** ** The categorical pattern detector *)

Lemma list_ascii_of_string_app (a b : string) :
  list_ascii_of_string (a ++ b)%string =
  list_ascii_of_string a ++ list_ascii_of_string b.
Proof.
  induction a as [|c a IH]; cbn; [reflexivity|]. now rewrite IH.
Qed.

(** The joined class names, read backwards, are empty or begin with the
    last letter of ["BIG"] or of ["SMALL"]. *)
Lemma join_backwards outcomes :
  let l := rev (list_ascii_of_string (join outcomes)) in
  l = [] \/ exists t, l = "G"%char :: t \/ l = "L"%char :: t.
Proof.
  induction outcomes as [|o r IH]; cbn [join fold_right].
  - now left.
  - fold (join r). cbv zeta in IH |- *.
    rewrite list_ascii_of_string_app, rev_app_distr.
    destruct IH as [E | (t & [E | E])]; rewrite E.
    + cbn [app]. destruct o as [[]|]; cbn.
      * right. eexists. left. reflexivity.
      * right. eexists. right. reflexivity.
      * now left.
    + right. eexists. left. reflexivity.
    + right. eexists. right. reflexivity.
Qed.

Lemma endsWith_join_B outcomes suffix :
  endsWith (join outcomes) (suffix ++ "B")%string = false.
Proof.
  unfold endsWith. rewrite list_ascii_of_string_app, rev_app_distr. cbn [list_ascii_of_string rev app].
  destruct (join_backwards outcomes) as [E | (t & [E | E])]; rewrite E; reflexivity.
Qed.

Lemma endsWith_join_S outcomes suffix :
  endsWith (join outcomes) (suffix ++ "S")%string = false.
Proof.
  unfold endsWith. rewrite list_ascii_of_string_app, rev_app_distr. cbn [list_ascii_of_string rev app].
  destruct (join_backwards outcomes) as [E | (t & [E | E])]; rewrite E; reflexivity.
Qed.

(** No rule of the table ever fires: the sequence is made of the words
    ["BIG"] and ["SMALL"], the rules look for runs of the letters B and S. *)
Lemma analyzeColorPatterns_abstains history : analyzeColorPatterns history = None.
Proof.
  unfold analyzeColorPatterns.
  destruct (_ <? _)%Z; [reflexivity|].
  set (outcomes := rev _).
  fold (join outcomes).
  rewrite (endsWith_join_B outcomes "BBB" : endsWith (join outcomes) "BBBB" = false),
    (endsWith_join_S outcomes "SSS" : endsWith (join outcomes) "SSSS" = false),
    (endsWith_join_B outcomes "BBBB" : endsWith (join outcomes) "BBBBB" = false),
    (endsWith_join_S outcomes "SSSS" : endsWith (join outcomes) "SSSSS" = false),
    (endsWith_join_S outcomes "BSB" : endsWith (join outcomes) "BSBS" = false),
    (endsWith_join_B outcomes "SBS" : endsWith (join outcomes) "SBSB" = false),
    (endsWith_join_B outcomes "BBSB" : endsWith (join outcomes) "BBSBB" = false),
    (endsWith_join_S outcomes "SSBS" : endsWith (join outcomes) "SSBSS" = false),
    (endsWith_join_B outcomes "BS" : endsWith (join outcomes) "BSB" = false),
    (endsWith_join_S outcomes "SB" : endsWith (join outcomes) "SBS" = false).
  reflexivity.
Qed.

(** C3, at the inputs of the claim: after LOW,HIGH,HIGH,HIGH,HIGH and after
    HIGH,HIGH,HIGH,HIGH,HIGH (chronological order) the sequence matched
    against the table is ["SMALLBIGBIGBIGBIG"], respectively
    ["BIGBIGBIGBIGBIG"], and the detector abstains in both cases. *)
Theorem analyzeColorPatterns_streaks :
  join (rev (slice0 10 (map (fun p => getBigSmallFromNumber (actual p)) fourBigAfterSmall)))
    = "SMALLBIGBIGBIGBIG" /\
  analyzeColorPatterns fourBigAfterSmall = None /\
  join (rev (slice0 10 (map (fun p => getBigSmallFromNumber (actual p)) fiveBig)))
    = "BIGBIGBIGBIGBIG" /\
  analyzeColorPatterns fiveBig = None.
Proof. repeat split. Qed.

(** ** The consensus composer *)

(** Replace the normalising operators by the exact ones in a goal stated up
    to equality of rationals. *)
Ltac js_exact :=
  repeat (rewrite ?jmul_correct, ?jadd_correct, ?jsub_correct, ?jdiv_correct).

Lemma pipelineWorld_weights env w confirmed payload :
  mlFeatureWeights (pipelineWorld env w confirmed payload) =
  if (len confirmed mod 5 =? 0)%Z
  then evolveMLWeights (mlFeatureWeights w) confirmed
  else mlFeatureWeights w.
Proof.
  unfold pipelineWorld, defensiveStage.
  assert (E : mlFeatureWeights (stateEvolution env w confirmed payload) =
              if (len confirmed mod 5 =? 0)%Z
              then evolveMLWeights (mlFeatureWeights w) confirmed
              else mlFeatureWeights w).
  { unfold stateEvolution. destruct (_ =? _)%Z; [|reflexivity].
    rewrite (proj2 (updateMarketSentiment_fields env _)).
    cbn [mlFeatureWeights set_mlFeatureWeights].
    destruct (longTermGlobalAccuracy payload) as [acc|]; [|reflexivity].
    destruct (truthy acc); reflexivity. }
  destruct (lastResultOf payload); exact E.
Qed.

Lemma pipelineWorld_MIN_HISTORY env w confirmed payload :
  MIN_HISTORY (systemState (pipelineWorld env w confirmed payload)) =
  MIN_HISTORY (systemState w).
Proof.
  unfold pipelineWorld, defensiveStage.
  assert (E : MIN_HISTORY (systemState (stateEvolution env w confirmed payload)) =
              MIN_HISTORY (systemState w)).
  { unfold stateEvolution. destruct (_ =? _)%Z; [|reflexivity].
    rewrite (proj1 (updateMarketSentiment_fields env _)).
    cbn [systemState set_mlFeatureWeights].
    destruct (longTermGlobalAccuracy payload) as [acc|]; [|reflexivity].
    destruct (truthy acc); [|reflexivity].
    cbn [systemState set_systemState].
    apply evolveSystemParameters_fields. }
  destruct (lastResultOf payload); [|exact E].
  cbn [systemState set_systemState].
  rewrite <- E. apply manageDefensiveMode_fields.
Qed.

Lemma createFeatureSetForML_MIN_HISTORY env st st' history :
  MIN_HISTORY st = MIN_HISTORY st' ->
  createFeatureSetForML env st history = createFeatureSetForML env st' history.
Proof. intros H. unfold createFeatureSetForML. now rewrite H. Qed.

(** The state a cycle past the gate leaves behind carries the system state
    and the weights the pipeline ran with. *)
Lemma ultraAIPredict_world env w history payload :
  let confirmed := confirmedHistoryOf history in
  let w2 := pipelineWorld env w confirmed payload in
  (MIN_HISTORY (systemState w) <= len confirmed)%Z ->
  systemState (worldOf (ultraAIPredict env w history payload)) = systemState w2 /\
  mlFeatureWeights (worldOf (ultraAIPredict env w history payload)) = mlFeatureWeights w2.
Proof.
  intros confirmed w2 Hge.
  destruct (analyzeUnifiedMLModel (mlFeatureWeights w2)
              (createFeatureSetForML env (systemState w2) confirmed)) as [pm|] eqn:Hm.
  - destruct (ultraAIPredict_consensus env w history payload pm Hge Hm) as [E _].
    rewrite E. auto.
  - rewrite (ultraAIPredict_uncertain env w history payload Hge Hm).
    unfold worldOf. cbn [fst snd].
    destruct (randomDecision_world env w2 0 MODEL_UNCERTAIN) as (H1 & H2 & _). auto.
Qed.

(** C5: on a cycle that reaches the composer (confirmed history at or above
    the gate, primary model not abstaining), with [defensive] the
    defensive-mode flag of that cycle, the final confidence is
    primaryConfidence * (0.6 + 0.4 * consensusScore), times 0.7 when
    defensive mode is on; the confidence level is 0 whenever defensive mode
    is on, and otherwise 1 if the final confidence exceeds 0.55 and 0 if it
    does not. *)
Theorem consensus_composer env w history payload pm :
  let confirmed := confirmedHistoryOf history in
  let r := ultraAIPredict env w history payload in
  (MIN_HISTORY (systemState w) <= len confirmed)%Z ->
  analyzeUnifiedMLModel (mlFeatureWeights (worldOf r))
    (createFeatureSetForML env (systemState (worldOf r)) confirmed) = Some pm ->
  let defensive := DEFENSIVE_MODE_ACTIVE (systemState (worldOf r)) in
  let cs := consensusScore (runAdvisoryModels env confirmed (prediction pm)) in
  exists fc,
    finalConfidence (decisionOf r) = Some fc /\
    fc == confidence pm * (0.6 + 0.4 * cs) * (if defensive then 0.7 else 1) /\
    (defensive = true -> confidenceLevel (decisionOf r) = 0%Z) /\
    (defensive = false -> 0.55 < fc -> confidenceLevel (decisionOf r) = 1%Z) /\
    (defensive = false -> fc <= 0.55 -> confidenceLevel (decisionOf r) = 0%Z).
Proof.
  intros confirmed r Hge Hm defensive cs.
  destruct (ultraAIPredict_world env w history payload Hge) as [Es Ew].
  fold confirmed r in Es, Ew. rewrite Es, Ew in Hm.
  destruct (ultraAIPredict_consensus env w history payload pm Hge Hm) as [E Hd].
  fold confirmed r in E, Hd. cbv zeta in Hd.
  subst defensive. rewrite Es. fold confirmed in Hd.
  set (defensive := DEFENSIVE_MODE_ACTIVE (systemState (pipelineWorld env w confirmed payload))) in *.
  rewrite Hd. cbn [finalConfidence confidenceLevel].
  eexists. split; [reflexivity|]. fold cs.
  destruct defensive.
  - split; [|repeat split; intros; congruence].
    js_exact. ring.
  - split; [js_exact; ring|].
    split; [discriminate|]. split; intros _ H.
    + apply jgt_true in H. now rewrite H.
    + destruct (jgt _ _) eqn:G; [|reflexivity].
      apply jgt_true in G. exfalso. unfold cs in H. lra.
Qed.

Lemma consensus_composer_witness :
  let r := ultraAIPredict sampleEnv world0 (map Some steadyHistory) resolvedStats in
  let r' := ultraAIPredict sampleEnv defensiveWorld (map Some steadyHistory) emptyStats in
  (exists fc, finalConfidence (decisionOf r) = Some fc /\
              fc == (1 # 4) * (0.6 + 0.4 * 0.5) * 1 /\
              confidenceLevel (decisionOf r) = 0%Z) /\
  (exists fc, finalConfidence (decisionOf r') = Some fc /\
              fc == (1 # 4) * (0.6 + 0.4 * 0.5) * 0.7 /\
              confidenceLevel (decisionOf r') = 0%Z).
Proof.
  split.
  - destruct (consensus_composer sampleEnv world0 (map Some steadyHistory) resolvedStats
                {| prediction := SMALL; confidence := 1 # 4 |})
      as (fc & H1 & H2 & _ & _ & H5).
    + vm_compute. discriminate.
    + vm_compute. reflexivity.
    + exists fc. split; [exact H1|]. split; [exact H2|].
      apply H5; [reflexivity|]. rewrite H2. vm_compute. discriminate.
  - destruct (consensus_composer sampleEnv defensiveWorld (map Some steadyHistory) emptyStats
                {| prediction := SMALL; confidence := 1 # 4 |})
      as (fc & H1 & H2 & H3 & _).
    + vm_compute. discriminate.
    + vm_compute. reflexivity.
    + exists fc. split; [exact H1|]. split; [exact H2|].
      apply H3. reflexivity.
Defined.

(** C10: on a cycle that reaches the consensus stage the emitted class is
    the class of the Primary Weighted Model.  That class is fixed by the
    confirmed history, the minimum-history gate and the weights the cycle
    starts from (after the weight evolution of every fifth record): whatever
    the defensive-mode flag, the bad-trend threshold, the sentiment events
    and the advisory votes are, the emitted class is the same. *)
Theorem final_class_is_primary_class env w history payload st pm :
  let confirmed := confirmedHistoryOf history in
  let weights :=
    if (len confirmed mod 5 =? 0)%Z
    then evolveMLWeights (mlFeatureWeights w) confirmed
    else mlFeatureWeights w in
  (MIN_HISTORY (systemState w) <= len confirmed)%Z ->
  MIN_HISTORY st = MIN_HISTORY (systemState w) ->
  analyzeUnifiedMLModel weights (createFeatureSetForML env st confirmed) = Some pm ->
  finalDecision (decisionOf (ultraAIPredict env w history payload)) = prediction pm.
Proof.
  intros confirmed weights Hge Hst Hm.
  assert (Hm' : analyzeUnifiedMLModel
                  (mlFeatureWeights (pipelineWorld env w confirmed payload))
                  (createFeatureSetForML env
                     (systemState (pipelineWorld env w confirmed payload)) confirmed)
                = Some pm).
  { rewrite pipelineWorld_weights. fold weights.
    rewrite (createFeatureSetForML_MIN_HISTORY env _ st); [exact Hm|].
    rewrite pipelineWorld_MIN_HISTORY. now symmetry. }
  destruct (ultraAIPredict_consensus env w history payload pm Hge Hm') as [_ Hd].
  rewrite Hd. reflexivity.
Qed.

Lemma final_class_is_primary_class_witness :
  finalDecision
    (decisionOf (ultraAIPredict sampleEnv world0 (map Some steadyHistory) resolvedStats))
  = SMALL.
Proof.
  apply (final_class_is_primary_class sampleEnv world0 (map Some steadyHistory)
           resolvedStats defensiveState {| prediction := SMALL; confidence := 1 # 4 |}).
  - vm_compute. discriminate.
  - reflexivity.
  - vm_compute. reflexivity.
Defined.

(** ** Weight evolution *)

(** C6: a weight-evolution pass is skipped (the weights are left as they
    are) whenever fewer than 20 records qualify among the 50 most recent
    ones that carry both a feature snapshot and a status; whenever the pass
    runs, every weight lies in [0.1, 5.0] afterwards. *)
Theorem evolveMLWeights_pass w history :
  ((len (recentTradesOf history) < 20)%Z -> evolveMLWeights w history = w) /\
  ((20 <= len (recentTradesOf history))%Z -> WeightsInRange (evolveMLWeights w history)).
Proof.
  split.
  - apply evolveMLWeights_skip.
  - apply evolveMLWeights_run.
Qed.

Lemma evolveMLWeights_pass_witness :
  evolveMLWeights mlFeatureWeights0 steadyHistory = mlFeatureWeights0 /\
  WeightsInRange (evolveMLWeights mlFeatureWeights0 twentyTrades).
Proof.
  split.
  - apply (proj1 (evolveMLWeights_pass mlFeatureWeights0 steadyHistory)). reflexivity.
  - apply (proj2 (evolveMLWeights_pass mlFeatureWeights0 twentyTrades)).
    vm_compute. discriminate.
Defined.

(** ** Parameter self-tuning *)

(** C7: at every reachable state the bad-trend threshold lies in
    [0.42, 0.48]; an accuracy observation more than 0.02 below the target
    moves it to min(0.48, threshold + step), so the observation
    target - 0.03 strictly increases it unless it is already at 0.48; an
    observation more than 0.02 above the target moves it to
    max(0.42, threshold - step). *)
Theorem evolveSystemParameters_tuning env w :
  reachable env w ->
  let s := systemState w in
  0.42 <= BAD_TREND_THRESHOLD s <= 0.48 /\
  forall globalAccuracy,
    let s' := evolveSystemParameters s globalAccuracy in
    (globalAccuracy < TARGET_ACCURACY s - 0.02 ->
     BAD_TREND_THRESHOLD s' == Math_min 0.48 (BAD_TREND_THRESHOLD s + EVOLUTION_RATE s)) /\
    (globalAccuracy == TARGET_ACCURACY s - 0.03 ->
     BAD_TREND_THRESHOLD s < 0.48 ->
     BAD_TREND_THRESHOLD s < BAD_TREND_THRESHOLD s') /\
    (TARGET_ACCURACY s + 0.02 < globalAccuracy ->
     BAD_TREND_THRESHOLD s' == Math_max 0.42 (BAD_TREND_THRESHOLD s - EVOLUTION_RATE s)) /\
    0.42 <= BAD_TREND_THRESHOLD s' <= 0.48.
Proof.
  intros Hr s.
  destruct (reachable_Invariant env w Hr) as [_ Ht Hrate Hthr _].
  fold s in Ht, Hrate, Hthr.
  split; [assumption|]. intros acc s'.
  assert (Hlow : acc < TARGET_ACCURACY s - 0.02 ->
                 BAD_TREND_THRESHOLD s' ==
                 Math_min 0.48 (BAD_TREND_THRESHOLD s + EVOLUTION_RATE s)).
  { intros Hacc. subst s'. unfold evolveSystemParameters.
    assert (E : (acc <? TARGET_ACCURACY s - 0.02)%js = true).
    { apply jlt_true. now rewrite jsub_correct. }
    rewrite E. cbn [BAD_TREND_THRESHOLD set_BAD_TREND_THRESHOLD].
    unfold Math_min. rewrite (Qleb_comp _ _ (Qeq_refl 0.48) _ _ (jadd_correct _ _)).
    destruct (Qle_bool _ _); [reflexivity | apply jadd_correct]. }
  repeat split.
  - exact Hlow.
  - intros Hacc Hlt. rewrite Hlow by (rewrite Hacc; lra).
    destruct (Math_min_spec 0.48 (BAD_TREND_THRESHOLD s + EVOLUTION_RATE s))
      as (_ & _ & [E | E]); rewrite E; [assumption|].
    rewrite Hrate. lra.
  - intros Hacc. subst s'. unfold evolveSystemParameters.
    assert (E1 : (acc <? TARGET_ACCURACY s - 0.02)%js = false).
    { apply not_true_is_false. intros E. apply jlt_true in E.
      rewrite jsub_correct in E. lra. }
    assert (E2 : (acc >? TARGET_ACCURACY s + 0.02)%js = true).
    { apply jgt_true. now rewrite jadd_correct. }
    rewrite E1, E2. cbn [BAD_TREND_THRESHOLD set_BAD_TREND_THRESHOLD].
    unfold Math_max. rewrite (Qleb_comp _ _ (Qeq_refl 0.42) _ _ (jsub_correct _ _)).
    destruct (Qle_bool _ _); [apply jsub_correct | reflexivity].
  - now apply evolveSystemParameters_threshold.
  - now apply evolveSystemParameters_threshold.
Qed.

Lemma evolveSystemParameters_tuning_witness :
  0.42 <= BAD_TREND_THRESHOLD systemState0 <= 0.48 /\
  BAD_TREND_THRESHOLD (evolveSystemParameters systemState0 0.51)
    == Math_min 0.48 (0.45 + 0.005) /\
  0.45 < BAD_TREND_THRESHOLD (evolveSystemParameters systemState0 0.51) /\
  BAD_TREND_THRESHOLD (evolveSystemParameters systemState0 0.60)
    == Math_max 0.42 (0.45 - 0.005).
Proof.
  destruct (evolveSystemParameters_tuning sampleEnv world0 (reachable_init sampleEnv))
    as [Hrange Hstep].
  destruct (Hstep 0.51) as (Hlow & Hstrict & _).
  destruct (Hstep 0.60) as (_ & _ & Hhigh & _).
  split; [exact Hrange|]. split; [|split].
  - apply Hlow. reflexivity.
  - apply Hstrict; reflexivity.
  - apply Hhigh. reflexivity.
Defined.

(** ** The feature extractor *)

Lemma createFeatureSetForML_rsi_strength env st history features :
  createFeatureSetForML env st history = Some features ->
  get features "rsi_strength" =
  Some (let rsiValue := calculateRSI (numbersOf history) 14 in
        if truthyO rsiValue then ((toNumber rsiValue - 50) / 50)%js else 0).
Proof.
  assert (Hget : forall f g : Features, Some f = Some g ->
                 get g "rsi_strength" = get f "rsi_strength")
    by (intros f g [= ->]; reflexivity).
  unfold createFeatureSetForML.
  destruct (_ <? _)%Z; [discriminate|].
  intros E. rewrite (Hget _ _ E). reflexivity.
Qed.

(** C8, at the failing input: on the window of one hundred rounds that gave
    9 and then 0 ninety-nine times, RSI(14) is available and equals 0, so
    (RSI(14) - 50)/50 is -1; the extractor runs and sets rsi_strength to 0. *)
Theorem rsi_strength_at_zero_rsi env :
  calculateRSI (numbersOf fallingHistory) 14 = Some 0 /\
  ((0 - 50) / 50)%js == -1 /\
  exists features,
    createFeatureSetForML env systemState0 fallingHistory = Some features /\
    get features "rsi_strength" = Some 0.
Proof.
  assert (Hrsi : calculateRSI (numbersOf fallingHistory) 14 = Some 0)
    by (vm_compute; reflexivity).
  split; [exact Hrsi|]. split; [reflexivity|].
  destruct (createFeatureSetForML env systemState0 fallingHistory) as [features|] eqn:E.
  - exists features. split; [reflexivity|].
    rewrite (createFeatureSetForML_rsi_strength _ _ _ _ E), Hrsi. reflexivity.
  - exfalso. unfold createFeatureSetForML in E.
    replace (len (numbersOf fallingHistory) <? MIN_HISTORY systemState0)%Z with false in E
      by (vm_compute; reflexivity).
    discriminate.
Qed.

(** ** Abstention on insufficient data *)

Lemma len_slice0 {A} (n : Z) (l : list A) :
  (0 <= n)%Z -> len (slice0 n l) = Z.min n (len l).
Proof.
  intros Hn. unfold len, slice0. rewrite length_firstn. lia.
Qed.

Lemma calculateSMA_insufficient data period :
  (len data < period \/ period <= 0)%Z -> calculateSMA data period = None.
Proof.
  intros H. unfold calculateSMA.
  replace ((len data <? period) || (period <=? 0))%Z with true; [reflexivity|].
  symmetry. apply orb_true_iff. destruct H; [left; lia | right; lia].
Qed.

Lemma calculateEMA_insufficient data period :
  (len data < period \/ period <= 0)%Z -> calculateEMA data period = None.
Proof.
  intros H. unfold calculateEMA.
  replace ((len data <? period) || (period <=? 0))%Z with true; [reflexivity|].
  symmetry. apply orb_true_iff. destruct H; [left; lia | right; lia].
Qed.

Lemma calculateStdDev_insufficient env data period :
  (len data < period \/ period < 2)%Z -> calculateStdDev env data period = None.
Proof.
  intros H. unfold calculateStdDev.
  destruct ((len data <? period) || (period <=? 0))%Z eqn:G; [reflexivity|].
  apply orb_false_iff in G. destruct G as [G1 G2].
  replace (len (slice0 period data) <? 2)%Z with true; [reflexivity|].
  symmetry. apply Z.ltb_lt. rewrite len_slice0 by lia. lia.
Qed.

Lemma calculateRSI_insufficient data period :
  (len data < period + 1)%Z -> calculateRSI data period = None.
Proof.
  intros H. unfold calculateRSI. apply Z.ltb_lt in H. now rewrite H.
Qed.

Lemma analyzeRSITrend_insufficient history :
  (len (numbersOf history) < 23)%Z -> analyzeRSITrend history = None.
Proof.
  intros H. unfold analyzeRSITrend.
  replace (len (numbersOf history) <? 14 + 9)%Z with true; [reflexivity|].
  symmetry. apply Z.ltb_lt. lia.
Qed.

Lemma analyzeStochastic_insufficient history :
  (len (numbersOf history) < 14)%Z -> analyzeStochastic history = None.
Proof.
  intros H. unfold analyzeStochastic.
  replace (len (slice0 14 (numbersOf history)) <? 14)%Z with true; [reflexivity|].
  symmetry. apply Z.ltb_lt. rewrite len_slice0 by lia. lia.
Qed.

Lemma analyzeColorPatterns_insufficient history :
  (len history < 5)%Z -> analyzeColorPatterns history = None.
Proof.
  intros H. unfold analyzeColorPatterns.
  match goal with |- context [(len ?o <? 5)%Z] =>
    replace (len o <? 5)%Z with true; [reflexivity|] end.
  symmetry. apply Z.ltb_lt.
  unfold len at 1. rewrite length_rev. fold (len (slice0 10 (map (fun p => getBigSmallFromNumber (actual p)) history))).
  rewrite len_slice0 by lia. unfold len at 1. rewrite length_map. fold (len history). lia.
Qed.

Lemma analyzeVolatilityBreakout_insufficient env history :
  (len (numbersOf history) < 40)%Z -> analyzeVolatilityBreakout env history = None.
Proof.
  intros H. unfold analyzeVolatilityBreakout.
  replace (len (numbersOf history) <? 20 * 2)%Z with true; [reflexivity|].
  symmetry. apply Z.ltb_lt. lia.
Qed.

Lemma analyzePriceAction_insufficient history :
  (len (numbersOf history) < 5)%Z -> analyzePriceAction history = None.
Proof.
  intros H. unfold analyzePriceAction.
  replace (len (slice0 5 (numbersOf history)) <? 5)%Z with true; [reflexivity|].
  symmetry. apply Z.ltb_lt. rewrite len_slice0 by lia. lia.
Qed.

Lemma analyzeMeanReversion_insufficient env history :
  (len (numbersOf history) < 20)%Z -> analyzeMeanReversion env history = None.
Proof.
  intros H. unfold analyzeMeanReversion.
  replace (len (slice0 20 (numbersOf history)) <? 20)%Z with true; [reflexivity|].
  symmetry. apply Z.ltb_lt. rewrite len_slice0 by lia. lia.
Qed.

(** An array of records is read without a throw. *)
Lemma mapItems_records {B} (field : Outcome -> B) records :
  Raw.mapItems (Raw.read field) (map Some records) = Raw.Returns (map field records).
Proof.
  induction records as [|p rest IH]; [reflexivity|].
  cbn [map Raw.mapItems Raw.read Raw.bind]. rewrite IH. reflexivity.
Qed.

Lemma nonNull_records {A} (l : list A) : nonNull (map Some l) = l.
Proof.
  induction l as [|x l IH]; [reflexivity|]. cbn [map nonNull]. now rewrite IH.
Qed.

Lemma detector_records {A} field (body : list Outcome -> A) records :
  Raw.detector field body (Raw.ArrayOf (map Some records)) = Raw.Returns (body records).
Proof.
  unfold Raw.detector, Raw.Array_map. cbn [Raw.itemsOf Raw.bind].
  rewrite mapItems_records. cbn [Raw.bind]. now rewrite nonNull_records.
Qed.

(** A guarded indicator returns on every argument: [null] when the data is
    missing, what its body gives on an array. *)
Lemma guarded_returns data body :
  Raw.guarded data body =
  Raw.Returns match data with Raw.Missing => None | Raw.ArrayOf numbers => body numbers end.
Proof. destruct data; reflexivity. Qed.

Lemma guarded_abstains data body (insufficient : Z -> Prop) :
  (forall numbers, insufficient (len numbers) -> body numbers = None) ->
  exists r, Raw.guarded data body = Raw.Returns r /\
            (insufficient (Raw.sizeOf data) -> r = None).
Proof.
  intros Hbody. rewrite guarded_returns. eexists. split; [reflexivity|].
  destruct data as [|numbers]; [reflexivity|]. apply Hbody.
Qed.

(** C9, as stated, fails: a history that is missing, or that holds a [null]
    entry, is an input on which each of the six detectors throws a TypeError
    instead of abstaining. *)
Lemma detectors_throw_counterexample :
  (Raw.analyzeRSITrend (Raw.ArrayOf [None]) = Raw.Throws Raw.TypeError /\
   Raw.analyzeStochastic (Raw.ArrayOf [None]) = Raw.Throws Raw.TypeError /\
   Raw.analyzeColorPatterns (Raw.ArrayOf [None]) = Raw.Throws Raw.TypeError /\
   Raw.analyzeVolatilityBreakout sampleEnv (Raw.ArrayOf [None]) = Raw.Throws Raw.TypeError /\
   Raw.analyzePriceAction (Raw.ArrayOf [None]) = Raw.Throws Raw.TypeError /\
   Raw.analyzeMeanReversion sampleEnv (Raw.ArrayOf [None]) = Raw.Throws Raw.TypeError) /\
  (Raw.analyzeRSITrend Raw.Missing = Raw.Throws Raw.TypeError /\
   Raw.analyzeStochastic Raw.Missing = Raw.Throws Raw.TypeError /\
   Raw.analyzeColorPatterns Raw.Missing = Raw.Throws Raw.TypeError /\
   Raw.analyzeVolatilityBreakout sampleEnv Raw.Missing = Raw.Throws Raw.TypeError /\
   Raw.analyzePriceAction Raw.Missing = Raw.Throws Raw.TypeError /\
   Raw.analyzeMeanReversion sampleEnv Raw.Missing = Raw.Throws Raw.TypeError).
Proof. repeat split. Qed.

(** C9, amended: each of the four indicator functions returns on every data
    argument, array or not, and returns "no result" when the data is missing
    or too short for the period.  Each of the six advisory detectors returns
    on every history that is an array of records, which is what the
    orchestrator passes after its filter, and abstains when the records hold
    too few usable numbers. *)
Theorem indicators_and_detectors_return env :
  (forall data period,
     exists r, Raw.calculateSMA data period = Raw.Returns r /\
               ((Raw.sizeOf data < period \/ period <= 0)%Z -> r = None)) /\
  (forall data period,
     exists r, Raw.calculateEMA data period = Raw.Returns r /\
               ((Raw.sizeOf data < period \/ period <= 0)%Z -> r = None)) /\
  (forall data period,
     exists r, Raw.calculateStdDev env data period = Raw.Returns r /\
               ((Raw.sizeOf data < period \/ period < 2)%Z -> r = None)) /\
  (forall data period,
     exists r, Raw.calculateRSI data period = Raw.Returns r /\
               ((Raw.sizeOf data < period + 1)%Z -> r = None)) /\
  (forall records,
     exists r, Raw.analyzeRSITrend (Raw.ArrayOf (map Some records)) = Raw.Returns r /\
               ((len (numbersOf records) < 23)%Z -> r = None)) /\
  (forall records,
     exists r, Raw.analyzeStochastic (Raw.ArrayOf (map Some records)) = Raw.Returns r /\
               ((len (numbersOf records) < 14)%Z -> r = None)) /\
  (forall records,
     exists r, Raw.analyzeColorPatterns (Raw.ArrayOf (map Some records)) = Raw.Returns r /\
               ((len records < 5)%Z -> r = None)) /\
  (forall records,
     exists r, Raw.analyzeVolatilityBreakout env (Raw.ArrayOf (map Some records))
               = Raw.Returns r /\
               ((len (numbersOf records) < 40)%Z -> r = None)) /\
  (forall records,
     exists r, Raw.analyzePriceAction (Raw.ArrayOf (map Some records)) = Raw.Returns r /\
               ((len (numbersOf records) < 5)%Z -> r = None)) /\
  (forall records,
     exists r, Raw.analyzeMeanReversion env (Raw.ArrayOf (map Some records))
               = Raw.Returns r /\
               ((len (numbersOf records) < 20)%Z -> r = None)).
Proof.
  repeat match goal with |- _ /\ _ => split end.
  - intros data period.
    apply (guarded_abstains data _ (fun n => (n < period \/ period <= 0)%Z)).
    intros numbers. apply calculateSMA_insufficient.
  - intros data period.
    apply (guarded_abstains data _ (fun n => (n < period \/ period <= 0)%Z)).
    intros numbers. apply calculateEMA_insufficient.
  - intros data period.
    apply (guarded_abstains data _ (fun n => (n < period \/ period < 2)%Z)).
    intros numbers. apply calculateStdDev_insufficient.
  - intros data period.
    apply (guarded_abstains data _ (fun n => (n < period + 1)%Z)).
    intros numbers. apply calculateRSI_insufficient.
  - intros records. eexists. split; [apply detector_records|].
    apply analyzeRSITrend_insufficient.
  - intros records. eexists. split; [apply detector_records|].
    apply analyzeStochastic_insufficient.
  - intros records. eexists. split; [apply detector_records|].
    apply analyzeColorPatterns_insufficient.
  - intros records. eexists. split; [apply detector_records|].
    apply analyzeVolatilityBreakout_insufficient.
  - intros records. eexists. split; [apply detector_records|].
    apply analyzePriceAction_insufficient.
  - intros records. eexists. split; [apply detector_records|].
    apply analyzeMeanReversion_insufficient.
Qed.

(** The indicators on missing data and on three numbers, the detectors on
    thirty records whose number is missing and on three records. *)
Lemma indicators_and_detectors_return_witness :
  Raw.calculateSMA Raw.Missing 5 = Raw.Returns None /\
  Raw.calculateEMA (Raw.ArrayOf [1; 2; 3]) 5 = Raw.Returns None /\
  Raw.calculateStdDev sampleEnv (Raw.ArrayOf [7]) 1 = Raw.Returns None /\
  Raw.calculateRSI Raw.Missing 14 = Raw.Returns None /\
  Raw.analyzeRSITrend (Raw.ArrayOf (map Some missingNumbers)) = Raw.Returns None /\
  Raw.analyzeStochastic (Raw.ArrayOf (map Some missingNumbers)) = Raw.Returns None /\
  Raw.analyzeColorPatterns (Raw.ArrayOf (map Some threeWins)) = Raw.Returns None /\
  Raw.analyzeVolatilityBreakout sampleEnv (Raw.ArrayOf (map Some missingNumbers))
  = Raw.Returns None /\
  Raw.analyzePriceAction (Raw.ArrayOf (map Some missingNumbers)) = Raw.Returns None /\
  Raw.analyzeMeanReversion sampleEnv (Raw.ArrayOf (map Some missingNumbers))
  = Raw.Returns None.
Proof.
  destruct (indicators_and_detectors_return sampleEnv)
    as (H1 & H2 & H3 & H4 & H5 & H6 & H7 & H8 & H9 & H10).
  assert (use : forall A (c : Raw.Completion (option A)),
            (exists r, c = Raw.Returns r /\ r = None) -> c = Raw.Returns None).
  { intros A c (r & -> & ->). reflexivity. }
  split; [apply use; destruct (H1 Raw.Missing 5%Z) as (r & E & Hr);
          exists r; split; [exact E | apply Hr; left; reflexivity]|].
  split; [apply use; destruct (H2 (Raw.ArrayOf [1; 2; 3]) 5%Z) as (r & E & Hr);
          exists r; split; [exact E | apply Hr; left; reflexivity]|].
  split; [apply use; destruct (H3 (Raw.ArrayOf [7]) 1%Z) as (r & E & Hr);
          exists r; split; [exact E | apply Hr; right; reflexivity]|].
  split; [apply use; destruct (H4 Raw.Missing 14%Z) as (r & E & Hr);
          exists r; split; [exact E | apply Hr; reflexivity]|].
  split; [apply use; destruct (H5 missingNumbers) as (r & E & Hr);
          exists r; split; [exact E | apply Hr; reflexivity]|].
  split; [apply use; destruct (H6 missingNumbers) as (r & E & Hr);
          exists r; split; [exact E | apply Hr; reflexivity]|].
  split; [apply use; destruct (H7 threeWins) as (r & E & Hr);
          exists r; split; [exact E | apply Hr; reflexivity]|].
  split; [apply use; destruct (H8 missingNumbers) as (r & E & Hr);
          exists r; split; [exact E | apply Hr; reflexivity]|].
  split; [apply use; destruct (H9 missingNumbers) as (r & E & Hr);
          exists r; split; [exact E | apply Hr; reflexivity]|].
  apply use; destruct (H10 missingNumbers) as (r & E & Hr);
    exists r; split; [exact E | apply Hr; reflexivity].
Defined.

(** * Further properties of the modelled code *)

(** ** Comparisons and folds *)

Lemma jgt_false a b : (a >? b)%js = false <-> a <= b.
Proof.
  unfold jgt. rewrite negb_false_iff. apply Qle_bool_iff.
Qed.

Lemma jlt_false a b : (a <? b)%js = false <-> b <= a.
Proof.
  unfold jlt. rewrite negb_false_iff. apply Qle_bool_iff.
Qed.

Lemma jeq_true a b : (a === b)%js = true <-> a == b.
Proof. apply Qeq_bool_iff. Qed.

Lemma fold_left_invariant {A B} (P : A -> Prop) (f : A -> B -> A) l a :
  P a -> (forall x b, In b l -> P x -> P (f x b)) -> P (fold_left f l a).
Proof.
  revert a. induction l as [|b l IH]; intros a Ha Hstep; cbn.
  - exact Ha.
  - apply IH.
    + apply Hstep; [now left | exact Ha].
    + intros x c Hc. apply Hstep. now right.
Qed.

Lemma Math_abs_nonneg a : 0 <= Math_abs a.
Proof. apply Qabs_nonneg. Qed.

(** ** The relative-strength index *)

Lemma inject_Z_ge_1 z : (0 < z)%Z -> 1 <= inject_Z z.
Proof.
  intros H. change 1 with (inject_Z 1). rewrite <- Zle_Qle. lia.
Qed.

Lemma Qdiv_nonneg a b : 0 <= a -> 0 < b -> 0 <= a / b.
Proof.
  intros Ha Hb. apply Qle_shift_div_l; [exact Hb|]. lra.
Qed.

(** The running sums and averages of [calculateRSI] are never negative. *)
Lemma calculateRSI_sums_nonneg chron l gl :
  0 <= fst gl -> 0 <= snd gl ->
  let r := fold_left
    (fun (gl : Q * Q) i =>
       let change := (at_ chron i - at_ chron (i - 1))%js in
       if (change >? 0)%js then ((fst gl + change)%js, snd gl)
       else (fst gl, (snd gl + Math_abs change)%js)) l gl in
  0 <= fst r /\ 0 <= snd r.
Proof.
  intros Hg Hl.
  apply (fold_left_invariant (fun gl => 0 <= fst gl /\ 0 <= snd gl)); [auto|].
  intros [g s] i _ [H1 H2]. cbn [fst snd] in *.
  destruct (jgt _ _) eqn:E; cbn [fst snd]; split; auto.
  - apply jgt_true in E. rewrite jadd_correct. lra.
  - rewrite jadd_correct. pose proof (Math_abs_nonneg (at_ chron i - at_ chron (i - 1))%js). lra.
Qed.

Lemma calculateRSI_averages_nonneg chron period l ag :
  (0 < period)%Z -> 0 <= fst ag -> 0 <= snd ag ->
  let r := fold_left
    (fun (ag : Q * Q) i =>
       let change := (at_ chron i - at_ chron (i - 1))%js in
       let currentGain := if (change >? 0)%js then change else 0 in
       let currentLoss := if (change <? 0)%js then Math_abs change else 0 in
       (((fst ag * (inject_Z period - 1)) + currentGain) / inject_Z period,
        ((snd ag * (inject_Z period - 1)) + currentLoss) / inject_Z period)%js) l ag in
  0 <= fst r /\ 0 <= snd r.
Proof.
  intros Hp Hg Hl.
  pose proof (inject_Z_ge_1 period Hp) as HP.
  apply (fold_left_invariant (fun ag => 0 <= fst ag /\ 0 <= snd ag)); [auto|].
  intros [g s] i _ [H1 H2]. cbn [fst snd] in *.
  set (change := (at_ chron i - at_ chron (i - 1))%js).
  split; js_exact; apply Qdiv_nonneg; try lra.
  - assert (0 <= (if (change >? 0)%js then change else 0)).
    { destruct (jgt _ _) eqn:E; [apply jgt_true in E|]; lra. }
    nra.
  - assert (0 <= (if (change <? 0)%js then Math_abs change else 0)).
    { destruct (jlt _ _) eqn:E; [apply Math_abs_nonneg | lra]. }
    nra.
Qed.

Lemma calculateRSI_range_aux data period rsi :
  (0 < period)%Z ->
  calculateRSI data period = Some rsi ->
  0 <= rsi <= 100.
Proof.
  intros Hp. unfold calculateRSI.
  destruct (_ <? _)%Z; [discriminate|].
  pose proof (inject_Z_ge_1 period Hp) as HP.
  match goal with |- context [fold_left ?f (seq 1 ?n) (0, 0)] =>
    pose proof (calculateRSI_sums_nonneg (rev data) (seq 1 n) (0, 0)) as Hs;
    destruct (fold_left f (seq 1 n) (0, 0)) as [gains losses] end.
  cbn [fst snd] in Hs. destruct Hs as [Hg Hl]; try lra.
  match goal with |- context [fold_left ?f ?l (?a, ?b)] =>
    pose proof (calculateRSI_averages_nonneg (rev data) period l (a, b) Hp) as Ha;
    destruct (fold_left f l (a, b)) as [avgGain avgLoss] end.
  cbn [fst snd] in Ha. destruct Ha as [Hag Hal].
  { rewrite jdiv_correct. apply Qdiv_nonneg; lra. }
  { rewrite jdiv_correct. apply Qdiv_nonneg; lra. }
  destruct (jeq avgLoss 0) eqn:E.
  - intros [= <-]. lra.
  - intros [= <-].
    assert (Hpos : 0 < avgLoss).
    { apply Qeq_bool_neq in E. destruct (Qlt_le_dec 0 avgLoss); [assumption|].
      exfalso. apply E. lra. }
    js_exact.
    assert (Hrs : 0 <= avgGain / avgLoss) by (now apply Qdiv_nonneg).
    assert (Hq : 0 <= 100 / (1 + avgGain / avgLoss) <= 100).
    { split.
      - apply Qdiv_nonneg; lra.
      - apply Qle_shift_div_r; [lra|]. nra. }
    lra.
Qed.

(** X1: The relative-strength index, when there is one, lies in [0, 100]. *)
Theorem calculateRSI_range data period rsi :
  (0 < period)%Z ->
  calculateRSI data period = Some rsi ->
  0 <= rsi <= 100.
Proof. exact (calculateRSI_range_aux data period rsi). Qed.

Lemma calculateRSI_range_witness :
  0 <= 351520 # 10759 <= 100.
Proof.
  apply (calculateRSI_range
           (map inject_Z [1; 2; 3; 4; 5; 6; 7; 8; 9; 1; 2; 3; 4; 5; 6; 7; 8; 9]%Z) 14).
  - reflexivity.
  - vm_compute. reflexivity.
Defined.

(** X2: When no round of the chronological series is lower than the one before
    it, the average loss is 0 and the index is 100. *)
Theorem calculateRSI_no_losses data period :
  (0 < period)%Z ->
  (period + 1 <= len data)%Z ->
  (forall i, (1 <= i < List.length data)%nat ->
             at_ (rev data) (i - 1) <= at_ (rev data) i) ->
  calculateRSI data period = Some 100.
Proof.
  intros Hp Hlen Hup. unfold calculateRSI.
  replace (len data <? period + 1)%Z with false by (symmetry; apply Z.ltb_ge; lia).
  assert (Hchange : forall i, (1 <= i < List.length data)%nat ->
            0 <= (at_ (rev data) i - at_ (rev data) (i - 1))%js).
  { intros i Hi. rewrite jsub_correct. specialize (Hup i Hi). lra. }
  assert (Hlen' : (Z.to_nat period + 1 <= List.length data)%nat).
  { unfold len in Hlen. lia. }
  (* first loop: the losses stay at 0 *)
  match goal with |- context [fold_left ?f (seq 1 ?n) (0, 0)] =>
    assert (Hs : snd (fold_left f (seq 1 n) (0, 0)) == 0);
    [ apply (fold_left_invariant (fun gl : Q * Q => snd gl == 0)); [reflexivity|];
      intros [g s] i Hi Hx; cbn [fst snd] in *;
      apply in_seq in Hi;
      assert (Hc := Hchange i ltac:(lia));
      destruct (jgt _ _) eqn:E; cbn [snd]; [exact Hx|];
      apply jgt_false in E; rewrite jadd_correct, Hx;
      unfold Math_abs;
      assert (Hz : (at_ (rev data) i - at_ (rev data) (i - 1))%js == 0) by lra;
      rewrite Hz; reflexivity
    | destruct (fold_left f (seq 1 n) (0, 0)) as [gains losses] ] end.
  cbn [snd] in Hs.
  (* second loop: so does the average loss *)
  match goal with |- context [fold_left ?f ?l (?a, ?b)] =>
    assert (Ha : snd (fold_left f l (a, b)) == 0);
    [ apply (fold_left_invariant (fun ag : Q * Q => snd ag == 0));
      [ cbn [snd]; rewrite jdiv_correct, Hs; unfold Qdiv; ring |];
      intros [g s] i Hi Hx; cbn [fst snd] in *;
      apply in_seq in Hi; rewrite length_rev in Hi;
      assert (Hc := Hchange i ltac:(lia));
      replace ((at_ (rev data) i - at_ (rev data) (i - 1)) <? 0)%js with false
        by (symmetry; apply jlt_false; exact Hc);
      js_exact; rewrite Hx; unfold Qdiv; ring
    | destruct (fold_left f l (a, b)) as [avgGain avgLoss] ] end.
  cbn [snd] in Ha.
  apply jeq_true in Ha. now rewrite Ha.
Qed.

Lemma calculateRSI_no_losses_witness :
  calculateRSI (map inject_Z [9; 9; 8; 7; 7; 6; 5; 5; 4; 3; 3; 2; 1; 1; 0; 0]%Z) 14 = Some 100.
Proof.
  apply calculateRSI_no_losses.
  - reflexivity.
  - vm_compute. discriminate.
  - intros i Hi. cbn [List.length map] in Hi.
    do 16 (destruct i as [|i]; [vm_compute; try discriminate; lia|]). lia.
Defined.

(** ** Moving averages *)

Lemma In_firstn {A} (x : A) n l : In x (firstn n l) -> In x l.
Proof.
  intros H. rewrite <- (firstn_skipn n l). apply in_or_app. now left.
Qed.

Lemma sum_bounds lo hi l a n :
  (forall x, In x l -> lo <= x <= hi) ->
  inject_Z n * lo <= a <= inject_Z n * hi ->
  inject_Z (n + len l) * lo <= fold_left jadd l a <= inject_Z (n + len l) * hi.
Proof.
  revert a n. induction l as [|x l IH]; intros a n Hl Ha.
  - unfold len. cbn. now rewrite Z.add_0_r.
  - cbn [fold_left].
    replace (n + len (x :: l))%Z with ((n + 1) + len l)%Z
      by (unfold len; cbn [List.length]; lia).
    apply IH.
    + intros y Hy. apply Hl. now right.
    + rewrite jadd_correct, inject_Z_plus.
      specialize (Hl x (or_introl eq_refl)). change (inject_Z 1) with 1. lra.
Qed.

(** In exact arithmetic a simple moving average lies between any two bounds
    of its window. *)
Lemma calculateSMA_between_aux lo hi data period m :
  calculateSMA data period = Some m ->
  (forall x, In x (slice0 period data) -> lo <= x <= hi) ->
  lo <= m <= hi.
Proof.
  unfold calculateSMA.
  destruct (_ || _)%bool eqn:G; [discriminate|].
  apply orb_false_iff in G. destruct G as [G1 G2].
  apply Z.ltb_ge in G1. apply Z.leb_gt in G2.
  intros [= <-] Hb.
  pose proof (sum_bounds lo hi (slice0 period data) 0 0 Hb) as Hs.
  rewrite len_slice0, Z.min_l in Hs by lia. cbn [Z.add] in Hs.
  fold (sum (slice0 period data)) in Hs.
  pose proof (inject_Z_ge_1 period G2) as HP.
  rewrite jdiv_correct.
  destruct Hs as [Hs1 Hs2]; [change (inject_Z 0) with 0; lra|].
  split.
  - apply Qle_shift_div_l; lra.
  - apply Qle_shift_div_r; lra.
Qed.

(** ** The primary weighted model *)

(** A feature the table knows adds the size of value * weight to one of
    the two scores; any other feature leaves them as they are. *)
Lemma scoreFeature_known w scores kv weight :
  get w (fst kv) = Some weight ->
  (fst (scoreFeature w scores kv) == fst scores + Qabs (snd kv * weight) /\
   snd (scoreFeature w scores kv) = snd scores) \/
  (fst (scoreFeature w scores kv) = fst scores /\
   snd (scoreFeature w scores kv) == snd scores + Qabs (snd kv * weight)).
Proof.
  destruct scores as [b s]. cbn [fst snd]. intros Hw.
  unfold scoreFeature. rewrite Hw. unfold Math_abs.
  destruct (jgt weight 0) eqn:Ew; destruct (jgt (snd kv) 0) eqn:Ev; cbn [fst snd].
  - left. split; [|reflexivity]. apply jgt_true in Ew, Ev. js_exact.
    rewrite (Qabs_pos (snd kv * weight)); [reflexivity|].
    apply Qmult_le_0_compat; lra.
  - right. split; [reflexivity|]. js_exact. reflexivity.
  - right. split; [reflexivity|]. apply jgt_true in Ev. js_exact.
    rewrite Qabs_Qmult, (Qabs_pos (snd kv)) by lra. reflexivity.
  - left. split; [|reflexivity]. js_exact.
    rewrite !Qabs_Qmult, (Qabs_pos (Qabs weight)) by apply Qabs_nonneg. reflexivity.
Qed.

Lemma scoreFeature_grows w scores kv :
  fst scores <= fst (scoreFeature w scores kv) /\
  snd scores <= snd (scoreFeature w scores kv).
Proof.
  destruct (get w (fst kv)) as [weight|] eqn:Hw.
  - pose proof (Qabs_nonneg (snd kv * weight)).
    destruct (scoreFeature_known w scores kv weight Hw) as [[H1 H2] | [H1 H2]];
      rewrite H1, H2; lra.
  - unfold scoreFeature. destruct scores as [b s]. rewrite Hw. cbn. lra.
Qed.

Lemma scoreFeature_fold_grows w fs scores :
  fst scores <= fst (fold_left (scoreFeature w) fs scores) /\
  snd scores <= snd (fold_left (scoreFeature w) fs scores).
Proof.
  revert scores. induction fs as [|kv fs IH]; intros scores; cbn [fold_left].
  - lra.
  - destruct (scoreFeature_grows w scores kv) as [H1 H2].
    destruct (IH (scoreFeature w scores kv)) as [H3 H4]. lra.
Qed.

Lemma Some_inj {A} (x y : A) : Some x = Some y -> x = y.
Proof. now intros [= ->]. Qed.

Lemma analyzeUnifiedMLModel_confidence_aux w features pm :
  analyzeUnifiedMLModel w features = Some pm ->
  0 <= confidence pm <= 1 /\
  (prediction pm = BIG -> 0 < confidence pm).
Proof.
  unfold analyzeUnifiedMLModel. destruct features as [fs|]; [|discriminate].
  pose proof (scoreFeature_fold_grows w fs (0, 0)) as Hg. cbn [fst snd] in Hg.
  destruct (fold_left (scoreFeature w) fs (0, 0)) as [b s]. cbn [fst snd] in Hg.
  destruct Hg as [Hb Hs].
  destruct (jeq _ _) eqn:E; [discriminate|].
  intros H. apply Some_inj in H. rewrite <- H. clear H pm.
  cbv beta iota delta [confidence prediction].
  apply Qeq_bool_neq in E. rewrite jadd_correct in E.
  assert (Ht : 0 < b + s).
  { destruct (Qlt_le_dec 0 (b + s)); [assumption|]. exfalso. apply E. lra. }
  unfold Math_abs.
  assert (Hd : Qabs (b - s) <= b + s).
  { apply Qabs_Qle_condition. lra. }
  pose proof (Qabs_nonneg (b - s)) as Hn.
  assert (Hp : b > s -> 0 < Qabs (b - s)) by (intros; rewrite Qabs_pos; lra).
  set (d := Qabs (b - s)) in *. clearbody d.
  split; [split|].
  - rewrite jdiv_correct, jadd_correct. apply Qdiv_nonneg; [exact Hn | exact Ht].
  - rewrite jdiv_correct, jadd_correct. apply Qle_shift_div_r; lra.
  - destruct (jgt b s) eqn:G; [|discriminate]. intros _.
    apply jgt_true in G. rewrite jdiv_correct, jadd_correct.
    apply Qlt_shift_div_l; [exact Ht|]. specialize (Hp G). lra.
Qed.

(** X5: When the model answers, its confidence lies in [0, 1]; a tie between
    the two scores gives SMALL with confidence 0, so a BIG answer always has
    a positive confidence. *)
Theorem analyzeUnifiedMLModel_confidence w features pm :
  analyzeUnifiedMLModel w features = Some pm ->
  0 <= confidence pm <= 1 /\
  (prediction pm = BIG -> 0 < confidence pm).
Proof. exact (analyzeUnifiedMLModel_confidence_aux w features pm). Qed.

Lemma analyzeUnifiedMLModel_confidence_witness :
  0 <= 1 # 4 <= 1 /\ (SMALL = BIG -> 0 < 1 # 4).
Proof.
  apply (analyzeUnifiedMLModel_confidence mlFeatureWeights0
           (createFeatureSetForML sampleEnv systemState0 steadyHistory)
           {| prediction := SMALL; confidence := 1 # 4 |}).
  vm_compute. reflexivity.
Defined.

(** The model answers as soon as one feature the table knows has a non-zero
    value and a non-zero weight. *)
Lemma analyzeUnifiedMLModel_answers w fs kv weight :
  In kv fs -> get w (fst kv) = Some weight ->
  ~ snd kv == 0 -> ~ weight == 0 ->
  analyzeUnifiedMLModel w (Some fs) <> None.
Proof.
  intros Hin Hw Hv Hwt.
  apply in_split in Hin. destruct Hin as (l1 & l2 & ->).
  unfold analyzeUnifiedMLModel. rewrite fold_left_app. cbn [fold_left].
  pose proof (scoreFeature_fold_grows w l1 (0, 0)) as H1. cbn [fst snd] in H1.
  set (s1 := fold_left (scoreFeature w) l1 (0, 0)) in *.
  pose proof (scoreFeature_fold_grows w l2 (scoreFeature w s1 kv)) as H2.
  assert (Hpos : 0 < Qabs (snd kv * weight)).
  { pose proof (Qabs_nonneg (snd kv * weight)) as Hn.
    destruct (Qlt_le_dec 0 (Qabs (snd kv * weight))); [assumption|].
    exfalso. assert (Hz : Qabs (snd kv * weight) == 0) by lra.
    assert (Hm : snd kv * weight == 0).
    { pose proof (Qle_Qabs (snd kv * weight)).
      pose proof (Qle_Qabs (- (snd kv * weight))) as Ho.
      rewrite Qabs_opp in Ho. lra. }
    apply Qmult_integral in Hm. tauto. }
  destruct (fold_left (scoreFeature w) l2 (scoreFeature w s1 kv)) as [b s].
  cbn [fst snd] in H2.
  assert (Ht : 0 < b + s).
  { destruct (scoreFeature_known w s1 kv weight Hw) as [[K1 K2] | [K1 K2]];
      rewrite K1, K2 in H2; lra. }
  destruct (jeq _ _) eqn:E; [|discriminate].
  apply jeq_true in E. rewrite jadd_correct in E. lra.
Qed.

(** ** The weight table along the reachable states *)

Lemma ultraAIPredict_weights env w history payload :
  mlFeatureWeights (worldOf (ultraAIPredict env w history payload)) = mlFeatureWeights w \/
  mlFeatureWeights (worldOf (ultraAIPredict env w history payload)) =
    evolveMLWeights (mlFeatureWeights w) (confirmedHistoryOf history).
Proof.
  destruct (Z_lt_le_dec (len (confirmedHistoryOf history)) (MIN_HISTORY (systemState w)))
    as [Hlt | Hge].
  - left. rewrite (ultraAIPredict_gate _ _ _ _ Hlt). reflexivity.
  - destruct (ultraAIPredict_world env w history payload Hge) as [_ Ew].
    rewrite Ew, pipelineWorld_weights.
    destruct (_ =? _)%Z; auto.
Qed.

Lemma step_weights_cases env w w' :
  step env w w' ->
  mlFeatureWeights w' = mlFeatureWeights w \/
  exists history, mlFeatureWeights w' = evolveMLWeights (mlFeatureWeights w) history.
Proof.
  intros Hs. destruct Hs.
  - now left.
  - right. now eexists.
  - now left.
  - left. apply updateMarketSentiment_fields.
  - destruct (ultraAIPredict_weights env w history payload) as [E | E].
    + now left.
    + right. eexists. exact E.
Qed.

(** A property of the initial weight table that [evolveMLWeights] keeps
    holds of the weight table of every reachable state. *)
Lemma reachable_weights_ind (P : Weights -> Prop) :
  P mlFeatureWeights0 ->
  (forall ws history, P ws -> P (evolveMLWeights ws history)) ->
  forall env w, reachable env w -> P (mlFeatureWeights w).
Proof.
  intros H0 Hstep env w Hr. induction Hr as [|w w' _ IH Hs].
  - exact H0.
  - destruct (step_weights_cases env w w' Hs) as [E | [history E]]; rewrite E; auto.
Qed.

Lemma evolveMLWeights_keys ws history :
  map fst (evolveMLWeights ws history) = map fst ws.
Proof.
  unfold evolveMLWeights. destruct (_ <? _)%Z; [reflexivity|].
  rewrite map_map. reflexivity.
Qed.

(** ** The weight vector *)

Lemma initial_weights_out_of_range : ~ WeightsInRange mlFeatureWeights0.
Proof.
  intros H. unfold WeightsInRange in H. rewrite Forall_forall in H.
  specialize (H ("rsi_is_overbought", -2.0)).
  unfold weightInRange in H. cbn in H.
  assert (Hin : 0.1 <= -2.0 <= 5.0) by (apply H; right; left; reflexivity).
  lra.
Qed.

Lemma step_keeps_range env w w' :
  step env w w' ->
  WeightsInRange (mlFeatureWeights w) -> WeightsInRange (mlFeatureWeights w').
Proof.
  intros Hs Hw.
  destruct (step_weights_cases env w w' Hs) as [E | [history E]]; rewrite E.
  - exact Hw.
  - destruct (evolveMLWeights_cases (mlFeatureWeights w) history) as [E' | Hr].
    + now rewrite E'.
    + exact Hr.
Qed.

Lemma evolves_keeps_range env w w' :
  evolves env w w' ->
  WeightsInRange (mlFeatureWeights w) -> WeightsInRange (mlFeatureWeights w').
Proof.
  intros He Hw. induction He as [|w w' w'' _ IH Hs].
  - exact Hw.
  - apply (step_keeps_range env w' w'' Hs). now apply IH.
Qed.

(** C4, as stated, fails at the initial state: the initial table holds the
    weights -2.0, -2.5 and -1.8. *)
Lemma initial_weights_counterexample :
  reachable sampleEnv world0 /\ ~ WeightsInRange (mlFeatureWeights world0).
Proof.
  split; [constructor|].
  intros H. unfold WeightsInRange in H. rewrite Forall_forall in H.
  specialize (H ("rsi_is_overbought", -2.0)).
  unfold weightInRange in H. cbn in H.
  assert (Hin : 0.1 <= -2.0 <= 5.0) by (apply H; right; left; reflexivity).
  lra.
Qed.

(** C4, amended: at every reachable state the weight vector is either
    still the initial table or has every entry in [0.1, 5.0].  The latter
    holds from the first weight-evolution pass that runs: a pass over at
    least twenty qualifying records, called directly or by a prediction cycle
    on every fifth confirmed record past the gate, leaves every entry in
    range, and a table in range stays in range, and so differs from the
    initial one, through every later operation. *)
Theorem weights_initial_or_in_range env w :
  reachable env w ->
  (mlFeatureWeights w = mlFeatureWeights0 \/ WeightsInRange (mlFeatureWeights w)) /\
  (forall history,
     (20 <= len (recentTradesOf history))%Z ->
     WeightsInRange (evolveMLWeights (mlFeatureWeights w) history)) /\
  (forall history payload,
     let confirmed := confirmedHistoryOf history in
     (100 <= len confirmed)%Z -> (len confirmed mod 5 = 0)%Z ->
     (20 <= len (recentTradesOf confirmed))%Z ->
     WeightsInRange (mlFeatureWeights (worldOf (ultraAIPredict env w history payload)))) /\
  (forall w',
     evolves env w w' -> WeightsInRange (mlFeatureWeights w) ->
     WeightsInRange (mlFeatureWeights w') /\ mlFeatureWeights w' <> mlFeatureWeights0).
Proof.
  intros Hr. pose proof (reachable_Invariant env w Hr) as Hi.
  split; [exact (inv_weights w Hi)|].
  split; [intros history; apply evolveMLWeights_run|].
  split.
  - intros history payload confirmed Hlen Hmod Hq.
    assert (Hge : (MIN_HISTORY (systemState w) <= len (confirmedHistoryOf history))%Z).
    { rewrite (inv_min_history w Hi). exact Hlen. }
    destruct (ultraAIPredict_world env w history payload Hge) as [_ Ew].
    rewrite Ew, pipelineWorld_weights.
    fold confirmed. apply Z.eqb_eq in Hmod. rewrite Hmod.
    now apply evolveMLWeights_run.
  - intros w' He Hw.
    pose proof (evolves_keeps_range env w w' He Hw) as Hw'.
    split; [exact Hw'|].
    intros E. rewrite E in Hw'. exact (initial_weights_out_of_range Hw').
Qed.

(** A first cycle on one hundred qualifying trades runs a pass: the table
    leaves the initial one, negative entries are raised to 0.1, and the
    table stays in range through a second cycle, which stops at the gate. *)
Lemma weights_initial_or_in_range_witness :
  let w1 := worldOf (ultraAIPredict sampleEnv world0 (map Some hundredTrades) emptyStats) in
  let w2 := worldOf (ultraAIPredict sampleEnv w1 [] resolvedStats) in
  WeightsInRange (mlFeatureWeights w1) /\
  (WeightsInRange (mlFeatureWeights w2) /\ mlFeatureWeights w2 <> mlFeatureWeights0).
Proof.
  intros w1 w2.
  assert (H1 : WeightsInRange (mlFeatureWeights w1)).
  { destruct (weights_initial_or_in_range sampleEnv world0 (reachable_init sampleEnv))
      as (_ & _ & Hcycle & _).
    apply Hcycle; vm_compute; first [reflexivity | discriminate]. }
  split; [exact H1|].
  assert (R1 : reachable sampleEnv w1).
  { apply (reachable_step sampleEnv world0); [apply reachable_init | apply step_cycle]. }
  destruct (weights_initial_or_in_range sampleEnv w1 R1) as (_ & _ & _ & Hlater).
  apply Hlater; [|exact H1].
  apply (evolves_step sampleEnv w1 w1); [apply evolves_refl | apply step_cycle].
Defined.

(** X6: The weight table never gains, loses or reorders a feature name: at every
    reachable state it lists the eleven names of the initial table. *)
Theorem weights_keys_fixed env w :
  reachable env w ->
  map fst (mlFeatureWeights w) = map fst mlFeatureWeights0.
Proof.
  apply (reachable_weights_ind
           (fun ws => map fst ws = map fst mlFeatureWeights0)); [reflexivity|].
  intros ws history H. now rewrite evolveMLWeights_keys.
Qed.

(** The cycle on one hundred qualifying trades runs a weight-evolution pass
    (fifty records qualify and the overbought weight moves from -2.0 to 0.1);
    the names are those of the initial table. *)
Lemma weights_keys_fixed_witness :
  let w := worldOf (ultraAIPredict sampleEnv world0 (map Some hundredTrades) emptyStats) in
  len (recentTradesOf (confirmedHistoryOf (map Some hundredTrades))) = 50%Z /\
  get (mlFeatureWeights w) "rsi_is_overbought" = Some 0.1 /\
  map fst (mlFeatureWeights w) = map fst mlFeatureWeights0.
Proof.
  intros w.
  split; [vm_compute; reflexivity|].
  split; [vm_compute; reflexivity|].
  apply (weights_keys_fixed sampleEnv).
  apply (reachable_step sampleEnv world0); [apply reachable_init | apply step_cycle].
Defined.

Lemma get_map_value (F : string * Q -> Q) ws key v :
  get ws key = Some v ->
  exists kv, In kv ws /\ get (map (fun kv => (fst kv, F kv)) ws) key = Some (F kv).
Proof.
  induction ws as [|[k x] ws IH]; cbn [get map fst]; [discriminate|].
  destruct (String.eqb k key) eqn:E.
  - intros _. exists (k, x). split; [now left | reflexivity].
  - intros H. destruct (IH H) as (kv & Hin & Hg). exists kv. split; [now right | exact Hg].
Qed.

Lemma evolveMLWeights_positiveWeight key ws history :
  positiveWeight key ws -> positiveWeight key (evolveMLWeights ws history).
Proof.
  intros (v & Hv & Hpos). unfold evolveMLWeights.
  destruct (_ <? _)%Z; [now exists v|].
  match goal with |- positiveWeight _ (map (fun kv => (fst kv, ?F)) ws) =>
    destruct (get_map_value (fun kv => F) ws key v Hv) as (kv & _ & Hg) end.
  eexists. split; [exact Hg|].
  cbv beta. match goal with |- 0 < clampWeight ?x =>
    pose proof (clampWeight_range x) end. lra.
Qed.

Lemma reachable_last_move_weight env w :
  reachable env w -> positiveWeight "last_move" (mlFeatureWeights w).
Proof.
  apply (reachable_weights_ind (positiveWeight "last_move")).
  - exists 0.5. split; [reflexivity | lra].
  - intros ws history. apply evolveMLWeights_positiveWeight.
Qed.

(** ** The feature extractor *)

Lemma createFeatureSetForML_shape_aux env st history :
  ((len (numbersOf history) < MIN_HISTORY st)%Z ->
   createFeatureSetForML env st history = None) /\
  ((MIN_HISTORY st <= len (numbersOf history))%Z ->
   exists rsi ob os macd trend boll move,
     createFeatureSetForML env st history =
       Some [ ("rsi_strength", rsi); ("rsi_is_overbought", ob);
              ("rsi_is_oversold", os); ("macd_hist", macd);
              ("trend_strength_score", trend); ("bollinger_pct_reversal", boll);
              ("last_move", move) ] /\
     -1 <= rsi <= 1 /\
     (ob = 0 \/ ob = 1) /\ (os = 0 \/ os = -1) /\ (ob = 0 \/ os = 0) /\
     (trend = -1 \/ trend = 0 \/ trend = 1) /\
     (move = 1 \/ move = -1)).
Proof.
  split; intros H; unfold createFeatureSetForML.
  - apply Z.ltb_lt in H. now rewrite H.
  - apply Z.ltb_ge in H. rewrite H.
    do 7 eexists. split; [reflexivity|].
    pose proof (calculateRSI_range_aux (numbersOf history) 14) as Hrsi.
    destruct (calculateRSI (numbersOf history) 14) as [r|]; cbn [truthyO toNumber].
    + specialize (Hrsi r eq_refl eq_refl).
      split; [|split; [|split; [|split; [|split]]]].
      * destruct (truthy r); [|lra]. js_exact.
        split; [apply Qle_shift_div_l | apply Qle_shift_div_r]; lra.
      * destruct (truthy r && jgt r 70)%bool; auto.
      * destruct (truthy r && jlt r 30)%bool; auto.
      * destruct (truthy r); cbn [andb]; auto.
        destruct (jgt r 70) eqn:G; auto. destruct (jlt r 30) eqn:L; auto.
        apply jgt_true in G. apply jlt_true in L. lra.
      * destruct (strength (getTrendContext history)); auto.
        destruct (direction (getTrendContext history)) as [[]|]; auto.
      * destruct (jgt _ _); auto.
    + cbn [andb]. split; [lra|].
      split; [auto|]. split; [auto|]. split; [auto|]. split.
      * destruct (strength (getTrendContext history)); auto.
        destruct (direction (getTrendContext history)) as [[]|]; auto.
      * destruct (jgt _ _); auto.
Qed.

(** X7: The extractor answers exactly when the history holds at least
    MIN_HISTORY usable numbers.  Its answer always lists the same seven
    features: rsi_strength lies in [-1, 1], the overbought flag is 0 or 1 and
    the oversold flag 0 or -1, never both set, the trend score is -1, 0 or 1
    and last_move is 1 or -1. *)
Theorem createFeatureSetForML_shape env st history :
  ((len (numbersOf history) < MIN_HISTORY st)%Z ->
   createFeatureSetForML env st history = None) /\
  ((MIN_HISTORY st <= len (numbersOf history))%Z ->
   exists rsi ob os macd trend boll move,
     createFeatureSetForML env st history =
       Some [ ("rsi_strength", rsi); ("rsi_is_overbought", ob);
              ("rsi_is_oversold", os); ("macd_hist", macd);
              ("trend_strength_score", trend); ("bollinger_pct_reversal", boll);
              ("last_move", move) ] /\
     -1 <= rsi <= 1 /\
     (ob = 0 \/ ob = 1) /\ (os = 0 \/ os = -1) /\ (ob = 0 \/ os = 0) /\
     (trend = -1 \/ trend = 0 \/ trend = 1) /\
     (move = 1 \/ move = -1)).
Proof. exact (createFeatureSetForML_shape_aux env st history). Qed.

Lemma createFeatureSetForML_shape_witness :
  createFeatureSetForML sampleEnv systemState0 fiveBig = None /\
  exists rsi ob os macd trend boll move,
    createFeatureSetForML sampleEnv systemState0 steadyHistory =
      Some [ ("rsi_strength", rsi); ("rsi_is_overbought", ob);
             ("rsi_is_oversold", os); ("macd_hist", macd);
             ("trend_strength_score", trend); ("bollinger_pct_reversal", boll);
             ("last_move", move) ] /\
    -1 <= rsi <= 1 /\
    (ob = 0 \/ ob = 1) /\ (os = 0 \/ os = -1) /\ (ob = 0 \/ os = 0) /\
    (trend = -1 \/ trend = 0 \/ trend = 1) /\
    (move = 1 \/ move = -1).
Proof.
  split.
  - apply (proj1 (createFeatureSetForML_shape sampleEnv systemState0 fiveBig)).
    reflexivity.
  - apply (proj2 (createFeatureSetForML_shape sampleEnv systemState0 steadyHistory)).
    vm_compute. discriminate.
Defined.

(** With a positive weight for last_move, the primary model never abstains
    on a feature vector built by the extractor. *)
Lemma primary_model_answers env st ws history features :
  positiveWeight "last_move" ws ->
  createFeatureSetForML env st history = Some features ->
  analyzeUnifiedMLModel ws (Some features) <> None.
Proof.
  intros (v & Hv & Hpos) Hf.
  destruct (Z_lt_le_dec (len (numbersOf history)) (MIN_HISTORY st)) as [Hlt | Hge].
  - rewrite (proj1 (createFeatureSetForML_shape_aux env st history) Hlt) in Hf. discriminate.
  - destruct (proj2 (createFeatureSetForML_shape_aux env st history) Hge)
      as (rsi & ob & os & macd & trend & boll & move & E & _ & _ & _ & _ & _ & Hm).
    rewrite E in Hf. apply Some_inj in Hf. subst features.
    apply (analyzeUnifiedMLModel_answers ws _ ("last_move", move) v).
    + do 6 right. now left.
    + exact Hv.
    + cbn [snd]. destruct Hm as [-> | ->]; intros Hz; discriminate Hz.
    + intros Hz. lra.
Qed.

(** ** The advisory ensemble *)

Lemma count_agreeing_bounds (c : AdvisorySignal -> bool) l a :
  (a <= fold_left (fun n model => if c model then (n + 1)%Z else n) l a <= a + len l)%Z.
Proof.
  revert a. induction l as [|m l IH]; intros a; cbn [fold_left].
  - unfold len. cbn. lia.
  - specialize (IH (if c m then (a + 1)%Z else a)).
    unfold len in *. cbn [List.length]. destruct (c m); lia.
Qed.

Lemma count_agreeing_split l p a b :
  (fold_left (fun n model => if Class_eqb (vote model) p then (n + 1)%Z else n) l a
   + fold_left (fun n model => if Class_eqb (vote model)
                                    (match p with BIG => SMALL | SMALL => BIG end)
                               then (n + 1)%Z else n) l b
   = a + b + len l)%Z.
Proof.
  revert a b. induction l as [|m l IH]; intros a b; cbn [fold_left].
  - unfold len. cbn. lia.
  - rewrite IH. unfold len. cbn [List.length].
    destruct (vote m), p; cbn [Class_eqb]; lia.
Qed.

Lemma len_nonNull_le {A} (l : list (option A)) : (len (nonNull l) <= len l)%Z.
Proof.
  unfold len. induction l as [|[x|] l IH]; cbn [nonNull List.length]; lia.
Qed.

Lemma runAdvisoryModels_bounds_aux env history primaryPrediction :
  let r := runAdvisoryModels env history primaryPrediction in
  totalAdvisors r = len (advisorySignals r) /\
  (0 <= agreeingModels r <= totalAdvisors r)%Z /\
  (totalAdvisors r <= 5)%Z /\
  0 <= consensusScore r <= 1 /\
  (totalAdvisors r = 0%Z -> consensusScore r = 0.5).
Proof.
  unfold runAdvisoryModels. cbv zeta.
  cbn [advisorySignals consensusScore agreeingModels totalAdvisors].
  rewrite analyzeColorPatterns_abstains.
  set (models := [_; _; _; _; _; _]).
  set (signals := nonNull models).
  pose proof (count_agreeing_bounds
                (fun model => Class_eqb (vote model) primaryPrediction) signals 0) as Hc.
  cbv beta in Hc.
  set (agreeing := fold_left _ signals 0%Z) in *.
  assert (Ht : (len signals <= 5)%Z).
  { subst signals models.
    destruct (analyzeRSITrend history), (analyzeStochastic history),
      (analyzeVolatilityBreakout env history), (analyzePriceAction history),
      (analyzeMeanReversion env history); unfold len; cbn; lia. }
  split; [reflexivity|]. split; [lia|]. split; [exact Ht|].
  assert (Hn : (0 <= len signals)%Z) by (unfold len; lia).
  destruct (0 <? len signals)%Z eqn:E.
  - apply Z.ltb_lt in E. split; [|lia].
    rewrite jdiv_correct.
    assert (0 < inject_Z (len signals)).
    { change 0 with (inject_Z 0). rewrite <- Zlt_Qlt. exact E. }
    assert (0 <= inject_Z agreeing <= inject_Z (len signals)).
    { split; [change 0 with (inject_Z 0)|]; rewrite <- Zle_Qle; lia. }
    split; [apply Qle_shift_div_l | apply Qle_shift_div_r]; lra.
  - split; [lra | reflexivity].
Qed.

(** X8: The ensemble reports at most five votes (the pattern detector never
    casts one), between 0 and that many agreeing ones, and a consensus score
    in [0, 1] that is 0.5 when nobody voted. *)
Theorem runAdvisoryModels_bounds env history primaryPrediction :
  let r := runAdvisoryModels env history primaryPrediction in
  totalAdvisors r = len (advisorySignals r) /\
  (0 <= agreeingModels r <= totalAdvisors r)%Z /\
  (totalAdvisors r <= 5)%Z /\
  0 <= consensusScore r <= 1 /\
  (totalAdvisors r = 0%Z -> consensusScore r = 0.5).
Proof. exact (runAdvisoryModels_bounds_aux env history primaryPrediction). Qed.

(** X9: Every vote agrees with exactly one of the two classes: the agreeing
    counts for BIG and for SMALL add up to the number of votes. *)
Theorem runAdvisoryModels_complementary env history :
  (agreeingModels (runAdvisoryModels env history BIG)
   + agreeingModels (runAdvisoryModels env history SMALL)
   = totalAdvisors (runAdvisoryModels env history BIG))%Z /\
  totalAdvisors (runAdvisoryModels env history SMALL)
  = totalAdvisors (runAdvisoryModels env history BIG).
Proof.
  unfold runAdvisoryModels. cbv zeta. cbn [agreeingModels totalAdvisors].
  split; [|reflexivity].
  set (signals := nonNull _).
  pose proof (count_agreeing_split signals BIG 0 0) as H. cbv beta iota in H.
  rewrite H. lia.
Qed.

(** ** One prediction cycle *)

Lemma len_numbersOf_le history : (len (numbersOf history) <= len history)%Z.
Proof.
  unfold len, numbersOf. rewrite length_map.
  pose proof (filter_length_le (fun n => negb (isNaN n)) (map actualNumber history)) as H.
  rewrite length_map in H. lia.
Qed.

Lemma pipelineWorld_positiveWeight env w confirmed payload key :
  positiveWeight key (mlFeatureWeights w) ->
  positiveWeight key (mlFeatureWeights (pipelineWorld env w confirmed payload)).
Proof.
  intros H. rewrite pipelineWorld_weights.
  destruct (_ =? _)%Z; [now apply evolveMLWeights_positiveWeight | exact H].
Qed.

(** The payload written by a cycle that reaches the composer. *)
Lemma ultraAIPredict_consensus_stats env w history payload pm :
  let confirmed := confirmedHistoryOf history in
  let w2 := pipelineWorld env w confirmed payload in
  (MIN_HISTORY (systemState w) <= len confirmed)%Z ->
  analyzeUnifiedMLModel (mlFeatureWeights w2)
    (createFeatureSetForML env (systemState w2) confirmed) = Some pm ->
  statsOf (ultraAIPredict env w history payload) =
  {| lastActualOutcome := lastActualOutcome payload;
     lastPredicted := Some (prediction pm);
     longTermGlobalAccuracy := longTermGlobalAccuracy payload;
     assignedOutput := Some (decisionOf (ultraAIPredict env w history payload));
     assignedFeatures := createFeatureSetForML env (systemState w2) confirmed;
     assignedStatus :=
       Some (match lastResultOf payload with Some s => s | None => Pending end) |}.
Proof.
  intros confirmed w2 H Hm.
  destruct (ultraAIPredict_consensus env w history payload pm H Hm) as [_ Hd].
  rewrite Hd. unfold ultraAIPredict.
  apply Z.ltb_ge in H. fold confirmed. rewrite H.
  fold (stateEvolution env w confirmed payload).
  fold (lastResultOf payload).
  fold (defensiveStage (stateEvolution env w confirmed payload) confirmed payload).
  fold (pipelineWorld env w confirmed payload). fold w2.
  rewrite Hm. reflexivity.
Qed.

(** The three exits, told apart by what the history holds. *)
Lemma ultraAIPredict_exits env w history payload :
  positiveWeight "last_move" (mlFeatureWeights w) ->
  let confirmed := confirmedHistoryOf history in
  let w2 := pipelineWorld env w confirmed payload in
  let r := ultraAIPredict env w history payload in
  ((len confirmed < MIN_HISTORY (systemState w))%Z /\
   r = (fst (randomDecision env w 1 INSUFFICIENT_HISTORY),
        snd (randomDecision env w 1 INSUFFICIENT_HISTORY), payload)) \/
  ((MIN_HISTORY (systemState w) <= len confirmed)%Z /\
   (len (numbersOf confirmed) < MIN_HISTORY (systemState w))%Z /\
   r = (fst (randomDecision env w2 0 MODEL_UNCERTAIN),
        snd (randomDecision env w2 0 MODEL_UNCERTAIN), payload)) \/
  ((MIN_HISTORY (systemState w) <= len (numbersOf confirmed))%Z /\
   exists pm,
     analyzeUnifiedMLModel (mlFeatureWeights w2)
       (createFeatureSetForML env (systemState w2) confirmed) = Some pm).
Proof.
  intros Hw confirmed w2 r.
  destruct (Z_lt_le_dec (len confirmed) (MIN_HISTORY (systemState w))) as [Hlt | Hge].
  { left. split; [exact Hlt|]. apply ultraAIPredict_gate. exact Hlt. }
  right.
  pose proof (pipelineWorld_MIN_HISTORY env w confirmed payload) as Hmin. fold w2 in Hmin.
  destruct (Z_lt_le_dec (len (numbersOf confirmed)) (MIN_HISTORY (systemState w)))
    as [Hn | Hn].
  - left. split; [exact Hge|]. split; [exact Hn|].
    apply ultraAIPredict_uncertain; [exact Hge|]. fold confirmed w2.
    rewrite (proj1 (createFeatureSetForML_shape_aux env (systemState w2) confirmed));
      [reflexivity | lia].
  - right. split; [exact Hn|].
    destruct (createFeatureSetForML env (systemState w2) confirmed) as [fs|] eqn:Ef.
    + destruct (analyzeUnifiedMLModel (mlFeatureWeights w2) (Some fs)) as [pm|] eqn:Em.
      * now exists pm.
      * exfalso. revert Em.
        apply (primary_model_answers env (systemState w2) _ confirmed fs); [|exact Ef].
        now apply pipelineWorld_positiveWeight.
    + exfalso.
      destruct (proj2 (createFeatureSetForML_shape_aux env (systemState w2) confirmed))
        as (? & ? & ? & ? & ? & ? & ? & E & _); [lia|]. congruence.
Qed.

Lemma ultraAIPredict_health_aux env w history payload :
  reachable env w ->
  let confirmed := confirmedHistoryOf history in
  let r := ultraAIPredict env w history payload in
  let defensive := DEFENSIVE_MODE_ACTIVE (systemState (worldOf r)) in
  (systemHealth (decisionOf r) = INSUFFICIENT_HISTORY <-> (len confirmed < 100)%Z) /\
  (systemHealth (decisionOf r) = MODEL_UNCERTAIN <->
   (100 <= len confirmed)%Z /\ (len (numbersOf confirmed) < 100)%Z) /\
  (systemHealth (decisionOf r) = DEFENSIVE_MODE <->
   (100 <= len (numbersOf confirmed))%Z /\ defensive = true) /\
  (systemHealth (decisionOf r) = OK <->
   (100 <= len (numbersOf confirmed))%Z /\ defensive = false).
Proof.
  intros Hr. cbv zeta.
  pose proof (inv_min_history w (reachable_Invariant env w Hr)) as Hmin.
  pose proof (len_numbersOf_le (confirmedHistoryOf history)) as Hle.
  destruct (ultraAIPredict_exits env w history payload
              (reachable_last_move_weight env w Hr))
    as [[Hlt E] | [(Hge & Hn & E) | (Hn & pm & Hm)]];
    rewrite Hmin in *.
  - rewrite E. unfold decisionOf. cbn [fst snd].
    cbn [randomDecision random fst systemHealth].
    repeat split; intros; try discriminate; try lia; try tauto.
  - rewrite E. unfold decisionOf. cbn [fst snd].
    cbn [randomDecision random fst systemHealth].
    repeat split; intros; try discriminate; try lia; try tauto.
  - assert (Hge : (MIN_HISTORY (systemState w) <= len (confirmedHistoryOf history))%Z)
      by lia.
    destruct (ultraAIPredict_consensus env w history payload pm Hge Hm) as [Ew Ed].
    rewrite Ew, Ed. cbn [systemHealth].
    destruct (DEFENSIVE_MODE_ACTIVE _);
      repeat split; intros; try discriminate; try lia; try tauto.
Qed.

(** X10: From a reachable state the health flag tells what the history held:
    INSUFFICIENT_HISTORY for fewer than 100 confirmed records,
    MODEL_UNCERTAIN when there are 100 confirmed records but fewer than 100
    of them carry a usable number, and otherwise DEFENSIVE_MODE or OK
    according to the defensive flag the cycle leaves behind. *)
Theorem ultraAIPredict_health env w history payload :
  reachable env w ->
  let confirmed := confirmedHistoryOf history in
  let r := ultraAIPredict env w history payload in
  let defensive := DEFENSIVE_MODE_ACTIVE (systemState (worldOf r)) in
  (systemHealth (decisionOf r) = INSUFFICIENT_HISTORY <-> (len confirmed < 100)%Z) /\
  (systemHealth (decisionOf r) = MODEL_UNCERTAIN <->
   (100 <= len confirmed)%Z /\ (len (numbersOf confirmed) < 100)%Z) /\
  (systemHealth (decisionOf r) = DEFENSIVE_MODE <->
   (100 <= len (numbersOf confirmed))%Z /\ defensive = true) /\
  (systemHealth (decisionOf r) = OK <->
   (100 <= len (numbersOf confirmed))%Z /\ defensive = false).
Proof. exact (ultraAIPredict_health_aux env w history payload). Qed.

Lemma ultraAIPredict_health_witness :
  let r := ultraAIPredict sampleEnv world0 (map Some steadyHistory) resolvedStats in
  systemHealth (decisionOf r) = OK <->
  (100 <= len (numbersOf (confirmedHistoryOf (map Some steadyHistory))))%Z /\
  DEFENSIVE_MODE_ACTIVE (systemState (worldOf r)) = false.
Proof.
  apply (ultraAIPredict_health sampleEnv world0 (map Some steadyHistory) resolvedStats).
  apply reachable_init.
Defined.

Lemma ultraAIPredict_no_confidence env w history payload :
  let confirmed := confirmedHistoryOf history in
  let w2 := pipelineWorld env w confirmed payload in
  let r := ultraAIPredict env w history payload in
  (exists pm,
     (MIN_HISTORY (systemState w) <= len confirmed)%Z /\
     analyzeUnifiedMLModel (mlFeatureWeights w2)
       (createFeatureSetForML env (systemState w2) confirmed) = Some pm) \/
  (finalConfidence (decisionOf r) = None /\ statsOf r = payload /\
   systemState (worldOf r) = systemState w2 \/
   finalConfidence (decisionOf r) = None /\ statsOf r = payload /\
   systemState (worldOf r) = systemState w).
Proof.
  cbv zeta.
  destruct (Z_lt_le_dec (len (confirmedHistoryOf history)) (MIN_HISTORY (systemState w)))
    as [Hlt | Hge].
  - right. right. rewrite (ultraAIPredict_gate _ _ _ _ Hlt). repeat split.
  - destruct (analyzeUnifiedMLModel
                (mlFeatureWeights (pipelineWorld env w (confirmedHistoryOf history) payload))
                (createFeatureSetForML env
                   (systemState (pipelineWorld env w (confirmedHistoryOf history) payload))
                   (confirmedHistoryOf history))) as [pm|] eqn:Hm.
    + left. exists pm. auto.
    + right. left. rewrite (ultraAIPredict_uncertain env w history payload Hge Hm).
      repeat split.
Qed.

Lemma ultraAIPredict_confidence_bounds_aux env w history payload fc :
  let d := decisionOf (ultraAIPredict env w history payload) in
  finalConfidence d = Some fc ->
  0 <= fc <= 1 /\
  (confidenceLevel d = 0%Z \/ confidenceLevel d = 1%Z) /\
  (confidenceLevel d = 1%Z -> 0.55 < fc /\ systemHealth d = OK).
Proof.
  cbv zeta. intros Hfc.
  destruct (ultraAIPredict_no_confidence env w history payload)
    as [(pm & Hge & Hm) | [(E & _) | (E & _)]]; try congruence.
  destruct (ultraAIPredict_consensus env w history payload pm Hge Hm) as [_ Hd].
  rewrite Hd in *. cbv beta iota delta [finalConfidence confidenceLevel systemHealth] in *.
  apply Some_inj in Hfc.
  destruct (analyzeUnifiedMLModel_confidence_aux _ _ _ Hm) as [Hc _].
  destruct (runAdvisoryModels_bounds_aux env (confirmedHistoryOf history) (prediction pm))
    as (_ & _ & _ & Hs & _).
  set (cs := consensusScore _) in *. set (c := confidence pm) in *.
  clearbody cs c.
  destruct (DEFENSIVE_MODE_ACTIVE _).
  - subst fc. split; [js_exact; split; nra|]. split; [now left|]. discriminate.
  - subst fc. split; [js_exact; split; nra|].
    destruct (jgt _ _) eqn:G.
    + split; [now right|]. intros _. apply jgt_true in G. now split.
    + split; [now left|]. discriminate.
Qed.

(** X11: A decision that carries a confidence carries one in [0, 1]; its
    confidence level is 0 or 1, and a level of 1 means that the confidence
    exceeds 0.55 and the health is OK. *)
Theorem ultraAIPredict_confidence_bounds env w history payload fc :
  let d := decisionOf (ultraAIPredict env w history payload) in
  finalConfidence d = Some fc ->
  0 <= fc <= 1 /\
  (confidenceLevel d = 0%Z \/ confidenceLevel d = 1%Z) /\
  (confidenceLevel d = 1%Z -> 0.55 < fc /\ systemHealth d = OK).
Proof. exact (ultraAIPredict_confidence_bounds_aux env w history payload fc). Qed.

Lemma ultraAIPredict_confidence_bounds_witness :
  let d := decisionOf (ultraAIPredict sampleEnv world0 (map Some steadyHistory) resolvedStats) in
  0 <= 1 # 5 <= 1 /\
  (confidenceLevel d = 0%Z \/ confidenceLevel d = 1%Z) /\
  (confidenceLevel d = 1%Z -> 0.55 < 1 # 5 /\ systemHealth d = OK).
Proof.
  apply (ultraAIPredict_confidence_bounds sampleEnv world0 (map Some steadyHistory)
           resolvedStats (1 # 5)).
  vm_compute. reflexivity.
Defined.

Lemma ultraAIPredict_payload_aux env w history payload :
  let r := ultraAIPredict env w history payload in
  (finalConfidence (decisionOf r) = None -> statsOf r = payload) /\
  (finalConfidence (decisionOf r) <> None ->
   lastPredicted (statsOf r) = Some (finalDecision (decisionOf r)) /\
   assignedOutput (statsOf r) = Some (decisionOf r) /\
   lastActualOutcome (statsOf r) = lastActualOutcome payload /\
   longTermGlobalAccuracy (statsOf r) = longTermGlobalAccuracy payload /\
   assignedStatus (statsOf r) <> Some Cooldown /\
   (assignedStatus (statsOf r) = Some Pending <->
    truthyJ (lastActualOutcome payload) = false)).
Proof.
  cbv zeta.
  destruct (ultraAIPredict_no_confidence env w history payload)
    as [(pm & Hge & Hm) | [(E & Es & _) | (E & Es & _)]].
  - destruct (ultraAIPredict_consensus env w history payload pm Hge Hm) as [_ Hd].
    rewrite (ultraAIPredict_consensus_stats env w history payload pm Hge Hm).
    split.
    + rewrite Hd. discriminate.
    + intros _. cbn [lastPredicted assignedOutput lastActualOutcome
        longTermGlobalAccuracy assignedStatus].
      split; [rewrite Hd; reflexivity|].
      clear Hd Hm Hge. unfold lastResultOf.
      destruct (truthyJ (lastActualOutcome payload)); cbv beta iota;
        [destruct (sameClass _ _)|]; repeat split; intros; congruence.
  - split; [auto|]. intros H. congruence.
  - split; [auto|]. intros H. congruence.
Qed.



Lemma ultraAIPredict_worlds env w history payload :
  let confirmed := confirmedHistoryOf history in
  let w2 := pipelineWorld env w confirmed payload in
  (MIN_HISTORY (systemState w) <= len confirmed)%Z ->
  worldOf (ultraAIPredict env w history payload) = w2 \/
  worldOf (ultraAIPredict env w history payload) = snd (randomDecision env w2 0 MODEL_UNCERTAIN).
Proof.
  intros confirmed w2 Hge.
  destruct (analyzeUnifiedMLModel (mlFeatureWeights w2)
              (createFeatureSetForML env (systemState w2) confirmed)) as [pm|] eqn:Hm.
  - left. apply (ultraAIPredict_consensus env w history payload pm Hge Hm).
  - right. now rewrite (ultraAIPredict_uncertain env w history payload Hge Hm).
Qed.

Lemma updateMarketSentiment_randomCalls env w :
  (randomCalls w + 1 <= randomCalls (updateMarketSentiment env w) <= randomCalls w + 2)%nat.
Proof.
  unfold updateMarketSentiment.
  cbn [random set_marketEvents randomCalls systemState mlFeatureWeights marketEvents].
  destruct (jlt _ _); cbn [randomCalls set_marketEvents]; lia.
Qed.

Lemma stateEvolution_randomCalls env w confirmed payload :
  (randomCalls w <= randomCalls (stateEvolution env w confirmed payload)
   <= randomCalls w + 2)%nat.
Proof.
  unfold stateEvolution. destruct (_ =? _)%Z; [|lia].
  match goal with |- context [updateMarketSentiment env ?x] =>
    pose proof (updateMarketSentiment_randomCalls env x) as H;
    replace (randomCalls x) with (randomCalls w) in H end; [lia|].
  destruct (longTermGlobalAccuracy payload) as [acc|]; [|reflexivity].
  destruct (truthy acc); reflexivity.
Qed.

Lemma defensiveStage_frame w1 confirmed payload :
  mlFeatureWeights (defensiveStage w1 confirmed payload) = mlFeatureWeights w1 /\
  marketEvents (defensiveStage w1 confirmed payload) = marketEvents w1 /\
  randomCalls (defensiveStage w1 confirmed payload) = randomCalls w1 /\
  BAD_TREND_THRESHOLD (systemState (defensiveStage w1 confirmed payload))
  = BAD_TREND_THRESHOLD (systemState w1).
Proof.
  unfold defensiveStage. destruct (lastResultOf payload); [|auto].
  cbn [mlFeatureWeights marketEvents randomCalls systemState set_systemState].
  repeat split. apply manageDefensiveMode_fields.
Qed.

(** X13: One cycle draws at most three random numbers: one or two for the
    sentiment update of every fifth record, one for a random fallback. *)
Theorem ultraAIPredict_random_draws env w history payload :
  (randomCalls w <= randomCalls (worldOf (ultraAIPredict env w history payload))
   <= randomCalls w + 3)%nat.
Proof.
  destruct (Z_lt_le_dec (len (confirmedHistoryOf history)) (MIN_HISTORY (systemState w)))
    as [Hlt | Hge].
  - rewrite (ultraAIPredict_gate _ _ _ _ Hlt). unfold worldOf. cbn. lia.
  - pose proof (stateEvolution_randomCalls env w (confirmedHistoryOf history) payload) as H1.
    destruct (defensiveStage_frame (stateEvolution env w (confirmedHistoryOf history) payload)
                (confirmedHistoryOf history) payload) as (_ & _ & H2 & _).
    fold (pipelineWorld env w (confirmedHistoryOf history) payload) in H2.
    destruct (ultraAIPredict_worlds env w history payload Hge) as [E | E]; rewrite E.
    + lia.
    + destruct (randomDecision_world env
                  (pipelineWorld env w (confirmedHistoryOf history) payload)
                  0 MODEL_UNCERTAIN) as (_ & _ & _ & H3). lia.
Qed.

(** X14: Weights, bad-trend threshold and sentiment events only move on every
    fifth confirmed record: a cycle below the gate, or one whose confirmed
    length is not a multiple of 5, leaves all three as they were. *)
Theorem ultraAIPredict_quiet_cycle env w history payload :
  let confirmed := confirmedHistoryOf history in
  let w' := worldOf (ultraAIPredict env w history payload) in
  (len confirmed < MIN_HISTORY (systemState w))%Z \/ (len confirmed mod 5 <> 0)%Z ->
  mlFeatureWeights w' = mlFeatureWeights w /\
  marketEvents w' = marketEvents w /\
  BAD_TREND_THRESHOLD (systemState w') = BAD_TREND_THRESHOLD (systemState w).
Proof.
  cbv zeta. intros H.
  destruct (Z_lt_le_dec (len (confirmedHistoryOf history)) (MIN_HISTORY (systemState w)))
    as [Hlt | Hge].
  - rewrite (ultraAIPredict_gate _ _ _ _ Hlt). unfold worldOf. cbn. auto.
  - destruct H as [H | H]; [lia|].
    assert (E1 : stateEvolution env w (confirmedHistoryOf history) payload = w).
    { unfold stateEvolution. apply Z.eqb_neq in H. now rewrite H. }
    destruct (defensiveStage_frame (stateEvolution env w (confirmedHistoryOf history) payload)
                (confirmedHistoryOf history) payload) as (H1 & H2 & _ & H4).
    fold (pipelineWorld env w (confirmedHistoryOf history) payload) in H1, H2, H4.
    rewrite E1 in H1, H2, H4.
    destruct (ultraAIPredict_worlds env w history payload Hge) as [E | E]; rewrite E.
    + auto.
    + destruct (randomDecision_world env
                  (pipelineWorld env w (confirmedHistoryOf history) payload)
                  0 MODEL_UNCERTAIN) as (K1 & K2 & K3 & _).
      rewrite K1, K2, K3. auto.
Qed.

Lemma ultraAIPredict_quiet_cycle_witness :
  let w' := worldOf (ultraAIPredict sampleEnv world0 (map Some twentyTrades) resolvedStats) in
  mlFeatureWeights w' = mlFeatureWeights world0 /\
  marketEvents w' = marketEvents world0 /\
  BAD_TREND_THRESHOLD (systemState w') = BAD_TREND_THRESHOLD (systemState world0).
Proof.
  apply (ultraAIPredict_quiet_cycle sampleEnv world0 (map Some twentyTrades) resolvedStats).
  left. reflexivity.
Defined.

Lemma stateEvolution_defensive env w confirmed payload :
  DEFENSIVE_MODE_ACTIVE (systemState (stateEvolution env w confirmed payload))
  = DEFENSIVE_MODE_ACTIVE (systemState w).
Proof.
  unfold stateEvolution. destruct (_ =? _)%Z; [|reflexivity].
  rewrite (proj1 (updateMarketSentiment_fields env _)).
  cbn [systemState set_mlFeatureWeights].
  destruct (longTermGlobalAccuracy payload) as [acc|]; [|reflexivity].
  destruct (truthy acc); [|reflexivity].
  cbn [systemState set_systemState]. apply evolveSystemParameters_fields.
Qed.

(** X15: The defensive-mode state machine runs only when the payload carries a
    truthy last actual outcome: when that outcome is missing, or is the
    number 0, the cycle leaves the defensive flag as it was. *)
Theorem ultraAIPredict_defensive_skipped env w history payload :
  truthyJ (lastActualOutcome payload) = false ->
  DEFENSIVE_MODE_ACTIVE (systemState (worldOf (ultraAIPredict env w history payload)))
  = DEFENSIVE_MODE_ACTIVE (systemState w).
Proof.
  intros H.
  destruct (Z_lt_le_dec (len (confirmedHistoryOf history)) (MIN_HISTORY (systemState w)))
    as [Hlt | Hge].
  - rewrite (ultraAIPredict_gate _ _ _ _ Hlt). reflexivity.
  - destruct (ultraAIPredict_world env w history payload Hge) as [Es _]. rewrite Es.
    unfold pipelineWorld, defensiveStage, lastResultOf. rewrite H.
    apply stateEvolution_defensive.
Qed.

Lemma ultraAIPredict_defensive_skipped_witness :
  DEFENSIVE_MODE_ACTIVE
    (systemState (worldOf (ultraAIPredict sampleEnv world0 (map Some losingHistory)
                             zeroOutcomeStats)))
  = DEFENSIVE_MODE_ACTIVE (systemState world0).
Proof.
  apply (ultraAIPredict_defensive_skipped sampleEnv world0 (map Some losingHistory)
           zeroOutcomeStats).
  reflexivity.
Defined.

(** ** The sentiment simulator *)

(** X16: The aggregate sentiment lies in [-1, 1]. *)
Theorem getMarketSentimentFactor_range w :
  -1 <= getMarketSentimentFactor w <= 1.
Proof.
  unfold getMarketSentimentFactor.
  destruct (_ =? _)%Z; [split; vm_compute; discriminate|].
  set (total := fold_left _ _ _).
  destruct (Math_min_spec 1 total) as (H1 & _ & _).
  destruct (Math_max_spec (-1) (Math_min 1 total)) as (G1 & _ & [G3 | G3]);
    rewrite G3 in *; lra.
Qed.

Lemma updateMarketSentiment_events env w :
  marketEvents (updateMarketSentiment env w) = decayEvents (marketEvents w) \/
  exists e, (impact e = 1.0 \/ impact e = -1.0) /\
    marketEvents (updateMarketSentiment env w) = decayEvents (marketEvents w) ++ [e].
Proof.
  unfold updateMarketSentiment. fold (decayEvents (marketEvents w)).
  cbn [random set_marketEvents randomCalls systemState mlFeatureWeights marketEvents].
  destruct (jlt _ _); [|now left].
  right. cbn [marketEvents set_marketEvents].
  eexists. split; [|reflexivity]. cbn [impact]. destruct (jgt _ _); auto.
Qed.

Lemma stateEvolution_events env w confirmed payload :
  marketEvents (stateEvolution env w confirmed payload) = marketEvents w \/
  exists w0, marketEvents w0 = marketEvents w /\
    marketEvents (stateEvolution env w confirmed payload)
    = marketEvents (updateMarketSentiment env w0).
Proof.
  unfold stateEvolution. destruct (_ =? _)%Z; [|now left].
  right. eexists. split; [|reflexivity].
  cbn [marketEvents set_mlFeatureWeights].
  destruct (longTermGlobalAccuracy payload) as [acc|]; [|reflexivity].
  destruct (truthy acc); reflexivity.
Qed.

Lemma ultraAIPredict_events env w history payload :
  marketEvents (worldOf (ultraAIPredict env w history payload)) = marketEvents w \/
  exists w0, marketEvents w0 = marketEvents w /\
    marketEvents (worldOf (ultraAIPredict env w history payload))
    = marketEvents (updateMarketSentiment env w0).
Proof.
  destruct (Z_lt_le_dec (len (confirmedHistoryOf history)) (MIN_HISTORY (systemState w)))
    as [Hlt | Hge].
  - left. rewrite (ultraAIPredict_gate _ _ _ _ Hlt). reflexivity.
  - assert (E : marketEvents (worldOf (ultraAIPredict env w history payload))
                = marketEvents (stateEvolution env w (confirmedHistoryOf history) payload)).
    { destruct (defensiveStage_frame
                  (stateEvolution env w (confirmedHistoryOf history) payload)
                  (confirmedHistoryOf history) payload) as (_ & H2 & _).
      fold (pipelineWorld env w (confirmedHistoryOf history) payload) in H2.
      destruct (ultraAIPredict_worlds env w history payload Hge) as [E | E]; rewrite E.
      - exact H2.
      - destruct (randomDecision_world env
                    (pipelineWorld env w (confirmedHistoryOf history) payload)
                    0 MODEL_UNCERTAIN) as (_ & _ & K3 & _). now rewrite K3. }
    rewrite E. apply stateEvolution_events.
Qed.

(** A property of the empty collection that decay and the arrival of an
    event of impact 1 or -1 keep holds of the events of every reachable
    state. *)
Lemma reachable_events_ind (P : list MarketEvent -> Prop) :
  P [] ->
  (forall events, P events -> P (decayEvents events)) ->
  (forall events e, P events -> impact e = 1.0 \/ impact e = -1.0 ->
                    P (decayEvents events ++ [e])) ->
  forall env w, reachable env w -> P (marketEvents w).
Proof.
  intros H0 Hdecay Hnew env w Hr.
  assert (Hupd : forall w0, P (marketEvents w0) ->
                            P (marketEvents (updateMarketSentiment env w0))).
  { intros w0 Hw0.
    destruct (updateMarketSentiment_events env w0) as [E | (e & He & E)]; rewrite E; auto. }
  induction Hr as [|w w' _ IH Hs]; [exact H0|].
  destruct Hs; cbn [marketEvents set_systemState set_mlFeatureWeights]; auto.
  destruct (ultraAIPredict_events env w history payload) as [E | (w0 & E0 & E)];
    rewrite E; [exact IH|].
  apply Hupd. now rewrite E0.
Qed.

Lemma decayEvents_Forall events :
  Forall (fun e => Qabs (impact e) <= 1) events ->
  Forall (fun e => 0.05 < Qabs (impact e) <= 0.9) (decayEvents events).
Proof.
  intros H. unfold decayEvents. apply Forall_forall. intros e He.
  apply filter_In in He. destruct He as [He Hf].
  apply in_map_iff in He. destruct He as (e0 & <- & He0).
  rewrite Forall_forall in H. specialize (H e0 He0).
  cbn [impact] in *. apply jgt_true in Hf. unfold Math_abs in Hf.
  split; [exact Hf|].
  unfold EVENT_IMPACT_DECAY_RATE. rewrite jmul_correct, Qabs_Qmult.
  rewrite (Qabs_pos 0.90) by lra. nra.
Qed.

(** X17: At every reachable state each live sentiment event has an impact of
    size above 0.05 and at most 1. *)
Theorem marketEvents_impact_range env w :
  reachable env w ->
  Forall (fun e => 0.05 < Qabs (impact e) <= 1) (marketEvents w).
Proof.
  apply (reachable_events_ind
           (Forall (fun e => 0.05 < Qabs (impact e) <= 1))).
  - constructor.
  - intros events H.
    eapply Forall_impl; [|apply decayEvents_Forall].
    + cbv beta. intros e He. lra.
    + eapply Forall_impl; [|exact H]. cbv beta. intros e He. lra.
  - intros events e H He. apply Forall_app. split.
    + eapply Forall_impl; [|apply decayEvents_Forall].
      * cbv beta. intros x Hx. lra.
      * eapply Forall_impl; [|exact H]. cbv beta. intros x Hx. lra.
    + constructor; [|constructor].
      destruct He as [-> | ->]; split; vm_compute; congruence.
Qed.

Lemma decayFactor_nonneg n : 0 <= decayFactor n.
Proof. induction n; cbn [decayFactor]; lra. Qed.

Lemma decayFactor_decreasing n m : (n <= m)%nat -> decayFactor m <= decayFactor n.
Proof.
  induction 1 as [|m _ IH]; [lra|].
  cbn [decayFactor]. pose proof (decayFactor_nonneg m). lra.
Qed.

Lemma StronglySorted_filter {A} (R : A -> A -> Prop) f l :
  StronglySorted R l -> StronglySorted R (filter f l).
Proof.
  induction 1 as [|a l Hl IH Ha]; cbn [filter]; [constructor|].
  destruct (f a); [|exact IH].
  constructor; [exact IH|].
  rewrite Forall_forall in *. intros x Hx. apply Ha.
  apply filter_In in Hx. tauto.
Qed.

Lemma StronglySorted_snoc {A} (R : A -> A -> Prop) l e :
  StronglySorted R l -> Forall (fun x => R x e) l -> StronglySorted R (l ++ [e]).
Proof.
  induction 1 as [|a l Hl IH Ha]; intros He; cbn [app].
  - repeat constructor.
  - inversion He as [|? ? Hae Hle]; subst.
    constructor; [now apply IH|].
    apply Forall_app. split; [exact Ha | now constructor].
Qed.

Lemma decayEvents_sorted events :
  StronglySorted weakerThan events -> StronglySorted weakerThan (decayEvents events).
Proof.
  intros H. unfold decayEvents. apply StronglySorted_filter.
  induction H as [|a l Hl IH Ha]; cbn [map]; constructor; [exact IH|].
  rewrite Forall_forall in *. intros x Hx.
  apply in_map_iff in Hx. destruct Hx as (x0 & <- & Hx0).
  specialize (Ha x0 Hx0). unfold weakerThan in *. cbn [impact].
  rewrite !jmul_correct, !Qabs_Qmult.
  pose proof (Qabs_nonneg EVENT_IMPACT_DECAY_RATE). nra.
Qed.

Lemma sorted_head_bound a rest :
  StronglySorted weakerThan (a :: rest) ->
  Forall (fun e => Qabs (impact e) <= 1) (a :: rest) ->
  Qabs (impact a) <= decayFactor (List.length rest).
Proof.
  revert a. induction rest as [|b rest IH]; intros a Hs Hb.
  - inversion Hb; subst. cbn. assumption.
  - inversion Hs as [|? ? Hs' Ha]; subst. inversion Hb as [|? ? _ Hb']; subst.
    inversion Ha as [|? ? Hab _]; subst.
    specialize (IH b Hs' Hb'). unfold weakerThan in Hab.
    cbn [List.length decayFactor]. lra.
Qed.

(** X18: At every reachable state the sentiment simulator holds at most 29 live
    events: an event of impact 1 fades below 0.05 after 29 decays, and at
    most one event arrives per update. *)
Theorem marketEvents_at_most_29 env w :
  reachable env w -> (List.length (marketEvents w) <= 29)%nat.
Proof.
  intros Hr.
  assert (Hinv : StronglySorted weakerThan (marketEvents w) /\
                 Forall (fun e => 0.05 < Qabs (impact e) <= 1) (marketEvents w)).
  { revert env w Hr.
    apply (reachable_events_ind
             (fun l => StronglySorted weakerThan l /\
                       Forall (fun e => 0.05 < Qabs (impact e) <= 1) l)).
    - split; constructor.
    - intros events [Hs Hb]. split; [now apply decayEvents_sorted|].
      eapply Forall_impl; [|apply decayEvents_Forall].
      + cbv beta. intros e He. lra.
      + eapply Forall_impl; [|exact Hb]. cbv beta. intros e He. lra.
    - intros events e [Hs Hb] He.
      assert (Hd : Forall (fun x => 0.05 < Qabs (impact x) <= 0.9) (decayEvents events)).
      { apply decayEvents_Forall.
        eapply Forall_impl; [|exact Hb]. cbv beta. intros x Hx. lra. }
      assert (He1 : Qabs (impact e) == 1).
      { destruct He as [-> | ->]; reflexivity. }
      split.
      + apply StronglySorted_snoc; [now apply decayEvents_sorted|].
        eapply Forall_impl; [|exact Hd]. cbv beta. intros x Hx.
        unfold weakerThan. rewrite He1. lra.
      + apply Forall_app. split.
        * eapply Forall_impl; [|exact Hd]. cbv beta. intros x Hx. lra.
        * constructor; [|constructor]. rewrite He1. lra. }
  destruct Hinv as [Hs Hb].
  destruct (marketEvents w) as [|a rest]; [cbn; lia|].
  assert (Hle : Forall (fun e => Qabs (impact e) <= 1) (a :: rest)).
  { eapply Forall_impl; [|exact Hb]. cbv beta. intros e He. lra. }
  pose proof (sorted_head_bound a rest Hs Hle) as Hh.
  inversion Hb as [|? ? Ha _]; subst.
  destruct (Nat.le_gt_cases (List.length rest) 28) as [Hl | Hl]; [cbn; lia|].
  exfalso.
  pose proof (decayFactor_decreasing 29 (List.length rest) Hl) as Hd.
  assert (H29 : decayFactor 29 < 0.05) by (vm_compute; reflexivity).
  lra.
Qed.

Lemma marketEvents_impact_range_witness :
  Forall (fun e => 0.05 < Qabs (impact e) <= 1)
         (marketEvents (updateMarketSentiment eventfulEnv
                          (updateMarketSentiment eventfulEnv world0))).
Proof.
  apply (marketEvents_impact_range eventfulEnv).
  eapply reachable_step; [|apply step_sentiment].
  eapply reachable_step; [apply reachable_init | apply step_sentiment].
Defined.

Lemma marketEvents_at_most_29_witness :
  (List.length (marketEvents (updateMarketSentiment eventfulEnv
                                (updateMarketSentiment eventfulEnv world0))) <= 29)%nat.
Proof.
  apply (marketEvents_at_most_29 eventfulEnv).
  eapply reachable_step; [|apply step_sentiment].
  eapply reachable_step; [apply reachable_init | apply step_sentiment].
Defined.

Lemma updateMarketSentiment_draws env w :
  randomCalls (updateMarketSentiment env w) =
  if (Math_random env (randomCalls w) <? NEWS_EVENT_PROBABILITY)%js
  then S (S (randomCalls w)) else S (randomCalls w).
Proof.
  unfold updateMarketSentiment.
  cbn [random set_marketEvents randomCalls systemState mlFeatureWeights marketEvents].
  destruct (jlt _ _); reflexivity.
Qed.

Lemma sameButEvents_updateMarketSentiment env w1 w2 :
  sameButEvents w1 w2 ->
  sameButEvents (updateMarketSentiment env w1) (updateMarketSentiment env w2).
Proof.
  intros (Hs & Hw & Hr). unfold sameButEvents.
  rewrite !(proj1 (updateMarketSentiment_fields env _)),
          !(proj2 (updateMarketSentiment_fields env _)),
          !updateMarketSentiment_draws, Hr.
  auto.
Qed.

Lemma sameButEvents_stateEvolution env w1 w2 confirmed payload :
  sameButEvents w1 w2 ->
  sameButEvents (stateEvolution env w1 confirmed payload)
                (stateEvolution env w2 confirmed payload).
Proof.
  intros H. unfold stateEvolution. destruct (_ =? _)%Z; [|exact H].
  apply sameButEvents_updateMarketSentiment.
  destruct H as (Hs & Hw & Hr). unfold sameButEvents.
  destruct (longTermGlobalAccuracy payload) as [acc|]; [destruct (truthy acc)|];
    cbn [systemState mlFeatureWeights randomCalls set_systemState set_mlFeatureWeights];
    rewrite ?Hs, ?Hw, ?Hr; auto.
Qed.

Lemma sameButEvents_pipelineWorld env w1 w2 confirmed payload :
  sameButEvents w1 w2 ->
  sameButEvents (pipelineWorld env w1 confirmed payload)
                (pipelineWorld env w2 confirmed payload).
Proof.
  intros H. apply (sameButEvents_stateEvolution env _ _ confirmed payload) in H.
  unfold pipelineWorld, defensiveStage. destruct (lastResultOf payload); [|exact H].
  destruct H as (Hs & Hw & Hr). unfold sameButEvents.
  cbn [systemState mlFeatureWeights randomCalls set_systemState].
  rewrite ?Hs, ?Hw, ?Hr; auto.
Qed.

Lemma sameButEvents_randomDecision env w1 w2 level h :
  sameButEvents w1 w2 ->
  fst (randomDecision env w1 level h) = fst (randomDecision env w2 level h) /\
  sameButEvents (snd (randomDecision env w1 level h)) (snd (randomDecision env w2 level h)).
Proof.
  intros (Hs & Hw & Hr). unfold randomDecision, random, sameButEvents.
  cbn [fst snd systemState mlFeatureWeights randomCalls]. rewrite Hr. auto.
Qed.

(** X19: The sentiment events are never read by the prediction pipeline: from two
    states that differ only in their events, a cycle gives the same
    decision and the same payload, and leaves states that again differ only
    in their events. *)
Theorem sentiment_never_read env w1 w2 history payload :
  sameButEvents w1 w2 ->
  decisionOf (ultraAIPredict env w1 history payload)
  = decisionOf (ultraAIPredict env w2 history payload) /\
  statsOf (ultraAIPredict env w1 history payload)
  = statsOf (ultraAIPredict env w2 history payload) /\
  sameButEvents (worldOf (ultraAIPredict env w1 history payload))
                (worldOf (ultraAIPredict env w2 history payload)).
Proof.
  intros H. pose proof H as (Hs & Hw & Hr).
  pose proof (sameButEvents_pipelineWorld env w1 w2 (confirmedHistoryOf history) payload H)
    as Hp.
  pose proof Hp as (Ps & Pw & Pr).
  destruct (Z_lt_le_dec (len (confirmedHistoryOf history)) (MIN_HISTORY (systemState w1)))
    as [Hlt | Hge].
  - rewrite (ultraAIPredict_gate env w1 _ _ Hlt).
    rewrite Hs in Hlt. rewrite (ultraAIPredict_gate env w2 _ _ Hlt).
    destruct (sameButEvents_randomDecision env w1 w2 1 INSUFFICIENT_HISTORY H) as [E1 E2].
    unfold decisionOf, statsOf, worldOf. cbn [fst snd]. auto.
  - assert (Hge2 : (MIN_HISTORY (systemState w2) <= len (confirmedHistoryOf history))%Z)
      by (now rewrite <- Hs).
    destruct (analyzeUnifiedMLModel
                (mlFeatureWeights (pipelineWorld env w1 (confirmedHistoryOf history) payload))
                (createFeatureSetForML env
                   (systemState (pipelineWorld env w1 (confirmedHistoryOf history) payload))
                   (confirmedHistoryOf history))) as [pm|] eqn:Hm.
    + pose proof Hm as Hm2. rewrite Ps, Pw in Hm2.
      destruct (ultraAIPredict_consensus env w1 history payload pm Hge Hm) as [A1 A2].
      destruct (ultraAIPredict_consensus env w2 history payload pm Hge2 Hm2) as [B1 B2].
      rewrite (ultraAIPredict_consensus_stats env w1 history payload pm Hge Hm).
      rewrite (ultraAIPredict_consensus_stats env w2 history payload pm Hge2 Hm2).
      rewrite A1, B1, A2, B2, Ps. auto.
    + pose proof Hm as Hm2. rewrite Ps, Pw in Hm2.
      rewrite (ultraAIPredict_uncertain env w1 history payload Hge Hm).
      rewrite (ultraAIPredict_uncertain env w2 history payload Hge2 Hm2).
      destruct (sameButEvents_randomDecision env _ _ 0 MODEL_UNCERTAIN Hp) as [E1 E2].
      unfold decisionOf, statsOf, worldOf. cbn [fst snd]. auto.
Qed.

Lemma sentiment_never_read_witness :
  decisionOf (ultraAIPredict sampleEnv (updateMarketSentiment eventfulEnv world0)
                (map Some steadyHistory) resolvedStats)
  = decisionOf (ultraAIPredict sampleEnv
                  (set_marketEvents (updateMarketSentiment eventfulEnv world0) [])
                  (map Some steadyHistory) resolvedStats).
Proof.
  apply (sentiment_never_read sampleEnv).
  repeat split.
Defined.

(** ** The range detectors *)

Lemma fold_Math_min_spec r x :
  (fold_left Math_min r x = x \/ In (fold_left Math_min r x) r) /\
  fold_left Math_min r x <= x /\
  (forall y, In y r -> fold_left Math_min r x <= y).
Proof.
  revert x. induction r as [|a r IH]; intros x; cbn [fold_left].
  - split; [now left|]. split; [lra|]. intros y [].
  - destruct (IH (Math_min x a)) as (H1 & H2 & H3).
    destruct (Math_min_spec x a) as (M1 & M2 & M3).
    split; [|split].
    + destruct H1 as [H1 | H1]; [|right; now right].
      rewrite H1. destruct M3 as [-> | ->]; [now left | right; now left].
    + lra.
    + intros y [<- | Hy]; [lra | now apply H3].
Qed.

Lemma fold_Math_max_spec r x :
  (fold_left Math_max r x = x \/ In (fold_left Math_max r x) r) /\
  x <= fold_left Math_max r x /\
  (forall y, In y r -> y <= fold_left Math_max r x).
Proof.
  revert x. induction r as [|a r IH]; intros x; cbn [fold_left].
  - split; [now left|]. split; [lra|]. intros y [].
  - destruct (IH (Math_max x a)) as (H1 & H2 & H3).
    destruct (Math_max_spec x a) as (M1 & M2 & M3).
    split; [|split].
    + destruct H1 as [H1 | H1]; [|right; now right].
      rewrite H1. destruct M3 as [-> | ->]; [now left | right; now left].
    + lra.
    + intros y [<- | Hy]; [lra | now apply H3].
Qed.

(** On a non-empty array [Math.min] and [Math.max] return an element that
    bounds every element. *)
Lemma Math_min_of_spec l :
  l <> [] -> In (Math_min_of l) l /\ forall y, In y l -> Math_min_of l <= y.
Proof.
  destruct l as [|x r]; [congruence|]. intros _. cbn [Math_min_of].
  destruct (fold_Math_min_spec r x) as (H1 & H2 & H3). split.
  - destruct H1 as [-> | H1]; [now left | now right].
  - intros y [<- | Hy]; [exact H2 | now apply H3].
Qed.

Lemma Math_max_of_spec l :
  l <> [] -> In (Math_max_of l) l /\ forall y, In y l -> y <= Math_max_of l.
Proof.
  destruct l as [|x r]; [congruence|]. intros _. cbn [Math_max_of].
  destruct (fold_Math_max_spec r x) as (H1 & H2 & H3). split.
  - destruct H1 as [-> | H1]; [now left | now right].
  - intros y [<- | Hy]; [exact H2 | now apply H3].
Qed.

Lemma slice0_nonempty {A} n (l : list A) : (0 < n)%Z -> (n <= len (slice0 n l))%Z -> slice0 n l <> [].
Proof.
  intros Hn Hl E. rewrite E in Hl. unfold len in Hl. cbn in Hl. lia.
Qed.

Lemma at_0_In l : l <> [] -> In (at_ l 0) l.
Proof. destruct l; [congruence|]. intros _. now left. Qed.

(** X20: The stochastic detector looks at the 14 newest numbers.  It abstains
    when they are all equal; when the newest one is the highest of a window
    that is not flat it votes SMALL, when it is the lowest it votes BIG. *)
Theorem analyzeStochastic_extremes history :
  let window := slice0 14 (numbersOf history) in
  (14 <= len (numbersOf history))%Z ->
  ((forall y, In y window -> y == at_ window 0) -> analyzeStochastic history = None) /\
  ((forall y, In y window -> y <= at_ window 0) ->
   (exists y, In y window /\ y < at_ window 0) ->
   analyzeStochastic history = Some {| vote := SMALL; source := "Stochastic" |}) /\
  ((forall y, In y window -> at_ window 0 <= y) ->
   (exists y, In y window /\ at_ window 0 < y) ->
   analyzeStochastic history = Some {| vote := BIG; source := "Stochastic" |}).
Proof.
  intros window Hlen. unfold analyzeStochastic. fold window.
  assert (Hw : (len window = 14)%Z).
  { subst window. rewrite len_slice0 by lia. lia. }
  replace (len window <? 14)%Z with false by (symmetry; apply Z.ltb_ge; lia).
  assert (Hne : window <> []).
  { intros E. rewrite E in Hw. discriminate. }
  destruct (Math_min_of_spec window Hne) as [Hmin1 Hmin2].
  destruct (Math_max_of_spec window Hne) as [Hmax1 Hmax2].
  pose proof (at_0_In window Hne) as H0.
  set (lo := Math_min_of window) in *. set (hi := Math_max_of window) in *.
  set (cur := at_ window 0) in *. clearbody lo hi cur.
  split; [|split].
  - intros Hflat.
    replace (hi === lo)%js with true; [reflexivity|].
    symmetry. apply jeq_true. rewrite (Hflat hi Hmax1), (Hflat lo Hmin1). reflexivity.
  - intros Htop (y & Hy & Hlt).
    assert (Hcur : cur == hi).
    { pose proof (Htop hi Hmax1). pose proof (Hmax2 cur H0). lra. }
    assert (Hlo : lo < hi).
    { pose proof (Hmin2 y Hy). lra. }
    replace (hi === lo)%js with false
      by (symmetry; apply not_true_is_false; intros E; apply jeq_true in E; lra).
    assert (HK : (100 * ((cur - lo) / (hi - lo)))%js == 100).
    { js_exact. rewrite Hcur. field. lra. }
    replace (_ >? 85)%js with true; [reflexivity|].
    symmetry. apply jgt_true. rewrite HK. lra.
  - intros Hbot (y & Hy & Hlt).
    assert (Hcur : cur == lo).
    { pose proof (Hbot lo Hmin1). pose proof (Hmin2 cur H0). lra. }
    assert (Hlo : lo < hi).
    { pose proof (Hmax2 y Hy). lra. }
    replace (hi === lo)%js with false
      by (symmetry; apply not_true_is_false; intros E; apply jeq_true in E; lra).
    assert (HK : (100 * ((cur - lo) / (hi - lo)))%js == 0).
    { js_exact. rewrite Hcur. field. lra. }
    replace (_ >? 85)%js with false
      by (symmetry; apply jgt_false; rewrite HK; lra).
    replace (_ <? 15)%js with true; [reflexivity|].
    symmetry. apply jlt_true. rewrite HK. lra.
Qed.

Lemma analyzeStochastic_extremes_witness :
  analyzeStochastic steadyHistory = None /\
  analyzeStochastic peakHistory = Some {| vote := SMALL; source := "Stochastic" |} /\
  analyzeStochastic troughHistory = Some {| vote := BIG; source := "Stochastic" |}.
Proof.
  split; [|split].
  - apply (proj1 (analyzeStochastic_extremes steadyHistory ltac:(vm_compute; discriminate))).
    intros y Hy. vm_compute in Hy.
    repeat (destruct Hy as [<- | Hy]; [reflexivity|]). destruct Hy.
  - apply (proj1 (proj2 (analyzeStochastic_extremes peakHistory
                           ltac:(vm_compute; discriminate)))).
    + intros y Hy. vm_compute in Hy.
      repeat (destruct Hy as [<- | Hy]; [vm_compute; discriminate|]). destruct Hy.
    + exists 0. split; [right; left; reflexivity | reflexivity].
  - apply (proj2 (proj2 (analyzeStochastic_extremes troughHistory
                           ltac:(vm_compute; discriminate)))).
    + intros y Hy. vm_compute in Hy.
      repeat (destruct Hy as [<- | Hy]; [vm_compute; discriminate|]). destruct Hy.
    + exists 9. split; [right; left; reflexivity | reflexivity].
Defined.

(** ** Entering defensive mode *)

Lemma detectBadTrend_true st history :
  detectBadTrend st history = true <->
  (30 <= len history)%Z /\
  (15 <= recentWins history + recentLosses history)%Z /\
  inject_Z (recentWins history)
  < BAD_TREND_THRESHOLD st * inject_Z (recentWins history + recentLosses history).
Proof.
  unfold detectBadTrend, recentWins, recentLosses.
  set (wins := countStatus Win _). set (losses := countStatus Loss _).
  destruct (len history <? 30)%Z eqn:E1.
  { apply Z.ltb_lt in E1. split; [discriminate | lia]. }
  apply Z.ltb_ge in E1.
  destruct (wins + losses <? 15)%Z eqn:E2.
  { apply Z.ltb_lt in E2. split; [discriminate | lia]. }
  apply Z.ltb_ge in E2.
  assert (Hpos : 0 < inject_Z (wins + losses)).
  { change 0 with (inject_Z 0). rewrite <- Zlt_Qlt. lia. }
  rewrite jlt_true, jdiv_correct.
  set (a := inject_Z wins) in *. set (b := inject_Z (wins + losses)) in *.
  assert (Ha : a == a / b * b) by (field; lra).
  set (q := a / b) in *. clearbody q a b.
  split.
  - intros H. repeat split; try assumption. rewrite Ha. nra.
  - intros (_ & _ & H). rewrite Ha in H. nra.
Qed.

(** X21: At a reachable state a bad trend needs 30 records, at least 15 resolved
    ones among the 30 newest and a win rate below 48%; a win rate below 42%
    on such a window is always a bad trend. *)
Theorem detectBadTrend_thresholds env w history :
  reachable env w ->
  let wins := recentWins history in
  let losses := recentLosses history in
  (detectBadTrend (systemState w) history = true ->
   (30 <= len history)%Z /\ (15 <= wins + losses)%Z /\
   (100 * wins < 48 * (wins + losses))%Z) /\
  ((30 <= len history)%Z -> (15 <= wins + losses)%Z ->
   (100 * wins < 42 * (wins + losses))%Z ->
   detectBadTrend (systemState w) history = true).
Proof.
  intros Hr wins losses.
  pose proof (inv_threshold w (reachable_Invariant env w Hr)) as Ht.
  assert (Hq : forall k, (100 * wins < k * (wins + losses))%Z <->
                         inject_Z wins < (inject_Z k / 100) * inject_Z (wins + losses)).
  { intros k. rewrite Zlt_Qlt, !inject_Z_mult.
    change (inject_Z 100) with 100.
    set (a := inject_Z wins). set (b := inject_Z (wins + losses)).
    set (c := inject_Z k). clearbody a b c.
    assert (E : c / 100 * b == c * b / 100) by (field; lra).
    rewrite E. split; intros H.
    - apply Qlt_shift_div_l; lra.
    - assert (E2 : c * b == c * b / 100 * 100) by (field; lra).
      rewrite E2. set (q := c * b / 100) in *. clearbody q. lra. }
  assert (Hb : 0 <= inject_Z (wins + losses) \/ (wins + losses < 15)%Z).
  { destruct (Z_lt_le_dec (wins + losses) 15); [now right|]. left.
    change 0 with (inject_Z 0). rewrite <- Zle_Qle. lia. }
  pose proof (detectBadTrend_true (systemState w) history) as Hd.
  fold wins losses in Hd.
  specialize (Hq 48%Z) as H48. specialize (Hq 42%Z) as H42.
  change (inject_Z 48 / 100) with 0.48 in H48.
  change (inject_Z 42 / 100) with 0.42 in H42.
  set (a := inject_Z wins) in *. set (b := inject_Z (wins + losses)) in *.
  set (t := BAD_TREND_THRESHOLD (systemState w)) in *. clearbody a b t.
  split.
  - intros H. apply Hd in H. destruct H as (H1 & H2 & H3).
    repeat split; try assumption.
    apply H48. destruct Hb as [Hb | Hb]; [nra | lia].
  - intros H1 H2 H3. apply Hd.
    repeat split; try assumption.
    apply H42 in H3. destruct Hb as [Hb | Hb]; [nra | lia].
Qed.

Lemma detectBadTrend_thresholds_witness :
  detectBadTrend (systemState world0) mixedHistory = true /\
  (100 * recentWins mixedHistory
   < 48 * (recentWins mixedHistory + recentLosses mixedHistory))%Z.
Proof.
  destruct (detectBadTrend_thresholds sampleEnv world0 mixedHistory
              (reachable_init sampleEnv)) as [H1 H2].
  assert (H : detectBadTrend (systemState world0) mixedHistory = true).
  { apply H2; vm_compute; congruence. }
  split; [exact H|]. apply (H1 H).
Defined.

(** X22: The defensive flag after an evaluation: it is on exactly when a bad
    trend is detected or it was on before, and the three newest records are
    not all wins.  Three wins on top switch it off even during a bad trend;
    nothing else in the system state changes. *)
Theorem manageDefensiveMode_flag st history :
  DEFENSIVE_MODE_ACTIVE (manageDefensiveMode st history) =
    (detectBadTrend st history || DEFENSIVE_MODE_ACTIVE st)
    && negb (newestThreeAreWins history) /\
  MIN_HISTORY (manageDefensiveMode st history) = MIN_HISTORY st /\
  BAD_TREND_THRESHOLD (manageDefensiveMode st history) = BAD_TREND_THRESHOLD st /\
  TARGET_ACCURACY (manageDefensiveMode st history) = TARGET_ACCURACY st /\
  EVOLUTION_RATE (manageDefensiveMode st history) = EVOLUTION_RATE st.
Proof.
  destruct (manageDefensiveMode_fields st history) as (F1 & F2 & F3 & F4).
  split; [|auto].
  unfold manageDefensiveMode.
  rewrite <- andb_assoc, <- newestThreeAreWins_last3.
  destruct (detectBadTrend st history), (DEFENSIVE_MODE_ACTIVE st) eqn:E,
    (newestThreeAreWins history);
    cbn [DEFENSIVE_MODE_ACTIVE set_DEFENSIVE_MODE_ACTIVE andb orb negb];
    rewrite ?E; reflexivity.
Qed.

(** ** What weight evolution reads *)

Lemma filter_all {A} (f : A -> bool) l : Forall (fun x => f x = true) l -> filter f l = l.
Proof.
  induction 1 as [|x l Hx _ IH]; cbn [filter]; [reflexivity|]. now rewrite Hx, IH.
Qed.

Lemma Forall_firstn {A} (P : A -> Prop) n l : Forall P l -> Forall P (firstn n l).
Proof.
  intros H. rewrite Forall_forall in *. intros x Hx. apply H. now apply In_firstn in Hx.
Qed.

Lemma recentTradesOf_without older newer p :
  hasFeaturesAndStatus p = false ->
  recentTradesOf (newer ++ p :: older) = recentTradesOf (newer ++ older).
Proof.
  intros Hp. unfold recentTradesOf. rewrite !filter_app. cbn [filter].
  now rewrite Hp.
Qed.

Lemma recentTradesOf_first_fifty newest older :
  List.length newest = 50%nat ->
  Forall (fun p => hasFeaturesAndStatus p = true) newest ->
  recentTradesOf (newest ++ older) = newest /\ recentTradesOf newest = newest.
Proof.
  intros Hn Hq. unfold recentTradesOf, slice0.
  rewrite filter_app, (filter_all _ _ Hq).
  change (Z.to_nat 50) with 50%nat. rewrite <- Hn. split.
  - rewrite firstn_app, Nat.sub_diag, firstn_all. cbn [firstn]. apply app_nil_r.
  - apply firstn_all.
Qed.

(** X23: Weight evolution ignores every record that lacks a feature snapshot
    or a status, wherever it stands in the history, and every record that
    comes after fifty records carrying both. *)
Theorem evolveMLWeights_ignored_records ws :
  (forall newer p older,
     mlFeatures p = None \/ status p = None ->
     evolveMLWeights ws (newer ++ p :: older) = evolveMLWeights ws (newer ++ older)) /\
  (forall newest older,
     List.length newest = 50%nat ->
     Forall (fun p => mlFeatures p <> None /\ status p <> None) newest ->
     evolveMLWeights ws (newest ++ older) = evolveMLWeights ws newest).
Proof.
  split.
  - intros newer p older Hp. unfold evolveMLWeights.
    rewrite recentTradesOf_without; [reflexivity|].
    unfold hasFeaturesAndStatus.
    destruct Hp as [-> | ->]; [reflexivity|].
    now destruct (mlFeatures p).
  - intros newest older Hn Hq. unfold evolveMLWeights.
    destruct (recentTradesOf_first_fifty newest older Hn) as [E1 E2].
    + apply (Forall_impl _ (P := fun p => mlFeatures p <> None /\ status p <> None));
        [|exact Hq].
      intros p [Hf Hs]. unfold hasFeaturesAndStatus.
      destruct (mlFeatures p); [|congruence]. destruct (status p); congruence.
    + now rewrite E1, E2.
Qed.

(** A pass over forty trades with a pending record without snapshot among
    them, and a pass over fifty trades followed by fifty more. *)
Lemma evolveMLWeights_ignored_records_witness :
  evolveMLWeights mlFeatureWeights0 (twentyTrades ++ record 5 Pending :: twentyTrades)
  = evolveMLWeights mlFeatureWeights0 (twentyTrades ++ twentyTrades) /\
  evolveMLWeights mlFeatureWeights0 (repeat trade 50 ++ repeat (record 0 Loss) 50)
  = evolveMLWeights mlFeatureWeights0 (repeat trade 50).
Proof.
  destruct (evolveMLWeights_ignored_records mlFeatureWeights0) as [H1 H2].
  split.
  - apply H1. left. reflexivity.
  - apply H2; [reflexivity|].
    apply Forall_forall. intros p Hp. apply repeat_spec in Hp. subst p.
    split; discriminate.
Defined.

Lemma adjustForTrade_asRead ws rate adjustments p :
  adjustForTrade ws rate adjustments (asReadByEvolution p)
  = adjustForTrade ws rate adjustments p.
Proof.
  unfold adjustForTrade, asReadByEvolution, statusIs.
  cbn [status mlFeatures lastPredictedOutcome].
  destruct (status p) as [[]|], (lastPredictedOutcome p) as [[]|]; reflexivity.
Qed.

Lemma recentTradesOf_asRead history :
  recentTradesOf (map asReadByEvolution history)
  = map asReadByEvolution (recentTradesOf history).
Proof.
  unfold recentTradesOf, slice0. rewrite <- firstn_map. f_equal.
  induction history as [|p l IH]; cbn [map filter]; [reflexivity|].
  assert (E : hasFeaturesAndStatus (asReadByEvolution p) = hasFeaturesAndStatus p).
  { unfold hasFeaturesAndStatus, asReadByEvolution. cbn [status mlFeatures].
    destruct (mlFeatures p), (status p) as [[]|]; reflexivity. }
  rewrite E. destruct (hasFeaturesAndStatus p); cbn [map]; now rewrite IH.
Qed.

(** X24: Weight evolution only asks whether a trade was a win and whether it
    predicted BIG: a pending or cooldown record that carries a snapshot is
    penalised like a loss, a record without a prediction counts as a SMALL
    prediction. *)
Theorem evolveMLWeights_reads_win_and_big ws history :
  evolveMLWeights ws (map asReadByEvolution history) = evolveMLWeights ws history.
Proof.
  unfold evolveMLWeights. rewrite recentTradesOf_asRead.
  unfold len. rewrite length_map.
  destruct (_ <? _)%Z; [reflexivity|].
  assert (E : forall l adj,
            fold_left (adjustForTrade ws 0.01) (map asReadByEvolution l) adj
            = fold_left (adjustForTrade ws 0.01) l adj).
  { induction l as [|p l IH]; intros adj; cbn [map fold_left]; [reflexivity|].
    rewrite adjustForTrade_asRead. apply IH. }
  now rewrite E.
Qed.

(** A history none of whose records carries a feature snapshot never
    changes the weights. *)
Lemma evolveMLWeights_no_snapshot ws history :
  Forall (fun p => mlFeatures p = None) history ->
  evolveMLWeights ws history = ws.
Proof.
  intros H. apply evolveMLWeights_skip.
  replace (recentTradesOf history) with (@nil Outcome); [reflexivity|].
  unfold recentTradesOf. symmetry.
  replace (filter hasFeaturesAndStatus history) with (@nil Outcome); [reflexivity|].
  symmetry. induction H as [|p l Hp _ IH]; cbn [filter]; [reflexivity|].
  unfold hasFeaturesAndStatus at 1. now rewrite Hp.
Qed.

(** ** The request handler *)

Lemma len_removelast {A} (l : list A) : len (removelast l) = (Z.max 0 (len l - 1))%Z.
Proof.
  unfold len. rewrite removelast_firstn_len, length_firstn. lia.
Qed.

Lemma len_updateStatus p s history : len (Server.updateStatus p s history) = len history.
Proof.
  unfold len. f_equal.
  induction history as [|e l IH]; cbn [Server.updateStatus]; [reflexivity|].
  destruct (String.eqb _ _); cbn [List.length]; congruence.
Qed.

Lemma Forall_removelast {A} (P : A -> Prop) l : Forall P l -> Forall P (removelast l).
Proof.
  intros H. rewrite removelast_firstn_len. now apply Forall_firstn.
Qed.

(** One request, seen from the history: a rejected or repeated request
    leaves the state alone; any other one stores the new record in front of
    the history, after the status update, and drops the oldest record beyond
    the cap. *)
Lemma predict_history pf env s body :
  snd (Server.predict pf env s body) = s \/
  exists status_update e,
    (status_update = Server.inMemoryHistory s \/
     exists st, status_update =
       Server.updateStatus (Server.period e) st (Server.inMemoryHistory s)) /\
    storedByHandler e /\ status (Server.outcome e) = Some Pending /\
    requestPeriod pf body = Some (Server.period e) /\
    Server.inMemoryHistory (snd (Server.predict pf env s body)) =
      (if (Server.MAX_HISTORY_LENGTH <? len (e :: status_update))%Z
       then removelast (e :: status_update) else e :: status_update) /\
    (exists r payload,
       r = ultraAIPredict env (Server.core s)
             (Server.coreHistory (Server.inMemoryHistory (snd (Server.predict pf env s body))))
             payload /\
       longTermGlobalAccuracy payload
         = longTermGlobalAccuracy (Server.inMemorySharedStats s) /\
       Server.core (snd (Server.predict pf env s body)) = worldOf r /\
       Server.inMemorySharedStats (snd (Server.predict pf env s body)) = statsOf r).
Proof.
  unfold Server.predict.
  destruct body as [gameResult|]; [|now left].
  destruct (String.eqb (Server.issueNumber gameResult) "") eqn:Eempty; [now left|].
  match goal with |- context [if ?c then (Server.AlreadyProcessed _ _, s) else _] =>
    destruct c end; [now left|].
  right.
  set (ended := Server.trim pf (Server.issueNumber gameResult)).
  set (resolved := match Server.inMemoryCurrentPrediction s with
                   | Some prev => if String.eqb (Server.forPeriod prev) ended
                                  then Some prev else None
                   | None => None
                   end).
  set (e := {| Server.period := ended;
               Server.outcome := {| actual := Server.Number_ (Server.number gameResult);
                                    actualNumber := Server.Number_ (Server.number gameResult);
                                    status := Some Pending; mlFeatures := None;
                                    lastPredictedOutcome := None |};
               Server.resultType := getBigSmallFromNumber
                                      (Server.Number_ (Server.number gameResult));
               Server.timestamp := Date_now env |}).
  set (h1 := match resolved with Some _ => _ | None => Server.inMemoryHistory s end).
  set (stats1 := match resolved with
                 | Some prev => Build_SharedStats _ _ _ _ _ _
                 | None => Server.inMemorySharedStats s end).
  exists h1, e.
  split; [|split; [|split; [|split; [|split]]]].
  - subst h1. destruct resolved; [right; eexists; reflexivity | now left].
  - unfold storedByHandler. subst e. cbn [Server.outcome actual actualNumber status
      mlFeatures lastPredictedOutcome].
    repeat split; try discriminate.
    destruct (Server.number gameResult); cbn [Server.Number_]; eauto.
  - reflexivity.
  - unfold requestPeriod. now rewrite Eempty.
  - destruct (Server.nextPeriodOf pf ended); reflexivity.
  - eexists. exists stats1.
    split; [reflexivity|]. split; [subst stats1; destruct resolved; reflexivity|].
    destruct (Server.nextPeriodOf pf ended); split; reflexivity.
Qed.

Lemma server_core_reachable pf env s :
  Server.reachable pf env s -> reachable env (Server.core s).
Proof.
  induction 1 as [|s body _ IH]; [apply reachable_init|].
  destruct (predict_history pf env s body) as [E | (h1 & e & _ & _ & _ & _ & _ & r & payload & Er & _ & Ec & _)].
  - now rewrite E.
  - rewrite Ec, Er. eapply reachable_step; [exact IH | apply step_cycle].
Qed.

(** X25: The history never holds more than 150 records. *)
Theorem server_history_capped pf env s :
  Server.reachable pf env s -> (len (Server.inMemoryHistory s) <= 150)%Z.
Proof.
  induction 1 as [|s body _ IH]; [unfold len; cbn; lia|].
  destruct (predict_history pf env s body) as [E | (h1 & e & Hh1 & _ & _ & _ & Eh & _)].
  - now rewrite E.
  - rewrite Eh.
    assert (Hl : len h1 = len (Server.inMemoryHistory s)).
    { destruct Hh1 as [-> | [st ->]]; [reflexivity | apply len_updateStatus]. }
    assert (Hc : len (e :: h1) = (len h1 + 1)%Z) by (unfold len; cbn [List.length]; lia).
    unfold Server.MAX_HISTORY_LENGTH.
    destruct (150 <? len (e :: h1))%Z eqn:E.
    + rewrite len_removelast. lia.
    + apply Z.ltb_ge in E. lia.
Qed.

Lemma server_history_capped_witness :
  (len (Server.inMemoryHistory
          (snd (Server.predict samplePlatform sampleEnv Server.initial sampleRequest)))
   <= 150)%Z.
Proof.
  apply (server_history_capped samplePlatform sampleEnv).
  apply Server.reachable_request, Server.reachable_initial.
Defined.

Lemma updateStatus_stored p st history :
  Forall storedByHandler history ->
  Forall storedByHandler (Server.updateStatus p st history).
Proof.
  induction 1 as [|e l He Hl IH]; cbn [Server.updateStatus]; [constructor|].
  destruct (String.eqb _ _); constructor; auto.
  unfold storedByHandler in *. cbn [Server.outcome Server.setStatus actual actualNumber
    status mlFeatures lastPredictedOutcome].
  destruct He as (H1 & H2 & _ & H4 & H5).
  split; [exact H1|]. split; [exact H2|]. split; [discriminate|]. split; assumption.
Qed.

Lemma server_entries_stored pf env s :
  Server.reachable pf env s -> Forall storedByHandler (Server.inMemoryHistory s).
Proof.
  induction 1 as [|s body _ IH]; [constructor|].
  destruct (predict_history pf env s body) as [E | (h1 & e & Hh1 & He & _ & _ & Eh & _)].
  - now rewrite E.
  - rewrite Eh.
    assert (Hl : Forall storedByHandler (e :: h1)).
    { constructor; [exact He|].
      destruct Hh1 as [-> | [st ->]]; [exact IH | now apply updateStatus_stored]. }
    destruct (_ <? _)%Z; [now apply Forall_removelast | exact Hl].
Qed.

(** Every record the handler stores passes the core's filter: the confirmed
    history is the whole history. *)
Lemma confirmedHistoryOf_coreHistory history :
  Forall storedByHandler history ->
  confirmedHistoryOf (Server.coreHistory history) = map Server.outcome history.
Proof.
  induction 1 as [|e l He _ IH]; cbn [Server.coreHistory map confirmedHistoryOf];
    [reflexivity|].
  fold (Server.coreHistory l). rewrite IH.
  destruct He as (H1 & H2 & _). rewrite <- H1.
  destruct H2 as [-> | [z ->]]; reflexivity.
Qed.

Lemma ultraAIPredict_threshold env w history payload :
  longTermGlobalAccuracy payload = None ->
  BAD_TREND_THRESHOLD (systemState (worldOf (ultraAIPredict env w history payload)))
  = BAD_TREND_THRESHOLD (systemState w).
Proof.
  intros Hacc.
  destruct (Z_lt_le_dec (len (confirmedHistoryOf history)) (MIN_HISTORY (systemState w)))
    as [Hlt | Hge].
  - rewrite (ultraAIPredict_gate _ _ _ _ Hlt). reflexivity.
  - destruct (ultraAIPredict_world env w history payload Hge) as [Es _]. rewrite Es.
    destruct (defensiveStage_frame (stateEvolution env w (confirmedHistoryOf history) payload)
                (confirmedHistoryOf history) payload) as (_ & _ & _ & H4).
    fold (pipelineWorld env w (confirmedHistoryOf history) payload) in H4.
    rewrite H4. unfold stateEvolution. destruct (_ =? _)%Z; [|reflexivity].
    rewrite (proj1 (updateMarketSentiment_fields env _)), Hacc. reflexivity.
Qed.

Lemma ultraAIPredict_accuracy_kept env w history payload :
  longTermGlobalAccuracy (statsOf (ultraAIPredict env w history payload))
  = longTermGlobalAccuracy payload.
Proof.
  destruct (ultraAIPredict_payload_aux env w history payload) as [H1 H2].
  destruct (finalConfidence (decisionOf (ultraAIPredict env w history payload))) eqn:E.
  - apply H2. discriminate.
  - now rewrite H1.
Qed.

Lemma serve_reachable pf env bodies s :
  Server.reachable pf env s -> Server.reachable pf env (serve pf env s bodies).
Proof.
  revert s. induction bodies as [|body rest IH]; intros s Hr; [exact Hr|].
  unfold serve. cbn [fold_left]. apply IH. now apply Server.reachable_request.
Qed.

(** X26: As the handler is wired, the adaptive parts of the core never take
    effect: no stored record carries a feature snapshot and the payload never
    carries a long-term accuracy, so at every state of the server the weight
    table is the initial one and the bad-trend threshold is 0.45. *)
Theorem server_learning_inert pf env s :
  Server.reachable pf env s ->
  Forall (fun e => mlFeatures (Server.outcome e) = None) (Server.inMemoryHistory s) /\
  longTermGlobalAccuracy (Server.inMemorySharedStats s) = None /\
  mlFeatureWeights (Server.core s) = mlFeatureWeights0 /\
  BAD_TREND_THRESHOLD (systemState (Server.core s)) = 0.45.
Proof.
  intros Hr.
  split.
  { pose proof (server_entries_stored pf env s Hr) as Hst.
    eapply Forall_impl; [|exact Hst]. intros e He. apply He. }
  assert (H : mlFeatureWeights (Server.core s) = mlFeatureWeights0 /\
              BAD_TREND_THRESHOLD (systemState (Server.core s)) = 0.45 /\
              longTermGlobalAccuracy (Server.inMemorySharedStats s) = None);
    [|tauto].
  pose proof Hr as Hr0.
  induction Hr as [|s body Hr IH]; [repeat split|].
  destruct IH as (IH1 & IH2 & IH3); [exact Hr|].
  pose proof (server_entries_stored pf env _ Hr0) as Hst.
  destruct (predict_history pf env s body)
    as [E | (h1 & e & _ & _ & _ & _ & _ & r & payload & Er & Eacc & Ec & Es)].
  - rewrite E. auto.
  - rewrite Ec, Es, Er. rewrite IH3 in Eacc.
    split; [|split].
    + destruct (ultraAIPredict_weights env (Server.core s)
                  (Server.coreHistory
                     (Server.inMemoryHistory (snd (Server.predict pf env s body))))
                  payload) as [E | E]; rewrite E; [exact IH1|].
      rewrite evolveMLWeights_no_snapshot; [exact IH1|].
      rewrite confirmedHistoryOf_coreHistory by exact Hst.
      apply Forall_map. eapply Forall_impl; [|exact Hst].
      intros x Hx. apply Hx.
    + rewrite ultraAIPredict_threshold by exact Eacc. exact IH2.
    + rewrite ultraAIPredict_accuracy_kept. exact Eacc.
Qed.

(** After rounds 1 to 100 the history holds one hundred confirmed records:
    the cycle of the last request passed the gate on a multiple of five and
    reached the evolution stage, where the weight pass found no qualifying
    record and the parameter tuning no accuracy figure; the decision it
    stored comes from the full pipeline. *)
Lemma server_learning_inert_witness :
  let s := serve decimalPlatform sampleEnv Server.initial hundredRounds in
  (len (confirmedHistoryOf (Server.coreHistory (Server.inMemoryHistory s))),
   option_map Server.systemHealth (Server.inMemoryCurrentPrediction s))
  = (100%Z, Some OK) /\
  Forall (fun e => mlFeatures (Server.outcome e) = None) (Server.inMemoryHistory s) /\
  longTermGlobalAccuracy (Server.inMemorySharedStats s) = None /\
  mlFeatureWeights (Server.core s) = mlFeatureWeights0 /\
  BAD_TREND_THRESHOLD (systemState (Server.core s)) = 0.45.
Proof.
  intros s. split.
  - vm_compute. reflexivity.
  - apply (server_learning_inert decimalPlatform sampleEnv).
    apply serve_reachable, Server.reachable_initial.
Defined.

(** What a processed request leaves behind. *)
Lemma predict_processed pf env s body :
  let resp := fst (Server.predict pf env s body) in
  let s' := snd (Server.predict pf env s body) in
  (resp = Server.InternalError \/ exists pd h, resp = Server.Complete pd h) ->
  exists gameResult,
    body = Some gameResult /\
    String.eqb (Server.issueNumber gameResult) "" = false /\
    Server.lastProcessedPeriod s'
      = Some (Server.trim pf (Server.issueNumber gameResult)) /\
    (forall pd h, resp = Server.Complete pd h ->
       Server.inMemoryCurrentPrediction s' = Some pd /\
       h = slice0 50 (Server.inMemoryHistory s') /\
       Server.nextPeriodOf pf (Server.trim pf (Server.issueNumber gameResult))
         = Some (Server.forPeriod pd)).
Proof.
  cbv zeta. unfold Server.predict.
  destruct body as [gameResult|];
    [|intros [H | (pd & h & H)]; cbn in H; discriminate].
  destruct (String.eqb (Server.issueNumber gameResult) "") eqn:Eempty;
    [intros [H | (pd & h & H)]; cbn in H; discriminate|].
  match goal with |- context [if ?c then (Server.AlreadyProcessed _ _, s) else _] =>
    destruct c end; [intros [H | (pd & h & H)]; cbn in H; discriminate|].
  intros _. exists gameResult. split; [reflexivity|]. split; [exact Eempty|].
  destruct (Server.nextPeriodOf pf _) as [next|]; cbn [fst snd
    Server.lastProcessedPeriod Server.inMemoryCurrentPrediction Server.inMemoryHistory].
  - split; [reflexivity|]. intros pd h H. injection H as <- <-. auto.
  - split; [reflexivity|]. intros pd h H. discriminate.
Qed.

(** X27: A request that was processed (answered with a prediction, or failed
    after the core had run) is remembered: submitting the same body again
    changes nothing and is answered from memory. *)
Theorem server_repeat_is_idempotent pf env s body :
  let resp := fst (Server.predict pf env s body) in
  let s' := snd (Server.predict pf env s body) in
  (forall pd h, resp = Server.Complete pd h ->
     Server.predict pf env s' body = (Server.AlreadyProcessed (Some pd) h, s')) /\
  (resp = Server.InternalError ->
     Server.predict pf env s' body =
       (Server.AlreadyProcessed (Server.inMemoryCurrentPrediction s')
                                (slice0 50 (Server.inMemoryHistory s')), s')).
Proof.
  cbv zeta.
  pose proof (predict_processed pf env s body) as Hp. cbv zeta in Hp.
  set (r := Server.predict pf env s body) in *. clearbody r.
  assert (Hrepeat : forall gameResult,
            body = Some gameResult ->
            String.eqb (Server.issueNumber gameResult) "" = false ->
            Server.lastProcessedPeriod (snd r)
              = Some (Server.trim pf (Server.issueNumber gameResult)) ->
            Server.predict pf env (snd r) body =
              (Server.AlreadyProcessed (Server.inMemoryCurrentPrediction (snd r))
                 (slice0 50 (Server.inMemoryHistory (snd r))), snd r)).
  { intros gameResult -> He Hl. unfold Server.predict.
    rewrite He, Hl, String.eqb_refl. reflexivity. }
  split.
  - intros pd h H.
    destruct Hp as (gameResult & Hb & He & Hl & Hc); [right; eauto|].
    destruct (Hc pd h H) as (Hcur & Hh & _).
    rewrite (Hrepeat gameResult Hb He Hl), Hcur, Hh. reflexivity.
  - intros H.
    destruct Hp as (gameResult & Hb & He & Hl & _); [now left|].
    apply (Hrepeat gameResult Hb He Hl).
Qed.

Lemma server_repeat_is_idempotent_witness :
  let s' := snd (Server.predict samplePlatform sampleEnv Server.initial sampleRequest) in
  exists pd h,
    Server.predict samplePlatform sampleEnv s' sampleRequest
    = (Server.AlreadyProcessed (Some pd) h, s').
Proof.
  destruct (Server.predict samplePlatform sampleEnv Server.initial sampleRequest)
    as [resp s1] eqn:E.
  pose proof (proj1 (server_repeat_is_idempotent samplePlatform sampleEnv
                       Server.initial sampleRequest)) as H.
  rewrite E in H. cbn [fst snd] in *.
  vm_compute in E. injection E as <- <-.
  eexists. eexists. apply H. reflexivity.
Defined.

Lemma updateStatus_fresh p st history :
  (forall e, In e history -> Server.period e <> p) ->
  Server.updateStatus p st history = history.
Proof.
  induction history as [|e l IH]; intros H; cbn [Server.updateStatus]; [reflexivity|].
  destruct (String.eqb (Server.period e) p) eqn:E.
  - apply String.eqb_eq in E. exfalso. apply (H e); [now left | exact E].
  - rewrite IH; [reflexivity|]. intros x Hx. apply H. now right.
Qed.

Lemma countStatus_pending s history :
  s <> Pending ->
  Forall (fun p => status p = Some Pending) history -> countStatus s history = 0%Z.
Proof.
  intros Hs H. unfold countStatus.
  replace (filter (fun p => statusIs p s) history) with (@nil Outcome); [reflexivity|].
  symmetry. induction H as [|p l Hp _ IH]; cbn [filter]; [reflexivity|].
  unfold statusIs at 1. rewrite Hp. destruct s; cbn; congruence.
Qed.

(** On a history whose records are all pending an evaluation of defensive
    mode changes nothing. *)
Lemma manageDefensiveMode_all_pending st history :
  Forall (fun p => status p = Some Pending) history ->
  manageDefensiveMode st history = st.
Proof.
  intros H.
  assert (Hbad : detectBadTrend st history = false).
  { unfold detectBadTrend. destruct (_ <? 30)%Z; [reflexivity|].
    rewrite !countStatus_pending; try discriminate; try (now apply Forall_firstn).
    reflexivity. }
  assert (Hthree : newestThreeAreWins history = false).
  { destruct H as [|a l Ha Hl]; [reflexivity|].
    destruct Hl as [|b l Hb Hl]; [reflexivity|].
    destruct Hl as [|c l Hc Hl]; [reflexivity|].
    unfold newestThreeAreWins, statusIs. now rewrite Ha. }
  unfold manageDefensiveMode. rewrite Hbad.
  rewrite <- andb_assoc, <- newestThreeAreWins_last3, Hthree, andb_false_r.
  reflexivity.
Qed.

Lemma ultraAIPredict_defensive_all_pending env w history payload :
  Forall (fun p => status p = Some Pending) (confirmedHistoryOf history) ->
  DEFENSIVE_MODE_ACTIVE (systemState (worldOf (ultraAIPredict env w history payload)))
  = DEFENSIVE_MODE_ACTIVE (systemState w).
Proof.
  intros H.
  destruct (Z_lt_le_dec (len (confirmedHistoryOf history)) (MIN_HISTORY (systemState w)))
    as [Hlt | Hge].
  - rewrite (ultraAIPredict_gate _ _ _ _ Hlt). reflexivity.
  - destruct (ultraAIPredict_world env w history payload Hge) as [Es _]. rewrite Es.
    unfold pipelineWorld, defensiveStage.
    destruct (lastResultOf payload); [|apply stateEvolution_defensive].
    cbn [systemState set_systemState].
    rewrite manageDefensiveMode_all_pending by exact H.
    apply stateEvolution_defensive.
Qed.

Lemma In_removelast {A} (x : A) l : In x (removelast l) -> In x l.
Proof. rewrite removelast_firstn_len. apply In_firstn. Qed.

(** X28: If no period is ever submitted twice, the status update never finds its
    record: every stored record stays pending and the server never enters
    defensive mode. *)
Theorem server_fresh_periods pf env bodies :
  NoDup (nonNull (map (requestPeriod pf) bodies)) ->
  let s := serve pf env Server.initial bodies in
  allPending (Server.inMemoryHistory s) /\
  DEFENSIVE_MODE_ACTIVE (systemState (Server.core s)) = false.
Proof.
  intros Hnd. cbv zeta.
  assert (Hgen : forall bodies s,
    Server.reachable pf env s ->
    allPending (Server.inMemoryHistory s) ->
    DEFENSIVE_MODE_ACTIVE (systemState (Server.core s)) = false ->
    NoDup (nonNull (map (requestPeriod pf) bodies)) ->
    (forall e p, In e (Server.inMemoryHistory s) ->
                 In p (nonNull (map (requestPeriod pf) bodies)) -> Server.period e <> p) ->
    allPending (Server.inMemoryHistory (serve pf env s bodies)) /\
    DEFENSIVE_MODE_ACTIVE (systemState (Server.core (serve pf env s bodies))) = false).
  { clear bodies Hnd. induction bodies as [|body rest IH];
      intros s Hr Hp Hd Hnd Hfresh; [cbn; auto|].
    unfold serve. cbn [fold_left]. fold (serve pf env (snd (Server.predict pf env s body)) rest).
    pose proof (Server.reachable_request pf env s body Hr) as Hr'.
    pose proof (server_entries_stored pf env _ Hr') as Hst.
    destruct (predict_history pf env s body)
      as [E | (h1 & e & Hh1 & _ & Hpend & Hper & Eh & r & payload & Er & _ & Ec & _)].
    - rewrite E. apply IH; auto.
      + cbn [map nonNull] in Hnd. destruct (requestPeriod pf body);
          [now inversion Hnd | exact Hnd].
      + intros x p Hx Hin. apply Hfresh; [exact Hx|].
        cbn [map nonNull]. destruct (requestPeriod pf body); [now right | exact Hin].
    - cbn [map nonNull] in Hnd, Hfresh. rewrite Hper in Hnd, Hfresh.
      inversion Hnd as [|? ? Hnotin Hnd']; subst.
      assert (Eh1 : h1 = Server.inMemoryHistory s).
      { destruct Hh1 as [-> | [st ->]]; [reflexivity|].
        apply updateStatus_fresh. intros x Hx. apply Hfresh; [exact Hx | now left]. }
      subst h1.
      assert (Hsub : forall x, In x (Server.inMemoryHistory (snd (Server.predict pf env s body)))
                               -> x = e \/ In x (Server.inMemoryHistory s)).
      { intros x Hx. rewrite Eh in Hx.
        destruct (_ <? _)%Z; [apply In_removelast in Hx|]; destruct Hx; auto. }
      assert (Hp' : allPending (Server.inMemoryHistory (snd (Server.predict pf env s body)))).
      { apply Forall_forall. intros x Hx. destruct (Hsub x Hx) as [-> | Hin];
          [exact Hpend|]. unfold allPending in Hp. rewrite Forall_forall in Hp. auto. }
      apply IH; auto.
      + rewrite Ec. rewrite ultraAIPredict_defensive_all_pending; [exact Hd|].
        rewrite confirmedHistoryOf_coreHistory by exact Hst.
        apply Forall_map. exact Hp'.
      + intros x p Hx Hin. destruct (Hsub x Hx) as [-> | Hin'].
        * intros Heq. rewrite Heq in Hnotin. contradiction.
        * apply Hfresh; [exact Hin' | now right]. }
  apply Hgen; auto.
  - apply Server.reachable_initial.
  - constructor.
Qed.

(** Rounds 1 to 100, each reported once and in order: every request from
    the second on resolves the previous prediction (the payload carries the
    outcome 5 of the last round), the status update looks for its record at
    each of them, and the cycle of the hundredth request passes the gate,
    counts the resolved round as a win and evaluates defensive mode. *)
Lemma server_fresh_periods_witness :
  let s := serve decimalPlatform sampleEnv Server.initial hundredRounds in
  (len (Server.inMemoryHistory s),
   lastActualOutcome (Server.inMemorySharedStats s),
   assignedStatus (Server.inMemorySharedStats s))
  = (100%Z, JNumber 5, Some Win) /\
  allPending (Server.inMemoryHistory s) /\
  DEFENSIVE_MODE_ACTIVE (systemState (Server.core s)) = false.
Proof.
  intros s. split.
  - vm_compute. reflexivity.
  - apply (server_fresh_periods decimalPlatform sampleEnv hundredRounds).
    assert (E : nodup string_dec (nonNull (map (requestPeriod decimalPlatform) hundredRounds))
                = nonNull (map (requestPeriod decimalPlatform) hundredRounds))
      by (vm_compute; reflexivity).
    rewrite <- E. apply NoDup_nodup.
Defined.

(** The prediction sent back, in terms of the decision of the core. *)
Lemma predict_complete pf env s body pd h :
  fst (Server.predict pf env s body) = Server.Complete pd h ->
  exists payload,
    let r := ultraAIPredict env (Server.core s)
               (Server.coreHistory (Server.inMemoryHistory (snd (Server.predict pf env s body))))
               payload in
    Server.prediction pd = finalDecision (decisionOf r) /\
    Server.confidence pd =
      match finalConfidence (decisionOf r) with
      | Some fc => if truthy fc then Server.Math_round (fc * 100)%js else 50%Z
      | None => 50%Z
      end /\
    Server.confidenceLevel pd = confidenceLevel (decisionOf r) /\
    Server.systemHealth pd = systemHealth (decisionOf r).
Proof.
  unfold Server.predict.
  destruct body as [gameResult|]; [|cbn; discriminate].
  destruct (String.eqb (Server.issueNumber gameResult) ""); [cbn; discriminate|].
  match goal with |- context [if ?c then (Server.AlreadyProcessed _ _, s) else _] =>
    destruct c end; [cbn; discriminate|].
  destruct (Server.nextPeriodOf pf _) as [next|]; cbn [fst snd Server.inMemoryHistory];
    [|discriminate].
  intros H. injection H as <- <-.
  eexists. cbv zeta.
  cbn [Server.prediction Server.confidence Server.confidenceLevel Server.systemHealth].
  repeat split.
Qed.

Lemma Math_round_percent fc :
  0 <= fc <= 1 -> (0 <= Server.Math_round (fc * 100%Q)%js <= 100)%Z.
Proof.
  intros H. unfold Server.Math_round.
  assert (H0 : 0 <= (fc * 100)%js + 0.5) by (rewrite jmul_correct; lra).
  assert (H1 : (fc * 100)%js + 0.5 <= 100.5) by (rewrite jmul_correct; lra).
  apply Qfloor_resp_le in H0, H1.
  change (Qfloor 0) with 0%Z in H0. change (Qfloor 100.5) with 100%Z in H1. lia.
Qed.

(** X29: What a client gets back for a processed request: the 50 newest records,
    a confidence between 0 and 100 percent, and the health flag
    INSUFFICIENT_HISTORY exactly while the history holds fewer than 100
    records; such a prediction is announced with confidence 50 and
    confidence level 1. *)
Theorem server_response pf env s body pd h :
  Server.reachable pf env s ->
  fst (Server.predict pf env s body) = Server.Complete pd h ->
  let s' := snd (Server.predict pf env s body) in
  h = slice0 50 (Server.inMemoryHistory s') /\
  (len h <= 50)%Z /\
  Server.inMemoryCurrentPrediction s' = Some pd /\
  (0 <= Server.confidence pd <= 100)%Z /\
  (Server.systemHealth pd = INSUFFICIENT_HISTORY <->
   (len (Server.inMemoryHistory s') < 100)%Z) /\
  (Server.systemHealth pd = INSUFFICIENT_HISTORY ->
   Server.confidence pd = 50%Z /\ Server.confidenceLevel pd = 1%Z).
Proof.
  intros Hr Hresp. cbv zeta.
  pose proof (Server.reachable_request pf env s body Hr) as Hr'.
  pose proof (server_entries_stored pf env _ Hr') as Hst.
  pose proof (server_core_reachable pf env s Hr) as Hcore.
  destruct (predict_processed pf env s body) as (gameResult & _ & _ & _ & Hc);
    [right; eauto|].
  destruct (Hc pd h Hresp) as (Hcur & Hh & _).
  destruct (predict_complete pf env s body pd h Hresp) as (payload & Hpd).
  cbv zeta in Hpd. destruct Hpd as (_ & Hconf & Hlevel & Hhealth).
  set (history' := Server.inMemoryHistory (snd (Server.predict pf env s body))) in *.
  set (r := ultraAIPredict env (Server.core s) (Server.coreHistory history') payload) in *.
  split; [exact Hh|]. split.
  { rewrite Hh, len_slice0 by lia. lia. }
  split; [exact Hcur|].
  assert (Hlen : len (confirmedHistoryOf (Server.coreHistory history')) = len history').
  { rewrite confirmedHistoryOf_coreHistory by exact Hst. unfold len. now rewrite length_map. }
  destruct (ultraAIPredict_health_aux env (Server.core s) (Server.coreHistory history') payload
              Hcore) as (Hins & _).
  fold r in Hins. rewrite Hlen in Hins.
  split; [|split].
  - rewrite Hconf. destruct (finalConfidence (decisionOf r)) as [fc|] eqn:Efc; [|lia].
    destruct (truthy fc); [|lia].
    apply Math_round_percent.
    apply (ultraAIPredict_confidence_bounds_aux env (Server.core s)
             (Server.coreHistory history') payload fc Efc).
  - rewrite Hhealth. exact Hins.
  - intros Hi. rewrite Hhealth in Hi. apply Hins in Hi.
    pose proof (inv_min_history _ (reachable_Invariant env _ Hcore)) as Hmin.
    rewrite <- Hlen, <- Hmin in Hi.
    rewrite Hconf, Hlevel. subst r.
    rewrite (ultraAIPredict_gate env (Server.core s) _ payload Hi).
    split; reflexivity.
Qed.

Lemma server_response_witness :
  let r := Server.predict samplePlatform sampleEnv Server.initial sampleRequest in
  exists pd h,
    fst r = Server.Complete pd h /\
    (0 <= Server.confidence pd <= 100)%Z /\
    (Server.systemHealth pd = INSUFFICIENT_HISTORY ->
     Server.confidence pd = 50%Z /\ Server.confidenceLevel pd = 1%Z).
Proof.
  cbv zeta.
  destruct (fst (Server.predict samplePlatform sampleEnv Server.initial sampleRequest))
    as [| |pd h|] eqn:E; try (vm_compute in E; discriminate).
  exists pd, h. split; [reflexivity|].
  destruct (server_response samplePlatform sampleEnv Server.initial sampleRequest pd h
              (Server.reachable_initial _ _) E) as (_ & _ & _ & H4 & _ & H6).
  split; [exact H4 | exact H6].
Defined.

(** X30: On a flat market the price-action and mean-reversion detectors abstain:
    when the 5, respectively 20, newest numbers are all equal, neither casts
    a vote, whatever the standard deviation is computed to be. *)
Theorem flat_window_abstains env history x :
  ((forall y, In y (slice0 5 (numbersOf history)) -> y == x) ->
   analyzePriceAction history = None) /\
  ((forall y, In y (slice0 20 (numbersOf history)) -> y == x) ->
   analyzeMeanReversion env history = None).
Proof.
  split; intros Hflat.
  - unfold analyzePriceAction.
    set (numbers := slice0 5 (numbersOf history)) in *.
    destruct (len numbers <? 5)%Z eqn:E; [reflexivity|]. apply Z.ltb_ge in E.
    assert (Hat : forall i, (i < 5)%nat -> at_ numbers i == x).
    { intros i Hi. apply Hflat. unfold at_. apply nth_In. unfold len in E. lia. }
    replace (at_ numbers 0 >? at_ numbers 2)%js with false
      by (symmetry; apply jgt_false; rewrite !Hat by lia; lra).
    replace (at_ numbers 0 <? at_ numbers 2)%js with false
      by (symmetry; apply jlt_false; rewrite !Hat by lia; lra).
    reflexivity.
  - unfold analyzeMeanReversion.
    set (numbers := slice0 20 (numbersOf history)) in *.
    destruct (len numbers <? 20)%Z eqn:E; [reflexivity|]. apply Z.ltb_ge in E.
    destruct (calculateSMA numbers 20) as [sma|] eqn:Es; [|reflexivity].
    destruct (calculateStdDev env numbers 20) as [stdDev|]; [|reflexivity].
    assert (Hsma : sma == x).
    { pose proof (calculateSMA_between_aux x x numbers 20 sma Es) as H.
      destruct H as [H1 H2]; [|lra].
      intros y Hy. apply In_firstn in Hy. rewrite (Hflat y Hy). lra. }
    assert (Hcur : at_ numbers 0 == x).
    { apply Hflat. unfold at_. apply nth_In. unfold len in E. lia. }
    assert (Hz : ((at_ numbers 0 - sma) / stdDev)%js == 0).
    { js_exact. rewrite Hcur, Hsma. unfold Qdiv. ring. }
    replace (_ >? 1.5)%js with false by (symmetry; apply jgt_false; rewrite Hz; lra).
    replace (_ <? -1.5)%js with false by (symmetry; apply jlt_false; rewrite Hz; lra).
    reflexivity.
Qed.

Lemma flat_window_abstains_witness :
  analyzePriceAction steadyHistory = None /\
  analyzeMeanReversion sampleEnv steadyHistory = None.
Proof.
  split.
  - apply (proj1 (flat_window_abstains sampleEnv steadyHistory 5)).
    intros y Hy. vm_compute in Hy.
    repeat (destruct Hy as [<- | Hy]; [reflexivity|]). destruct Hy.
  - apply (proj2 (flat_window_abstains sampleEnv steadyHistory 5)).
    intros y Hy. vm_compute in Hy.
    repeat (destruct Hy as [<- | Hy]; [reflexivity|]). destruct Hy.
Defined.
